(** * GA4 relational pipeline: a shallow embedding of [ga4_relational_pipeline.py]

    The pipeline is a batch job around one SQLite file: it reads the
    watermark (the largest stored date), fetches three reports from the
    remote API behind a bounded retry, normalises the rows and writes them
    in one transaction.  The embedding below follows the Python source
    function by function.  Effects are explicit: a computation is a function
    from a [World] (committed database, clock of external operations, trace
    of observable events) to a result and a new world; Python exceptions are
    the [Raise] results.  Everything outside the program (which external
    operation fails, what the remote API answers, the current day, the
    iteration order of a [set]) is gathered in an [Env]. *)

From Stdlib Require Import ZArith List String Ascii Bool Lia.
From Stdlib Require Import Permutation.
Import ListNotations.

Local Open Scope string_scope.
Local Open Scope Z_scope.

(** ** Exceptions and results *)

(** The exception classes that occur; all of them derive from [Exception],
    so every [except Exception] clause of the source catches each of them. *)
Inductive exn : Type :=
| OperationalError   (* sqlite3: the storage backend failed *)
| IntegrityError     (* sqlite3: a constraint was violated *)
| KeyError
| IndexError
| ValueError
| OverflowError
| OSError            (* file system, during the CSV export *)
| GoogleAPIError     (* client construction or run_report *)
| RetryError.        (* tenacity, once the attempts are used up *)

Inductive result (A : Type) : Type :=
| Ok (a : A)
| Raise (e : exn).

Arguments Ok {A} a.
Arguments Raise {A} e.

Definition is_ok {A} (r : result A) : bool :=
  match r with Ok _ => true | Raise _ => false end.

(** ** Python strings

    A [str] is modelled by [string]; the characters are code points below
    256.  On that range the regular-expression class [\d] and the digits
    accepted by [int] are exactly the ASCII digits. *)
Module PyStr.

Definition chars (s : string) : list ascii := list_ascii_of_string s.
Definition of_chars (l : list ascii) : string := string_of_list_ascii l.

(** [s[i:j]] for [0 <= i <= j]: indices past the end are clamped, a slice
    never raises. *)
Definition slice (i j : nat) (s : string) : string :=
  substring i (j - i) s.

Definition code (c : ascii) : Z := Z.of_nat (nat_of_ascii c).

Definition is_digit (c : ascii) : bool := (48 <=? code c) && (code c <=? 57).

Definition digit_value (c : ascii) : Z := code c - 48.

(** [str.isspace] on one character of the modelled range. *)
Definition is_space (c : ascii) : bool :=
  let n := code c in
  ((9 <=? n) && (n <=? 13)) || ((28 <=? n) && (n <=? 32))
  || (n =? 133) || (n =? 160).

Fixpoint lstrip (l : list ascii) : list ascii :=
  match l with
  | c :: t => if is_space c then lstrip t else l
  | [] => []
  end.

Definition strip (l : list ascii) : list ascii :=
  rev (lstrip (rev (lstrip l))).

Definition lower (c : ascii) : ascii :=
  if (65 <=? code c) && (code c <=? 90)
  then ascii_of_nat (nat_of_ascii c + 32) else c.

(** The rest of a [digitpart ::= digit (["_"] digit)*] once its first digit
    has been read: the value so far, the number of digits so far, and the
    unread input. *)
Fixpoint digits_tail (acc : Z) (n : nat) (l : list ascii) {struct l}
  : Z * nat * list ascii :=
  match l with
  | [] => (acc, n, [])
  | c :: t =>
      if is_digit c then digits_tail (10 * acc + digit_value c) (S n) t
      else if Ascii.eqb c "_"%char then
        match t with
        | d :: t' =>
            if is_digit d
            then digits_tail (10 * acc + digit_value d) (S n) t'
            else (acc, n, l)
        | [] => (acc, n, l)
        end
      else (acc, n, l)
  end.

Definition digitpart (l : list ascii) : option (Z * nat * list ascii) :=
  match l with
  | c :: t => if is_digit c then Some (digits_tail (digit_value c) 1 t)
              else None
  | [] => None
  end.

(** An optional sign; [true] stands for a minus. *)
Definition sign (l : list ascii) : bool * list ascii :=
  match l with
  | c :: t => if Ascii.eqb c "-"%char then (true, t)
              else if Ascii.eqb c "+"%char then (false, t)
              else (false, l)
  | [] => (false, l)
  end.

(** [int(s)] in base ten: surrounding white space, an optional sign, and a
    digit part; anything else is a [ValueError]. *)
Definition py_int (s : string) : result Z :=
  let (neg, l) := sign (strip (chars s)) in
  match digitpart l with
  | Some (v, _, []) => Ok (if neg then - v else v)
  | _ => Raise ValueError
  end.

(** A Python [float], kept as the exact decimal that was read: the
    rounding to binary64 is left out, the value only travels from the
    report to the fact row. *)
Inductive pyfloat : Type :=
| F_nan
| F_inf (neg : bool)
| F_dec (neg : bool) (mantissa : Z) (exp10 : Z).

Definition lower_is (l : list ascii) (w : string) : bool :=
  String.eqb (of_chars (map lower l)) w.

(** [exponent ::= ("e" | "E") [sign] digitpart], up to the end. *)
Definition exponent (l : list ascii) : option Z :=
  match l with
  | [] => Some 0
  | c :: t =>
      if Ascii.eqb (lower c) "e"%char then
        let (neg, t') := sign t in
        match digitpart t' with
        | Some (v, _, []) => Some (if neg then - v else v)
        | _ => None
        end
      else None
  end.

(** [number ::= [digitpart] "." digitpart | digitpart ["."]] followed by
    an optional exponent. *)
Definition floatnumber (neg : bool) (l : list ascii) : option pyfloat :=
  match digitpart l with
  | Some (i, _, r) =>
      match r with
      | c :: r' =>
          if Ascii.eqb c "."%char then
            match digitpart r' with
            | Some (f, k, r'') =>
                match exponent r'' with
                | Some e =>
                    Some (F_dec neg (i * 10 ^ Z.of_nat k + f) (e - Z.of_nat k))
                | None => None
                end
            | None =>
                match exponent r' with
                | Some e => Some (F_dec neg i e)
                | None => None
                end
            end
          else
            match exponent r with
            | Some e => Some (F_dec neg i e)
            | None => None
            end
      | [] => Some (F_dec neg i 0)
      end
  | None =>
      match l with
      | c :: r' =>
          if Ascii.eqb c "."%char then
            match digitpart r' with
            | Some (f, k, r'') =>
                match exponent r'' with
                | Some e => Some (F_dec neg f (e - Z.of_nat k))
                | None => None
                end
            | None => None
            end
          else None
      | [] => None
      end
  end.

(** [float(s)]. *)
Definition py_float (s : string) : result pyfloat :=
  let (neg, l) := sign (strip (chars s)) in
  if lower_is l "inf" || lower_is l "infinity" then Ok (F_inf neg)
  else if lower_is l "nan" then Ok F_nan
  else match floatnumber neg l with
       | Some f => Ok f
       | None => Raise ValueError
       end.

(** Decimal rendering with zero padding to two and to four places, as
    [%m], [%d] and [%Y] print the fields of a date. *)
Definition digit_char (d : Z) : ascii := ascii_of_nat (Z.to_nat (48 + d mod 10)).

Definition zpad2 (n : Z) : string :=
  of_chars [digit_char (n / 10); digit_char n].

Definition zpad4 (n : Z) : string :=
  of_chars [digit_char (n / 1000); digit_char (n / 100);
            digit_char (n / 10); digit_char n].

End PyStr.

(** ** Calendar dates ([datetime.date])

    The proleptic Gregorian calendar of the [datetime] module: a date holds
    year, month and day, and day arithmetic goes through the ordinal
    ([0001-01-01] is day one). *)
Module PyDate.

Record date : Type := mkdate { year : Z; month : Z; day : Z }.

Definition MINYEAR : Z := 1.
Definition MAXYEAR : Z := 9999.
Definition MAXORDINAL : Z := 3652059.

Definition is_leap (y : Z) : bool :=
  (y mod 4 =? 0) && (negb (y mod 100 =? 0) || (y mod 400 =? 0)).

Definition DAYS_IN_MONTH : list Z :=
  [-1; 31; 28; 31; 30; 31; 30; 31; 31; 30; 31; 30; 31].

Definition DAYS_BEFORE_MONTH : list Z :=
  [-1; 0; 31; 59; 90; 120; 151; 181; 212; 243; 273; 304; 334].

Definition table (t : list Z) (m : Z) : Z := nth (Z.to_nat m) t 0.

Definition days_before_year (y : Z) : Z :=
  let y' := y - 1 in y' * 365 + y' / 4 - y' / 100 + y' / 400.

Definition days_in_month (y m : Z) : Z :=
  if (m =? 2) && is_leap y then 29 else table DAYS_IN_MONTH m.

Definition days_before_month (y m : Z) : Z :=
  table DAYS_BEFORE_MONTH m + (if (2 <? m) && is_leap y then 1 else 0).

Definition ymd2ord (y m d : Z) : Z :=
  days_before_year y + days_before_month y m + d.

Definition DI400Y : Z := 146097.
Definition DI100Y : Z := 36524.
Definition DI4Y : Z := 1461.

Definition ord2ymd (n0 : Z) : date :=
  let n := n0 - 1 in
  let n400 := n / DI400Y in
  let n := n mod DI400Y in
  let y := n400 * 400 + 1 in
  let n100 := n / DI100Y in
  let n := n mod DI100Y in
  let n4 := n / DI4Y in
  let n := n mod DI4Y in
  let n1 := n / 365 in
  let n := n mod 365 in
  let y := y + n100 * 100 + n4 * 4 + n1 in
  if (n1 =? 4) || (n100 =? 4) then mkdate (y - 1) 12 31
  else
    let leapyear := (n1 =? 3) && (negb (n4 =? 24) || (n100 =? 3)) in
    let m := Z.shiftr (n + 50) 5 in
    let preceding :=
      table DAYS_BEFORE_MONTH m + (if (2 <? m) && leapyear then 1 else 0) in
    if n <? preceding then
      let m' := m - 1 in
      let preceding' :=
        preceding
        - (table DAYS_IN_MONTH m' + (if (m' =? 2) && leapyear then 1 else 0)) in
      mkdate y m' (n - preceding' + 1)
    else mkdate y m (n - preceding + 1).

Definition toordinal (d : date) : Z := ymd2ord (year d) (month d) (day d).
Definition fromordinal (n : Z) : date := ord2ymd n.

(** The checks of the [date] constructor. *)
Definition valid_fields (y m d : Z) : bool :=
  (MINYEAR <=? y) && (y <=? MAXYEAR) && (1 <=? m) && (m <=? 12)
  && (1 <=? d) && (d <=? days_in_month y m).

(** [d + timedelta(days=k)]; a result outside the supported years is an
    [OverflowError]. *)
Definition add_days (d : date) (k : Z) : result date :=
  let o := toordinal d + k in
  if (0 <? o) && (o <=? MAXORDINAL) then Ok (fromordinal o)
  else Raise OverflowError.

(** [d1 > d2]: the fields compared as a tuple. *)
Definition gt (d1 d2 : date) : bool :=
  (year d2 <? year d1)
  || ((year d1 =? year d2)
      && ((month d2 <? month d1)
          || ((month d1 =? month d2) && (day d2 <? day d1)))).

(** [d.strftime('%Y-%m-%d')], with the year padded to four digits. *)
Definition strftime_iso (d : date) : string :=
  PyStr.zpad4 (year d) ++ "-" ++ PyStr.zpad2 (month d) ++ "-"
  ++ PyStr.zpad2 (day d).

End PyDate.

(** ** [datetime.strptime]

    [strptime] compiles the format into a regular expression, takes the
    first match that a backtracking matcher finds at the start of the
    string, insists that the match covers the whole string, converts the
    groups with [int] and builds the date.  The matcher below returns the
    matches in the order in which backtracking meets them, so the head of
    the list is the match that [re.match] reports. *)
Module Strptime.
Import PyStr PyDate.

Inductive re : Type :=
| Cls (p : ascii -> bool)     (* one character of a class *)
| Cat (r1 r2 : re)            (* r1 r2 *)
| Alt (r1 r2 : re).           (* r1|r2 *)

(** All the ways to match [r] at the start of [s], best first: the text
    matched and the text left. *)
Fixpoint re_match (r : re) (s : list ascii) : list (list ascii * list ascii) :=
  match r with
  | Cls p =>
      match s with
      | c :: t => if p c then [([c], t)] else []
      | [] => []
      end
  | Cat r1 r2 =>
      flat_map (fun '(m1, t1) =>
                  map (fun '(m2, t2) => ((m1 ++ m2)%list, t2)) (re_match r2 t1))
               (re_match r1 s)
  | Alt r1 r2 => (re_match r1 s ++ re_match r2 s)%list
  end.

Definition between (a b : Z) : re := Cls (fun c => (a <=? code c) && (code c <=? b)).
Definition chr (c : ascii) : re := Cls (Ascii.eqb c).
Definition digit : re := Cls is_digit.

Inductive directive : Type :=
| DirY | Dirm | Dird            (* %Y %m %d *)
| Lit (c : ascii).              (* a character standing for itself *)

(** The expressions of [_strptime.TimeRE]:
    [%Y] is [\d\d\d\d], [%m] is [1[0-2]|0[1-9]|[1-9]] and
    [%d] is [3[0-1]|[1-2]\d|0[1-9]|[1-9]| [1-9]]. *)
Definition regex_of (d : directive) : re :=
  match d with
  | DirY => Cat digit (Cat digit (Cat digit digit))
  | Dirm =>
      Alt (Cat (chr "1") (between 48 50))
          (Alt (Cat (chr "0") (between 49 57)) (between 49 57))
  | Dird =>
      Alt (Cat (chr "3") (between 48 49))
          (Alt (Cat (between 49 50) digit)
               (Alt (Cat (chr "0") (between 49 57))
                    (Alt (between 49 57) (Cat (chr " ") (between 49 57)))))
  | Lit c => chr c
  end.

(** The groups found so far. *)
Record groups : Type :=
  mkgroups { gY : option string; gm : option string; gd : option string }.

Definition no_groups : groups := mkgroups None None None.

Definition set_group (d : directive) (txt : list ascii) (g : groups) : groups :=
  match d with
  | DirY => mkgroups (Some (of_chars txt)) (gm g) (gd g)
  | Dirm => mkgroups (gY g) (Some (of_chars txt)) (gd g)
  | Dird => mkgroups (gY g) (gm g) (Some (of_chars txt))
  | Lit _ => g
  end.

Fixpoint match_format (fmt : list directive) (g : groups) (s : list ascii)
  : list (groups * list ascii) :=
  match fmt with
  | [] => [(g, s)]
  | d :: fmt' =>
      flat_map (fun '(txt, t) => match_format fmt' (set_group d txt g) t)
               (re_match (regex_of d) s)
  end.

(** A group converted by [int]; a missing group takes the default. *)
Definition group_int (o : option string) (default : Z) : result Z :=
  match o with
  | Some txt => py_int txt
  | None => Ok default
  end.

Definition strptime (s : string) (fmt : list directive) : result date :=
  match match_format fmt no_groups (chars s) with
  | [] => Raise ValueError                     (* does not match format *)
  | (g, rest) :: _ =>
      match rest with
      | _ :: _ => Raise ValueError             (* unconverted data remains *)
      | [] =>
          match group_int (gY g) 1900, group_int (gm g) 1, group_int (gd g) 1 with
          | Ok y, Ok m, Ok d =>
              if valid_fields y m d then Ok (mkdate y m d)
              else Raise ValueError            (* out of range *)
          | _, _, _ => Raise ValueError
          end
      end
  end.

(** ['%Y-%m-%d'] and ['%Y%m%d']. *)
Definition fmt_canonical : list directive := [DirY; Lit "-"; Dirm; Lit "-"; Dird].
Definition fmt_legacy : list directive := [DirY; Dirm; Dird].

End Strptime.

(** ** The SQLite store

    A table with an [INTEGER PRIMARY KEY AUTOINCREMENT] column is the list of
    its rows, oldest first, each with its rowid, together with the largest
    rowid ever handed out (the table's line in [sqlite_sequence]).  SQLite
    does not enforce [FOREIGN KEY] clauses unless asked to, and the pipeline
    never asks: the references of the fact tables are kept by the code
    alone. *)
Module Sqlite.
Import PyStr.

Section Table.
Context {R : Type}.

Record table : Type := mktable { rows : list (Z * R); seq : Z }.

Definition empty_table : table := mktable [] 0.

Definition max_rowid (l : list (Z * R)) : Z :=
  fold_right (fun r m => Z.max (fst r) m) 0 l.

Definition MAX_ROWID : Z := 9223372036854775807.

(** [INSERT] into an [AUTOINCREMENT] table: the new rowid is one more than
    the largest ever used; when that one was the largest possible the
    insertion fails. *)
Definition insert_auto (r : R) (t : table) : result (Z * table) :=
  let top := Z.max (seq t) (max_rowid (rows t)) in
  if MAX_ROWID <=? top then Raise OperationalError
  else Ok (top + 1, mktable (rows t ++ [(top + 1, r)])%list (top + 1)).
End Table.

Arguments table R : clear implicits.

(** The columns of the three fact tables, the rowid apart. *)
Record user_fact : Type := mkuser_fact {
  uf_date_id : Z; uf_users : Z; uf_sessions : Z; uf_engagement_rate : pyfloat;
  uf_conversions : Z; uf_average_session_duration : pyfloat }.

Record content_fact : Type := mkcontent_fact {
  cf_date_id : Z; cf_page_title : string; cf_page_views : Z;
  cf_content_sessions : Z; cf_engagement_rate : pyfloat;
  cf_session_duration : pyfloat }.

Record site_fact : Type := mksite_fact {
  sf_date_id : Z; sf_search_Term : string; sf_clicks : Z; sf_impressions : Z }.

(** The database file: each of the four tables exists or not. *)
Record DB : Type := mkDB {
  dates : option (table string);
  user_interaction : option (table user_fact);
  content_metrics : option (table content_fact);
  site_data : option (table site_fact) }.

Definition no_tables : DB := mkDB None None None None.

Definition rows_of {R} (o : option (table R)) : list (Z * R) :=
  match o with Some t => rows t | None => [] end.

Definition create_if_not_exists {R} (o : option (table R)) : option (table R) :=
  match o with Some t => Some t | None => Some empty_table end.

(** The four [CREATE TABLE IF NOT EXISTS] statements of [init_db]. *)
Definition create_dates (db : DB) : DB :=
  mkDB (create_if_not_exists (dates db)) (user_interaction db)
       (content_metrics db) (site_data db).

Definition create_user_interaction (db : DB) : DB :=
  mkDB (dates db) (create_if_not_exists (user_interaction db))
       (content_metrics db) (site_data db).

Definition create_content_metrics (db : DB) : DB :=
  mkDB (dates db) (user_interaction db)
       (create_if_not_exists (content_metrics db)) (site_data db).

Definition create_site_data (db : DB) : DB :=
  mkDB (dates db) (user_interaction db) (content_metrics db)
       (create_if_not_exists (site_data db)).

(** A statement on a table that does not exist is an [OperationalError]. *)
Definition the_table {R} (o : option (table R)) : result (table R) :=
  match o with Some t => Ok t | None => Raise OperationalError end.

(** [SELECT date_id FROM dates WHERE date = ?] followed by [fetchone]. *)
Definition select_date_id (date_str : string) (db : DB) : result (option Z) :=
  match the_table (dates db) with
  | Ok t =>
      Ok (option_map fst
            (find (fun r => String.eqb (snd r) date_str) (rows t)))
  | Raise e => Raise e
  end.

(** [INSERT INTO dates (date) VALUES (?)] and [cursor.lastrowid]; the
    column is [UNIQUE]. *)
Definition insert_date (date_str : string) (db : DB) : result (Z * DB) :=
  match the_table (dates db) with
  | Ok t =>
      if existsb (fun r => String.eqb (snd r) date_str) (rows t)
      then Raise IntegrityError
      else
        match insert_auto date_str t with
        | Ok (i, t') =>
            Ok (i, mkDB (Some t') (user_interaction db) (content_metrics db)
                        (site_data db))
        | Raise e => Raise e
        end
  | Raise e => Raise e
  end.

(** The larger of two [TEXT] values: byte by byte, a proper prefix first. *)
Definition text_max (a b : string) : string :=
  if String.ltb a b then b else a.

(** [SELECT MAX(date) FROM dates] followed by [fetchone()[0]]: [None] on
    an empty table. *)
Definition select_max_date (db : DB) : result (option string) :=
  match the_table (dates db) with
  | Ok t =>
      Ok (fold_left (fun acc r =>
                       match acc with
                       | None => Some (snd r)
                       | Some m => Some (text_max m (snd r))
                       end) (rows t) None)
  | Raise e => Raise e
  end.

(** A Python [int] bound to a statement must fit SQLite's 64-bit
    [INTEGER]. *)
Definition fits_int64 (z : Z) : bool :=
  (- 9223372036854775808 <=? z) && (z <=? 9223372036854775807).

Definition insert_user_fact (f : user_fact) (db : DB) : result DB :=
  if negb (fits_int64 (uf_date_id f) && fits_int64 (uf_users f)
           && fits_int64 (uf_sessions f) && fits_int64 (uf_conversions f))
  then Raise OverflowError
  else
    match the_table (user_interaction db) with
    | Ok t =>
        match insert_auto f t with
        | Ok (_, t') =>
            Ok (mkDB (dates db) (Some t') (content_metrics db) (site_data db))
        | Raise e => Raise e
        end
    | Raise e => Raise e
    end.

Definition insert_content_fact (f : content_fact) (db : DB) : result DB :=
  if negb (fits_int64 (cf_date_id f) && fits_int64 (cf_page_views f)
           && fits_int64 (cf_content_sessions f))
  then Raise OverflowError
  else
    match the_table (content_metrics db) with
    | Ok t =>
        match insert_auto f t with
        | Ok (_, t') =>
            Ok (mkDB (dates db) (user_interaction db) (Some t') (site_data db))
        | Raise e => Raise e
        end
    | Raise e => Raise e
    end.

Definition insert_site_fact (f : site_fact) (db : DB) : result DB :=
  if negb (fits_int64 (sf_date_id f) && fits_int64 (sf_clicks f)
           && fits_int64 (sf_impressions f))
  then Raise OverflowError
  else
    match the_table (site_data db) with
    | Ok t =>
        match insert_auto f t with
        | Ok (_, t') =>
            Ok (mkDB (dates db) (user_interaction db) (content_metrics db)
                     (Some t'))
        | Raise e => Raise e
        end
    | Raise e => Raise e
    end.

End Sqlite.

(** ** Worlds, environments and computations *)
Module Pipeline.
Import PyStr PyDate Strptime Sqlite.

(** What the reporting API receives and returns. *)
Record RunReportRequest : Type := mkrequest {
  rq_property : string;
  rq_start_date : string;
  rq_end_date : string;
  rq_dimensions : list string;
  rq_metrics : list string }.

Record report_row : Type := mkrow {
  dimension_values : list string;
  metric_values : list string }.

Inductive level : Type := INFO | ERROR.

(** What an observer of a run can see, besides the database. *)
Inductive event : Type :=
| Log (l : level) (msg : string)
| FetchAttempt (start_date end_date : string)  (* the body of fetch_ga4_data runs *)
| SaveCalled                                   (* save_data is entered *)
| ToCsv (file : string).                       (* one export file written *)

(** The state of a run: the committed content of [ga4_data.db], the number
    of external operations attempted so far, the events so far (the most
    recent first). *)
Record World : Type := mkWorld {
  store : DB;
  clock : nat;
  trace : list event }.

(** The surroundings of a run. *)
Record Env : Type := mkEnv {
  fault : nat -> bool;         (* does the operation attempted at this time fail *)
  today : date;                (* datetime.now().date() *)
  report : nat -> RunReportRequest -> list report_row;
                               (* the rows answered to a request made at this time *)
  set_order : list string -> list string;
                               (* the order in which a set of str is iterated *)
  property_id : string }.      (* GA4_PROPERTY_ID as the f-string prints it *)

Definition M (A : Type) : Type := World -> result A * World.

Definition ret {A} (a : A) : M A := fun w => (Ok a, w).

Definition raise {A} (e : exn) : M A := fun w => (Raise e, w).

Definition bind {A B} (m : M A) (k : A -> M B) : M B :=
  fun w =>
    match m w with
    | (Ok a, w') => k a w'
    | (Raise e, w') => (Raise e, w')
    end.

(** [try: m except Exception as e: h e]. *)
Definition try_except {A} (m : M A) (h : exn -> M A) : M A :=
  fun w =>
    match m w with
    | (Ok a, w') => (Ok a, w')
    | (Raise e, w') => h e w'
    end.

Definition lift {A} (r : result A) : M A := fun w => (r, w).

Declare Scope pipeline_scope.
Delimit Scope pipeline_scope with pipeline.
Notation "x <- m ;; k" := (bind m (fun x => k))
  (at level 61, m at next level, right associativity) : pipeline_scope.
Notation "m ;; k" := (bind m (fun _ => k))
  (at level 61, right associativity) : pipeline_scope.
Local Open Scope pipeline_scope.

Definition emit (e : event) : M unit :=
  fun w => (Ok tt, mkWorld (store w) (clock w) (e :: trace w)).

Definition log (l : level) (msg : string) : M unit := emit (Log l msg).

Definition get_store : M DB := fun w => (Ok (store w), w).

Definition put_store (db : DB) : M unit :=
  fun w => (Ok tt, mkWorld db (clock w) (trace w)).

Definition now : M nat := fun w => (Ok (clock w), w).

Section Program.
Variable env : Env.

(** One operation on the outside world: it takes one tick of the clock
    and fails with [e] when the environment says so. *)
Definition external (e : exn) : M unit :=
  fun w =>
    (if fault env (clock w) then Raise e else Ok tt,
     mkWorld (store w) (S (clock w)) (trace w)).

(** [sqlite3.connect(CONFIG['database']['path'])]. *)
Definition connect : M unit := external OperationalError.

(** [cursor.execute] of a statement that reads the committed store. *)
Definition query {A} (q : DB -> result A) : M A :=
  external OperationalError ;;
  db <- get_store ;;
  lift (q db).

(** [cursor.execute] of a statement inside the open transaction of the
    connection, whose pending state is [txn]. *)
Definition execute {A} (q : DB -> result A) (txn : DB) : M A :=
  external OperationalError ;;
  lift (q txn).

(** [conn.commit()]: the pending state becomes the committed one. *)
Definition commit (txn : DB) : M unit :=
  external OperationalError ;;
  put_store txn.

(** A statement run in autocommit mode (the schema statements). *)
Definition autocommit (f : DB -> DB) : M unit :=
  external OperationalError ;;
  db <- get_store ;;
  put_store (f db).

(** *** [init_db] *)
Definition init_db : M unit :=
  connect ;;
  autocommit create_dates ;;
  autocommit create_user_interaction ;;
  autocommit create_content_metrics ;;
  autocommit create_site_data ;;
  external OperationalError ;;                       (* conn.commit() *)
  log INFO "Database initialized with relational schema".

(** *** [get_or_create_date_id]

    The connection is the function's own: the insertion is committed
    before the function returns, whatever the caller does later.  When
    the insertion or its commit fails the connection is closed with the
    row still pending, which drops it. *)
Definition get_or_create_date_id (date_str : string) : M Z :=
  connect ;;
  try_except
    (result <- query (select_date_id date_str) ;;
     match result with
     | Some date_id => ret date_id
     | None =>
         txn <- get_store ;;
         r <- execute (insert_date date_str) txn ;;
         commit (snd r) ;;
         ret (fst r)
     end)
    (fun e => log ERROR "Date ID lookup failed" ;; raise e).

(** *** [get_last_date]

    The connection is opened before the [try]; the query, the test
    [if last_date] (an empty string counts as absent) and the two
    parsers are inside it. *)
Definition get_last_date : M (option date) :=
  connect ;;
  try_except
    (last_date <- query select_max_date ;;
     match last_date with
     | None => ret None
     | Some s =>
         if String.eqb s "" then ret None
         else
           match strptime s fmt_canonical with
           | Ok d => ret (Some d)
           | Raise ValueError =>
               d <- lift (strptime s fmt_legacy) ;; ret (Some d)
           | Raise e => raise e
           end
     end)
    (fun e => log ERROR "Date retrieval failed" ;; ret None).

(** *** [fetch_ga4_data]

    Results without state use the same sequencing on [result]. *)
Definition rbind {A B} (r : result A) (k : A -> result B) : result B :=
  match r with Ok a => k a | Raise e => Raise e end.

Notation "'let*' x ':=' r 'in' k" := (rbind r (fun x => k))
  (at level 10, x name, r at level 100, k at level 200).

(** [l[i]] on a sequence. *)
Definition index {A} (l : list A) (i : nat) : result A :=
  match nth_error l i with Some a => Ok a | None => Raise IndexError end.

(** The dict that [process_response] builds for one row: always a date,
    then the fields of the branch taken. *)
Inductive entry : Type :=
| UserEntry (date : string) (users sessions : Z) (engagement_rate : pyfloat)
            (conversions : Z) (average_session_duration : pyfloat)
| ContentEntry (date page_title : string) (page_views sessions : Z)
               (engagement_rate session_duration : pyfloat)
| SiteEntry (date search_Term : string) (clicks impressions : Z)
| BareEntry (date : string).

(** [pd.DataFrame(data)] for a list of such dicts: one row per dict. *)
Definition DataFrame : Type := list entry.

Definition format_date (ga4_date : string) : string :=
  slice 0 4 ga4_date ++ "-" ++ slice 4 6 ga4_date ++ "-" ++ slice 6 8 ga4_date.

Definition process_row (type : string) (row : report_row) : result entry :=
  let* ga4_date := index (dimension_values row) 0 in
  let formatted_date := format_date ga4_date in
  if String.eqb type "user" then
    let* users := rbind (index (metric_values row) 0) py_int in
    let* sessions := rbind (index (metric_values row) 1) py_int in
    let* engagement_rate := rbind (index (metric_values row) 2) py_float in
    let* conversions := rbind (index (metric_values row) 3) py_int in
    let* average_session_duration :=
      rbind (index (metric_values row) 4) py_float in
    Ok (UserEntry formatted_date users sessions engagement_rate conversions
                  average_session_duration)
  else if String.eqb type "content" then
    let* page_title := index (dimension_values row) 1 in
    let* page_views := rbind (index (metric_values row) 0) py_int in
    let* sessions := rbind (index (metric_values row) 1) py_int in
    let* engagement_rate := rbind (index (metric_values row) 2) py_float in
    let* session_duration := rbind (index (metric_values row) 3) py_float in
    Ok (ContentEntry formatted_date page_title page_views sessions
                     engagement_rate session_duration)
  else if String.eqb type "site" then
    let* search_Term := index (dimension_values row) 1 in
    let* clicks := rbind (index (metric_values row) 0) py_int in
    let* impressions := rbind (index (metric_values row) 1) py_int in
    Ok (SiteEntry formatted_date search_Term clicks impressions)
  else Ok (BareEntry formatted_date).

Fixpoint process_response (response : list report_row) (type : string)
  : result DataFrame :=
  match response with
  | [] => Ok []
  | row :: rest =>
      let* e := process_row type row in
      let* data := process_response rest type in
      Ok (e :: data)
  end.

(** The dict returned by the fetch, keys ['users'], ['content'], ['site']. *)
Record Data : Type := mkData {
  data_users : DataFrame;
  data_content : DataFrame;
  data_site : DataFrame }.

Definition values (data : Data) : list DataFrame :=
  [data_users data; data_content data; data_site data].

Definition user_request (start_date end_date : string) : RunReportRequest :=
  mkrequest ("properties/" ++ property_id env) start_date end_date
    ["date"]
    ["activeUsers"; "sessions"; "engagementRate"; "conversions";
     "averageSessionDuration"].

Definition content_request (start_date end_date : string) : RunReportRequest :=
  mkrequest ("properties/" ++ property_id env) start_date end_date
    ["date"; "pageTitle"]
    ["screenPageViews"; "sessions"; "engagementRate";
     "userEngagementDuration"].

Definition site_request (start_date end_date : string) : RunReportRequest :=
  mkrequest ("properties/" ++ property_id env) start_date end_date
    ["date"; "searchTerm"]
    ["eventCount"; "screenPageViews"].

(** [client.run_report(request)]. *)
Definition run_report (rq : RunReportRequest) : M (list report_row) :=
  t <- now ;;
  external GoogleAPIError ;;
  ret (report env t rq).

(** The function under the decorator: one attempt. *)
Definition fetch_ga4_data_once (start_date end_date : string) : M Data :=
  emit (FetchAttempt start_date end_date) ;;
  external GoogleAPIError ;;          (* from_service_account_json *)
  try_except
    (user_response <- run_report (user_request start_date end_date) ;;
     content_response <- run_report (content_request start_date end_date) ;;
     site_response <- run_report (site_request start_date end_date) ;;
     users <- lift (process_response user_response "user") ;;
     content <- lift (process_response content_response "content") ;;
     site <- lift (process_response site_response "site") ;;
     ret (mkData users content site))
    (fun e => log ERROR "GA4 data fetch failed" ;; raise e).

(** [@retry(stop=stop_after_attempt(n), wait=...)]: the call is repeated
    after every exception until attempt number [n] has failed, then
    [RetryError] is raised.  [more] counts the attempts still allowed
    after the current one.  The waits between attempts change nothing
    that is modelled. *)
Fixpoint retry_loop {A} (more : nat) (fn : M A) : M A :=
  fun w =>
    match fn w with
    | (Ok a, w') => (Ok a, w')
    | (Raise e, w') =>
        match more with
        | O => (Raise RetryError, w')
        | S k => retry_loop k fn w'
        end
    end.

Definition retry {A} (stop_after_attempt : nat) (fn : M A) : M A :=
  retry_loop (stop_after_attempt - 1) fn.

Definition fetch_ga4_data (start_date end_date : string) : M Data :=
  retry 3 (fetch_ga4_data_once start_date end_date).

(** *** [save_data] *)

(** A Python [set] of str, kept without repetition. *)
Definition set_add (x : string) (s : list string) : list string :=
  if existsb (String.eqb x) s then s else (s ++ [x])%list.

Definition set_update (s xs : list string) : list string :=
  fold_left (fun acc x => set_add x acc) xs s.

Definition entry_date (e : entry) : string :=
  match e with
  | UserEntry d _ _ _ _ _ => d
  | ContentEntry d _ _ _ _ _ => d
  | SiteEntry d _ _ _ => d
  | BareEntry d => d
  end.

(** [df['date'].unique()]: a frame built from no dict has no column. *)
Definition date_column_unique (df : DataFrame) : result (list string) :=
  match df with
  | [] => Raise KeyError
  | _ => Ok (set_update [] (map entry_date df))
  end.

Fixpoint collect_dates (dfs : list DataFrame) (all_dates : list string)
  : result (list string) :=
  match dfs with
  | [] => Ok all_dates
  | df :: rest =>
      let* col := date_column_unique df in
      collect_dates rest (set_update all_dates col)
  end.

(** [date_map[k]]; the most recent binding of a key is the first. *)
Definition dict_get (date_map : list (string * Z)) (k : string) : result Z :=
  match find (fun p => String.eqb (fst p) k) date_map with
  | Some p => Ok (snd p)
  | None => Raise KeyError
  end.

Fixpoint resolve_dates (l : list string) (date_map : list (string * Z))
  : M (list (string * Z)) :=
  match l with
  | [] => ret date_map
  | date_str :: rest =>
      date_id <- get_or_create_date_id date_str ;;
      resolve_dates rest ((date_str, date_id) :: date_map)
  end.

(** [row[col]] for the columns read by the writer, by the type of the
    column. *)
Definition row_int (row : entry) (col : string) : result Z :=
  match row with
  | UserEntry _ users sessions _ conversions _ =>
      if String.eqb col "users" then Ok users
      else if String.eqb col "sessions" then Ok sessions
      else if String.eqb col "conversions" then Ok conversions
      else Raise KeyError
  | ContentEntry _ _ page_views sessions _ _ =>
      if String.eqb col "page_views" then Ok page_views
      else if String.eqb col "sessions" then Ok sessions
      else Raise KeyError
  | SiteEntry _ _ clicks impressions =>
      if String.eqb col "clicks" then Ok clicks
      else if String.eqb col "impressions" then Ok impressions
      else Raise KeyError
  | BareEntry _ => Raise KeyError
  end.

Definition row_float (row : entry) (col : string) : result pyfloat :=
  match row with
  | UserEntry _ _ _ engagement_rate _ average_session_duration =>
      if String.eqb col "engagement_rate" then Ok engagement_rate
      else if String.eqb col "average_session_duration"
           then Ok average_session_duration
      else Raise KeyError
  | ContentEntry _ _ _ _ engagement_rate session_duration =>
      if String.eqb col "engagement_rate" then Ok engagement_rate
      else if String.eqb col "session_duration" then Ok session_duration
      else Raise KeyError
  | _ => Raise KeyError
  end.

Definition row_str (row : entry) (col : string) : result string :=
  if String.eqb col "date" then Ok (entry_date row)
  else
    match row with
    | ContentEntry _ page_title _ _ _ _ =>
        if String.eqb col "page_title" then Ok page_title else Raise KeyError
    | SiteEntry _ search_Term _ _ =>
        if String.eqb col "search_Term" then Ok search_Term else Raise KeyError
    | _ => Raise KeyError
    end.

Definition user_fact_of (date_map : list (string * Z)) (row : entry)
  : result user_fact :=
  let* date_id := rbind (row_str row "date") (dict_get date_map) in
  let* users := row_int row "users" in
  let* sessions := row_int row "sessions" in
  let* engagement_rate := row_float row "engagement_rate" in
  let* conversions := row_int row "conversions" in
  let* average_session_duration := row_float row "average_session_duration" in
  Ok (mkuser_fact date_id users sessions engagement_rate conversions
                  average_session_duration).

Definition content_fact_of (date_map : list (string * Z)) (row : entry)
  : result content_fact :=
  let* date_id := rbind (row_str row "date") (dict_get date_map) in
  let* page_title := row_str row "page_title" in
  let* page_views := row_int row "page_views" in
  let* sessions := row_int row "sessions" in
  let* engagement_rate := row_float row "engagement_rate" in
  let* session_duration := row_float row "session_duration" in
  Ok (mkcontent_fact date_id page_title page_views sessions engagement_rate
                     session_duration).

Definition site_fact_of (date_map : list (string * Z)) (row : entry)
  : result site_fact :=
  let* date_id := rbind (row_str row "date") (dict_get date_map) in
  let* search_Term := row_str row "search_Term" in
  let* clicks := row_int row "clicks" in
  let* impressions := row_int row "impressions" in
  Ok (mksite_fact date_id search_Term clicks impressions).

(** One of the three insertion loops: the parameters are read from the
    row, then the statement runs in the transaction. *)
Fixpoint insert_rows {F} (fact_of : entry -> result F)
         (insert : F -> DB -> result DB) (df : DataFrame) (txn : DB) : M DB :=
  match df with
  | [] => ret txn
  | row :: rest =>
      f <- lift (fact_of row) ;;
      txn' <- execute (insert f) txn ;;
      insert_rows fact_of insert rest txn'
  end.

(** [data[table].to_csv(f"{table}_metrics.csv", index=False)]. *)
Definition to_csv (file : string) : M unit :=
  external OSError ;;
  emit (ToCsv file).

Fixpoint export_all (tables : list string) : M unit :=
  match tables with
  | [] => ret tt
  | table :: rest => to_csv (table ++ "_metrics.csv") ;; export_all rest
  end.

(** The connection of [save_data] opens its transaction at its first
    [INSERT], after every date has been resolved (and committed) through
    the resolver's own connections; [conn.rollback()] and the closing of
    the connection drop whatever is pending. *)
Definition save_data (data : Data) : M unit :=
  emit SaveCalled ;;
  connect ;;
  try_except
    (all_dates <- lift (collect_dates (values data) []) ;;
     date_map <- resolve_dates (set_order env all_dates) [] ;;
     txn <- get_store ;;
     txn <- insert_rows (user_fact_of date_map) insert_user_fact
                        (data_users data) txn ;;
     txn <- insert_rows (content_fact_of date_map) insert_content_fact
                        (data_content data) txn ;;
     txn <- insert_rows (site_fact_of date_map) insert_site_fact
                        (data_site data) txn ;;
     commit txn ;;
     log INFO "Successfully saved data" ;;
     export_all ["users"; "content"; "site"])
    (fun e => log ERROR "Data save failed" ;; raise e).

(** *** [main] *)

Definition df_empty (df : DataFrame) : bool :=
  match df with [] => true | _ => false end.

(** The [try] block of [main]. *)
Definition run : M unit :=
  last_date <- get_last_date ;;
  let end_date := today env in
  start_date <- lift (match last_date with
                      | Some d => add_days d 1
                      | None => add_days end_date (-30)
                      end) ;;
  if gt start_date end_date then log INFO "No new data to fetch"
  else
    log INFO "Fetching data" ;;
    data <- fetch_ga4_data (strftime_iso start_date) (strftime_iso end_date) ;;
    if negb (existsb (fun df => negb (df_empty df)) (values data))
    then log INFO "No data returned from GA4 API"
    else
      save_data data ;;
      log INFO "Pipeline completed successfully".

(** The exit status of the process and the world it leaves: [init_db]
    runs outside the [try], an exception there ends the process with
    status 1 as any uncaught exception does; an exception of the [try]
    block is logged and turned into [exit(1)]. *)
Definition main (w : World) : Z * World :=
  match (log INFO "Starting GA4 relational data pipeline" ;; init_db) w with
  | (Raise _, w1) => (1, w1)
  | (Ok _, w1) =>
      match run w1 with
      | (Ok _, w2) => (0, w2)
      | (Raise _, w2) => (1, snd (log ERROR "Pipeline failed" w2))
      end
  end.

End Program.
End Pipeline.

(** ** Sample environments and worlds *)
Module Samples.
Import PyStr PyDate Strptime Sqlite Pipeline.

(** An environment in which nothing fails, on 2024-01-31; the API answers
    the rows of the end-to-end scenario, one per category, and sets are
    iterated in insertion order. *)
Definition scenario_report (rq : RunReportRequest) : list report_row :=
  if String.eqb (nth 1 (rq_dimensions rq) "") "pageTitle"
  then [mkrow ["20240101"; "Home"] ["300"; "120"; "0.55"; "42.3"]]
  else if String.eqb (nth 1 (rq_dimensions rq) "") "searchTerm"
  then [mkrow ["20240101"; "shoes"] ["10"; "200"]]
  else [mkrow ["20240101"] ["100"; "120"; "0.55"; "5"; "42.3"]].

Definition quiet_env : Env :=
  mkEnv (fun _ => false) (mkdate 2024 1 31) (fun _ => scenario_report)
        (fun l => l) "123456".

(** The same environment with the external operation at time [t]
    failing. *)
Definition failing_at (t : nat) : Env :=
  mkEnv (Nat.eqb t) (today quiet_env) (report quiet_env)
        (set_order quiet_env) (property_id quiet_env).

(** The same environment with every operation from time [t] on failing. *)
Definition failing_from (t : nat) : Env :=
  mkEnv (Nat.leb t) (today quiet_env) (report quiet_env)
        (set_order quiet_env) (property_id quiet_env).

(** The same environment with an API that has no site-search rows. *)
Definition no_site_env : Env :=
  mkEnv (fun _ => false) (today quiet_env)
        (fun _ rq => if String.eqb (nth 1 (rq_dimensions rq) "") "searchTerm"
                     then [] else scenario_report rq)
        (set_order quiet_env) (property_id quiet_env).

(** A fresh database file, and one whose schema exists. *)
Definition fresh : World := mkWorld no_tables 0 [].

Definition initialised : World :=
  mkWorld (create_site_data (create_content_metrics
             (create_user_interaction (create_dates no_tables)))) 0 [].

(** A database whose dimension holds the given strings, in this order. *)
Definition number_from (i : Z) (l : list string) : list (Z * string) :=
  combine (map (fun k => i + Z.of_nat k) (List.seq 0%nat (List.length l))) l.

Definition with_dates (l : list string) : World :=
  mkWorld (mkDB (Some (mktable (number_from 1 l) (Z.of_nat (List.length l))))
                (Some empty_table) (Some empty_table) (Some empty_table))
          0 [].

Definition scenario_data : Data :=
  mkData [UserEntry "2024-01-01" 100 120 (F_dec false 55 (-2)) 5
                    (F_dec false 423 (-1))]
         [ContentEntry "2024-01-01" "Home" 300 120 (F_dec false 55 (-2))
                       (F_dec false 423 (-1))]
         [SiteEntry "2024-01-01" "shoes" 10 200].

End Samples.

(** ** The vocabulary of the properties *)

Import PyStr PyDate Strptime Sqlite Pipeline.

(** The inverse of [format_date] on its image: the digits without the
    hyphens. *)
Definition compact_of (s : string) : string :=
  slice 0 4 s ++ slice 5 7 s ++ slice 8 10 s.

(** The rows of a response and the records made from them, pairwise: the
    record's date is the conversion of the row's first dimension value. *)
Definition date_of_row (row : report_row) (e : entry) : Prop :=
  exists ga4_date,
    nth_error (dimension_values row) 0 = Some ga4_date
    /\ entry_date e = format_date ga4_date.

(** The rows of the dimension, and the identifier stored for a calendar
    value. *)
Definition dimension (db : DB) : list (Z * string) := rows_of (dates db).

Definition date_id_of (date_str : string) (db : DB) : option Z :=
  option_map fst (find (fun r => String.eqb (snd r) date_str) (dimension db)).

(** No two rows with the same calendar value. *)
Definition unique_dates (db : DB) : Prop := NoDup (map snd (dimension db)).

(** The dimension only grows, at its end. *)
Definition grows (db db' : DB) : Prop :=
  exists more, dimension db' = (dimension db ++ more)%list.

(** The fact tables are the same. *)
Definition same_facts (db db' : DB) : Prop :=
  user_interaction db' = user_interaction db
  /\ content_metrics db' = content_metrics db
  /\ site_data db' = site_data db.

(** The statements of an insertion loop, one after the other, on the
    pending state. *)
Fixpoint insert_all {F} (insert : F -> DB -> result DB) (facts : list F)
         (txn : DB) : result DB :=
  match facts with
  | [] => Ok txn
  | f :: rest =>
      match insert f txn with
      | Ok txn' => insert_all insert rest txn'
      | Raise e => Raise e
      end
  end.

(** The date map holds, for each key, the identifier stored for it. *)
Definition valid_map (date_map : list (string * Z)) (db : DB) : Prop :=
  forall k v, In (k, v) date_map -> date_id_of k db = Some v.

(** What a call of [save_data] has committed when it ends. *)
Inductive committed (date_map : list (string * Z)) (data : Data)
          (before after : DB) : Prop :=
| Committed (resolved after_users after_content : DB)
    (user_facts : list user_fact) (content_facts : list content_fact)
    (site_facts : list site_fact) :
    grows before resolved ->
    same_facts before resolved ->
    (unique_dates before -> unique_dates resolved) ->
    valid_map date_map resolved ->
    Forall2 (fun row f => user_fact_of date_map row = Ok f)
            (data_users data) user_facts ->
    Forall2 (fun row f => content_fact_of date_map row = Ok f)
            (data_content data) content_facts ->
    Forall2 (fun row f => site_fact_of date_map row = Ok f)
            (data_site data) site_facts ->
    insert_all insert_user_fact user_facts resolved = Ok after_users ->
    insert_all insert_content_fact content_facts after_users = Ok after_content ->
    insert_all insert_site_fact site_facts after_content = Ok after ->
    committed date_map data before after.

(** [i] is the identifier of a row of the dimension. *)
Definition known (db : DB) (i : Z) : Prop := In i (map fst (dimension db)).

(** Every row of every fact table refers to a row of the dimension. *)
Definition referential_integrity (db : DB) : Prop :=
  Forall (fun r => known db (uf_date_id (snd r))) (rows_of (user_interaction db))
  /\ Forall (fun r => known db (cf_date_id (snd r))) (rows_of (content_metrics db))
  /\ Forall (fun r => known db (sf_date_id (snd r))) (rows_of (site_data db)).

(** The new rows of the three fact tables after a committed save: each
    carries the identifier that the dimension stores for the date of the
    record it was made from. *)
Definition resolved_rows (data : Data) (before after : DB) : Prop :=
  exists us cs ss,
    rows_of (user_interaction after)
    = (rows_of (user_interaction before) ++ us)%list
    /\ rows_of (content_metrics after)
       = (rows_of (content_metrics before) ++ cs)%list
    /\ rows_of (site_data after) = (rows_of (site_data before) ++ ss)%list
    /\ Forall2 (fun row r => date_id_of (entry_date row) after
                             = Some (uf_date_id (snd r)))
               (data_users data) us
    /\ Forall2 (fun row r => date_id_of (entry_date row) after
                             = Some (cf_date_id (snd r)))
               (data_content data) cs
    /\ Forall2 (fun row r => date_id_of (entry_date row) after
                             = Some (sf_date_id (snd r)))
               (data_site data) ss.

(** Counting the fetch attempts and the calls of the writer in a trace. *)
Definition is_attempt (ev : event) : bool :=
  match ev with FetchAttempt _ _ => true | _ => false end.

Definition is_save (ev : event) : bool :=
  match ev with SaveCalled => true | _ => false end.

Definition attempts (t : list event) : nat := List.length (filter is_attempt t).

Definition saves (t : list event) : nat := List.length (filter is_save t).

(** The rows of the four tables are the same (a table may have been
    created empty). *)
Definition same_rows (db db' : DB) : Prop :=
  dimension db' = dimension db
  /\ rows_of (user_interaction db') = rows_of (user_interaction db)
  /\ rows_of (content_metrics db') = rows_of (content_metrics db)
  /\ rows_of (site_data db') = rows_of (site_data db).

(** The part of [main] before the [try]. *)
Definition prologue (env : Env) : M unit :=
  bind (log INFO "Starting GA4 relational data pipeline") (fun _ => init_db env).

(** The start of the window. *)
Definition window_start (env : Env) (last_date : option date) : result date :=
  match last_date with
  | Some d => add_days d 1
  | None => add_days (today env) (-30)
  end.

(** The run from [w0] comes to the fetch: the schema step and the watermark
    step have ended normally, the window starts at [start], which is not
    after today, and the fetch is called in the world [wf]. *)
Definition reaches_fetch (env : Env) (w0 : World) (start : date) (wf : World)
  : Prop :=
  exists w1 last w2,
    prologue env w0 = (Ok tt, w1)
    /\ get_last_date env w1 = (Ok last, w2)
    /\ window_start env last = Ok start
    /\ gt start (today env) = false
    /\ wf = snd (log INFO "Fetching data" w2).

(** What [main] does with the outcome of the fetch. *)
Definition finish (env : Env) (out : result Data * World) : Z * World :=
  match out with
  | (Raise _, w3) => (1, snd (log ERROR "Pipeline failed" w3))
  | (Ok data, w3) =>
      if negb (existsb (fun df => negb (df_empty df)) (values data))
      then (0, snd (log INFO "No data returned from GA4 API" w3))
      else
        match save_data env data w3 with
        | (Ok _, w4) => (0, snd (log INFO "Pipeline completed successfully" w4))
        | (Raise _, w4) => (1, snd (log ERROR "Pipeline failed" w4))
        end
  end.

(** What can happen to the store between two moments: resolutions, saves
    and whole runs, in this process or in a later one (which starts with the
    same database file, a clock and a trace of its own). *)
Inductive later : World -> World -> Prop :=
| later_now w : later w w
| later_resolve env date_str w r w1 w2 :
    get_or_create_date_id env date_str w = (r, w1) -> later w1 w2 -> later w w2
| later_save env data w r w1 w2 :
    save_data env data w = (r, w1) -> later w1 w2 -> later w w2
| later_main env w w2 :
    later (snd (main env w)) w2 -> later w w2
| later_restart w w1 w2 :
    store w1 = store w -> later w1 w2 -> later w w2.

(** [p] holds of the [len] integers from [lo] on, checked by halving the
    interval. *)
Fixpoint check_range (fuel : nat) (lo len : Z) (p : Z -> bool) : bool :=
  match fuel with
  | O => len <=? 0
  | S f =>
      if len <=? 0 then true
      else if len =? 1 then p lo
      else check_range f lo (len / 2) p
           && check_range f (lo + len / 2) (len - len / 2) p
  end.

(** Day [r + 1] of the first 400 years: its date has this ordinal, and is a
    date of the calendar. *)
Definition cycle_day_ok (r : Z) : bool :=
  let d := ord2ymd (r + 1) in
  (ymd2ord (year d) (month d) (day d) =? r + 1)
  && valid_fields (year d) (month d) (day d).

(** ** More sample environments *)
Module Scenarios.

(** Nothing fails and the API has no row in any category. *)
Definition silent_env : Env :=
  mkEnv (fun _ => false) (today Samples.quiet_env) (fun _ _ => [])
        (set_order Samples.quiet_env) (property_id Samples.quiet_env).

(** Nothing fails, and every answer of the API is one row whose first
    metric is no number. *)
Definition malformed_env : Env :=
  mkEnv (fun _ => false) (today Samples.quiet_env)
        (fun _ _ => [mkrow ["20240101"; "Home"] ["n/a"; "1"; "0.5"; "1"; "2.0"]])
        (set_order Samples.quiet_env) (property_id Samples.quiet_env).

End Scenarios.

(** ** More vocabulary *)

(** The four tables exist. *)
Definition schema_ready (db : DB) : Prop :=
  dates db <> None /\ user_interaction db <> None
  /\ content_metrics db <> None /\ site_data db <> None.

(** No two rows of the dimension with the same identifier. *)
Definition unique_ids (db : DB) : Prop := NoDup (map fst (dimension db)).

(** The text of the dimension value or metric in position [i]. *)
Definition at_position (l : list string) (i : nat) (v : string) : Prop :=
  nth_error l i = Some v.

(** A date of the calendar, the range of the year apart. *)
Definition valid_month_day (y m d : Z) : bool :=
  (1 <=? m) && (m <=? 12) && (1 <=? d) && (d <=? days_in_month y m).

Definition valid_date (d : date) : Prop :=
  valid_fields (year d) (month d) (day d) = true.

Definition year_length (y : Z) : Z := if is_leap y then 366 else 365.

(** Every table of [db'] is the table of [db] with rows added at its end:
    nothing has been changed or removed. *)
Definition appended (db db' : DB) : Prop :=
  (exists d, dimension db' = (dimension db ++ d)%list)
  /\ (exists u, rows_of (user_interaction db')
                = (rows_of (user_interaction db) ++ u)%list)
  /\ (exists c, rows_of (content_metrics db')
                = (rows_of (content_metrics db) ++ c)%list)
  /\ (exists s, rows_of (site_data db') = (rows_of (site_data db) ++ s)%list).

(** A computation that adds neither a fetch attempt nor a call of the writer
    to the trace. *)
Definition silent {A} (m : M A) : Prop :=
  forall w r w',
    m w = (r, w') ->
    attempts (trace w') = attempts (trace w)
    /\ saves (trace w') = saves (trace w).

(** ** The conditions under which the writer succeeds *)

(** No external operation fails. *)
Definition no_fault (env : Env) : Prop := forall t, fault env t = false.

(** The largest rowid a table has ever used, and room in the table for
    [n] more rows. *)
Definition top_rowid {R} (t : table R) : Z :=
  Z.max (Sqlite.seq t) (max_rowid (rows t)).

Definition room {R} (o : option (table R)) (n : nat) : Prop :=
  exists t, o = Some t /\ top_rowid t + Z.of_nat n <= MAX_ROWID.

(** The records that the three insertion loops can store: of the kind of
    the frame, with integers that fit a 64-bit column. *)
Definition storable_user (e : entry) : bool :=
  match e with
  | UserEntry _ users sessions _ conversions _ =>
      fits_int64 users && fits_int64 sessions && fits_int64 conversions
  | _ => false
  end.

Definition storable_content (e : entry) : bool :=
  match e with
  | ContentEntry _ _ page_views sessions _ _ =>
      fits_int64 page_views && fits_int64 sessions
  | _ => false
  end.

Definition storable_site (e : entry) : bool :=
  match e with
  | SiteEntry _ _ clicks impressions =>
      fits_int64 clicks && fits_int64 impressions
  | _ => false
  end.

(** The identifiers of the dimension are 64-bit rowids. *)
Definition rowids_fit (db : DB) : Prop :=
  Forall (fun r => fits_int64 (fst r) = true) (dimension db).

(** ** Days as the report writes them *)

(** The eight digits [YYYYMMDD] of a day, the form of the [date] dimension
    of a report. *)
Definition compact_form (d : date) : string :=
  zpad4 (year d) ++ zpad2 (month d) ++ zpad2 (day d).

(** [int] reads the four digits of [y] back as [y]. *)
Definition year_text_ok (y : Z) : bool :=
  match py_int (zpad4 y) with Ok v => v =? y | Raise _ => false end.

(** Every date of the dimension is the stored form of a day of the
    calendar: the conversion of its eight digits. *)
Definition canonical_dimension (db : DB) : Prop :=
  Forall (fun r => exists d, valid_date d
                             /\ snd r = format_date (compact_form d))
         (dimension db).

(** The category a record was normalised for, by its columns. *)
Definition entry_kind (e : entry) : string :=
  match e with
  | UserEntry _ _ _ _ _ _ => "user"
  | ContentEntry _ _ _ _ _ _ => "content"
  | SiteEntry _ _ _ _ => "site"
  | BareEntry _ => ""
  end.

(** Frames as [fetch_ga4_data] builds them: each holds the records of its
    own category. *)
Definition frames_of_kind (data : Data) : Prop :=
  Forall (fun e => entry_kind e = "user") (data_users data)
  /\ Forall (fun e => entry_kind e = "content") (data_content data)
  /\ Forall (fun e => entry_kind e = "site") (data_site data).

(** Every date of the dimension is in the form of before the conversion:
    the eight digits of a day of the calendar. *)
Definition legacy_dimension (db : DB) : Prop :=
  Forall (fun r => exists d, valid_date d /\ snd r = compact_form d)
         (dimension db).

(** * Properties *)

(** ** The library functions on sample inputs *)

Example py_int_plain : PyStr.py_int "120" = Ok 120.
Proof. reflexivity. Qed.

Example py_int_spaces_sign : PyStr.py_int " -1_000 " = Ok (-1000).
Proof. reflexivity. Qed.

Example py_int_rejects : PyStr.py_int "12a" = Raise ValueError.
Proof. reflexivity. Qed.

Example py_float_plain : PyStr.py_float "0.55" = Ok (PyStr.F_dec false 55 (-2)).
Proof. reflexivity. Qed.

Example py_float_rejects : PyStr.py_float "4 2" = Raise ValueError.
Proof. reflexivity. Qed.

Example strptime_canonical_ok :
  Strptime.strptime "2024-03-15" Strptime.fmt_canonical = Ok (PyDate.mkdate 2024 3 15).
Proof. reflexivity. Qed.

Example strptime_canonical_rejects_compact :
  Strptime.strptime "20240315" Strptime.fmt_canonical = Raise ValueError.
Proof. reflexivity. Qed.

Example strptime_backtracks :
  Strptime.strptime "202413" Strptime.fmt_legacy = Ok (PyDate.mkdate 2024 1 3).
Proof. reflexivity. Qed.

Example strptime_leftover :
  Strptime.strptime "20240335" Strptime.fmt_legacy = Raise ValueError.
Proof. reflexivity. Qed.

Example strptime_no_such_day :
  Strptime.strptime "2023-02-29" Strptime.fmt_canonical = Raise ValueError.
Proof. reflexivity. Qed.

Example ordinal_round_trip :
  PyDate.fromordinal (PyDate.toordinal (PyDate.mkdate 2024 2 29)) = PyDate.mkdate 2024 2 29
  /\ PyDate.add_days (PyDate.mkdate 2024 2 28) 2 = Ok (PyDate.mkdate 2024 3 1)
  /\ PyDate.add_days (PyDate.mkdate 2023 12 31) 1 = Ok (PyDate.mkdate 2024 1 1)
  /\ PyDate.add_days (PyDate.mkdate 2024 3 15) (-30) = Ok (PyDate.mkdate 2024 2 14)
  /\ PyDate.toordinal (PyDate.mkdate 9999 12 31) = PyDate.MAXORDINAL.
Proof. repeat split; reflexivity. Qed.

(** The end-to-end scenario: a new database file, one row per category for
    2024-01-01; the run ends with status 0, one dimension row and one row
    in each fact table referring to it, and the three exports. *)
Example end_to_end_scenario :
  let out := main Samples.quiet_env Samples.fresh in
  fst out = 0
  /\ dimension (store (snd out)) = [(1, "2024-01-01")]
  /\ rows_of (user_interaction (store (snd out)))
     = [(1, mkuser_fact 1 100 120 (F_dec false 55 (-2)) 5 (F_dec false 423 (-1)))]
  /\ rows_of (content_metrics (store (snd out)))
     = [(1, mkcontent_fact 1 "Home" 300 120 (F_dec false 55 (-2))
              (F_dec false 423 (-1)))]
  /\ rows_of (site_data (store (snd out))) = [(1, mksite_fact 1 "shoes" 10 200)]
  /\ filter is_attempt (trace (snd out)) = [FetchAttempt "2024-01-01" "2024-01-31"]
  /\ In (ToCsv "users_metrics.csv") (trace (snd out))
  /\ In (ToCsv "content_metrics.csv") (trace (snd out))
  /\ In (ToCsv "site_metrics.csv") (trace (snd out)).
Proof. vm_compute. repeat split; auto 10. Qed.

(** ** The compact date encoding *)

(** C6: the normaliser turns the compact encoding 20240315 into exactly
    2024-03-15; for every string of eight characters the conversion puts the
    first four, the next two and the last two characters, unchanged, between
    hyphens, and nothing is lost (the compact string can be read back).  The
    legacy branch of the watermark parser reads 20240315 directly, to the
    same day that the canonical branch reads from the converted string, and
    [get_last_date] returns that day for a dimension holding the legacy
    string. *)
Theorem C6_compact_date_conversion :
  format_date "20240315" = "2024-03-15"
  /\ (forall y1 y2 y3 y4 m1 m2 d1 d2 : ascii,
        format_date (of_chars [y1; y2; y3; y4; m1; m2; d1; d2])
        = of_chars [y1; y2; y3; y4; "-"%char; m1; m2; "-"%char; d1; d2]
        /\ compact_of (format_date (of_chars [y1; y2; y3; y4; m1; m2; d1; d2]))
           = of_chars [y1; y2; y3; y4; m1; m2; d1; d2])
  /\ strptime "20240315" fmt_legacy = Ok (mkdate 2024 3 15)
  /\ strptime (format_date "20240315") fmt_canonical = Ok (mkdate 2024 3 15)
  /\ fst (get_last_date Samples.quiet_env (Samples.with_dates ["20240315"]))
     = Ok (Some (mkdate 2024 3 15)).
Proof.
  split; [reflexivity|].
  split; [intros; split; reflexivity|].
  repeat split; vm_compute; reflexivity.
Qed.

(** ** Normalisation of the report rows *)

Lemma rbind_ok_inv A B (r : result A) (k : A -> result B) (b : B) :
  rbind r k = Ok b -> exists a, r = Ok a /\ k a = Ok b.
Proof. destruct r as [a|e]; simpl; [eauto | discriminate]. Qed.

Lemma index_ok_inv A (l : list A) (i : nat) (a : A) :
  index l i = Ok a -> nth_error l i = Some a.
Proof. unfold index; destruct (nth_error l i); congruence. Qed.

Ltac rbind_inv :=
  repeat match goal with
    | H : rbind _ _ = Ok _ |- _ =>
        let a := fresh "a" in
        let Ha := fresh "Ha" in
        apply rbind_ok_inv in H; destruct H as (a & Ha & H)
    | H : Ok _ = Ok _ |- _ => injection H as H; subst
    end.

Lemma process_row_date type row e :
  process_row type row = Ok e -> date_of_row row e.
Proof.
  unfold process_row, date_of_row; intros H.
  apply rbind_ok_inv in H; destruct H as (d & Hd & H).
  exists d; split; [now apply index_ok_inv|].
  destruct (String.eqb type "user");
    [|destruct (String.eqb type "content");
      [|destruct (String.eqb type "site")]];
    rbind_inv; subst; reflexivity.
Qed.

Lemma process_response_rows rows type df :
  process_response rows type = Ok df -> Forall2 date_of_row rows df.
Proof.
  revert df; induction rows as [|row rest IH]; simpl; intros df H.
  - injection H as <-; constructor.
  - apply rbind_ok_inv in H; destruct H as (e & He & H).
    apply rbind_ok_inv in H; destruct H as (data & Hdata & H).
    injection H as <-.
    constructor; [eapply process_row_date; eassumption | now apply IH].
Qed.

Lemma process_response_missing_date rows type row :
  In row rows -> dimension_values row = [] ->
  exists e, process_response rows type = Raise e.
Proof.
  induction rows as [|r rest IH]; simpl; [tauto|].
  intros [->|Hin] Hnil.
  - unfold process_row; rewrite Hnil; simpl; eauto.
  - destruct (process_row type r) as [e|e]; simpl; [|eauto].
    destruct (IH Hin Hnil) as (e' & ->); simpl; eauto.
Qed.

(** C9 (as amended): normalisation never drops a row and never guards the
    date string.  When it returns, there is exactly one record per source
    row, in order, and the record's date is the row's first dimension value
    cut at positions 4, 6 and 8 and joined with hyphens, whatever that value
    is; a row without any dimension value makes the whole normalisation
    raise. *)
Theorem C9_rows_kept_dates_unchecked :
  forall (rows : list report_row) (type : string),
    (forall df, process_response rows type = Ok df ->
                List.length df = List.length rows /\ Forall2 date_of_row rows df)
    /\ (forall row, In row rows -> dimension_values row = [] ->
                    exists e, process_response rows type = Raise e).
Proof.
  intros rows type; split.
  - intros df H; apply process_response_rows in H.
    split; [symmetry; eapply Forall2_length; eassumption | assumption].
  - intros row; apply process_response_missing_date.
Qed.

(** The amended statement at a response with a good row and a row without
    dimension values. *)
Lemma C9_rows_kept_dates_unchecked_witness :
  (List.length [SiteEntry "2024-01-01" "shoes" 10 200] = 1%nat
   /\ Forall2 date_of_row [mkrow ["20240101"; "shoes"] ["10"; "200"]]
                          [SiteEntry "2024-01-01" "shoes" 10 200])
  /\ exists e,
      process_response [mkrow ["20240101"; "shoes"] ["10"; "200"];
                        mkrow [] ["10"; "200"]] "site" = Raise e.
Proof.
  split.
  - apply (proj1 (C9_rows_kept_dates_unchecked
                    [mkrow ["20240101"; "shoes"] ["10"; "200"]] "site")).
    reflexivity.
  - apply (proj2 (C9_rows_kept_dates_unchecked
                    [mkrow ["20240101"; "shoes"] ["10"; "200"];
                     mkrow [] ["10"; "200"]] "site") (mkrow [] ["10"; "200"])).
    + simpl; auto.
    + reflexivity.
Defined.

(** A date of seven digits, and a value that is no date at all, become
    records without any error. *)
Lemma C9_counterexample :
  process_response [mkrow ["2024031"; "shoes"] ["10"; "200"];
                    mkrow ["(other)"; "boots"] ["1"; "2"]] "site"
  = Ok [SiteEntry "2024-03-1" "shoes" 10 200; SiteEntry "(oth-er-)" "boots" 1 2].
Proof. reflexivity. Qed.

(** ** The date dimension *)

Lemma grows_refl db : grows db db.
Proof. exists []; now rewrite app_nil_r. Qed.

Lemma grows_trans a b c : grows a b -> grows b c -> grows a c.
Proof.
  intros (m1 & H1) (m2 & H2); exists (m1 ++ m2)%list.
  now rewrite H2, H1, app_assoc.
Qed.

Lemma same_facts_refl db : same_facts db db.
Proof. repeat split. Qed.

Lemma same_facts_trans a b c : same_facts a b -> same_facts b c -> same_facts a c.
Proof. unfold same_facts; intros (?&?&?) (?&?&?); repeat split; congruence. Qed.

Lemma find_app_some A (p : A -> bool) l l' x :
  find p l = Some x -> find p (l ++ l')%list = Some x.
Proof.
  induction l as [|a l IH]; simpl; [discriminate|].
  destruct (p a); auto.
Qed.

Lemma date_id_of_grows d db db' i :
  grows db db' -> date_id_of d db = Some i -> date_id_of d db' = Some i.
Proof.
  unfold date_id_of; intros (more & ->) H.
  destruct (find _ (dimension db)) as [r|] eqn:E; [|discriminate].
  now rewrite (find_app_some _ _ _ _ _ E).
Qed.

Lemma select_date_id_of d db o :
  select_date_id d db = Ok o -> date_id_of d db = o.
Proof.
  unfold select_date_id, date_id_of, dimension, the_table.
  destruct (dates db); [|discriminate]. now intros [= <-].
Qed.

Lemma existsb_find_none A (p : A -> bool) l :
  existsb p l = false -> find p l = None.
Proof.
  induction l as [|a l IH]; simpl; [reflexivity|].
  destruct (p a); simpl; [discriminate | exact IH].
Qed.

Lemma find_none_not_in l d :
  find (fun r : Z * string => String.eqb (snd r) d) l = None ->
  ~ In d (map snd l).
Proof.
  induction l as [|a l IH]; simpl; [tauto|].
  destruct (String.eqb_spec (snd a) d) as [|Hne]; [discriminate|].
  intros H [Heq|Hin]; [contradiction | exact (IH H Hin)].
Qed.

(** What one [INSERT INTO dates] does to the database. *)
Lemma insert_date_spec d db i db' :
  insert_date d db = Ok (i, db') ->
  dimension db' = (dimension db ++ [(i, d)])%list
  /\ same_facts db db'
  /\ ~ In d (map snd (dimension db))
  /\ dates db <> None.
Proof.
  unfold insert_date, the_table, dimension, same_facts.
  destruct (dates db) as [t|] eqn:Et; [|discriminate].
  destruct (existsb _ (rows t)) eqn:Ex; [discriminate|].
  unfold insert_auto; cbv zeta.
  destruct (MAX_ROWID <=? _); [discriminate|].
  intros H; inversion H; subst; clear H; simpl.
  repeat split; try congruence.
  apply find_none_not_in, existsb_find_none, Ex.
Qed.

Section Resolver.
Variable env : Env.

(** The resolver, outcome by outcome: whatever happens the fact tables are
    untouched and the dimension grows by at most the row of the date
    asked for; a returned identifier is the one now stored for the date. *)
Lemma get_or_create_date_id_spec d w r w' :
  get_or_create_date_id env d w = (r, w') ->
  same_facts (store w) (store w')
  /\ ((store w' = store w
       /\ forall i, r = Ok i -> date_id_of d (store w) = Some i)
      \/ (exists i, r = Ok i
                    /\ date_id_of d (store w) = None
                    /\ dimension (store w')
                       = (dimension (store w) ++ [(i, d)])%list)).
Proof.
  cbv beta delta [get_or_create_date_id connect try_except bind query execute
    commit get_store put_store lift log emit raise ret external]; simpl.
  destruct (fault env (clock w)); simpl.
  { intros [= <- <-]; simpl. split; [apply same_facts_refl|].
    left; split; [reflexivity | discriminate]. }
  destruct (fault env (S (clock w))); simpl.
  { intros [= <- <-]; simpl. split; [apply same_facts_refl|].
    left; split; [reflexivity | discriminate]. }
  destruct (select_date_id d (store w)) as [[i|]|e] eqn:Esel; simpl.
  - intros [= <- <-]; simpl. split; [apply same_facts_refl|].
    left; split; [reflexivity|]. intros j [= <-].
    now apply select_date_id_of in Esel.
  - destruct (fault env (S (S (clock w)))); simpl.
    { intros [= <- <-]; simpl. split; [apply same_facts_refl|].
      left; split; [reflexivity | discriminate]. }
    destruct (insert_date d (store w)) as [[i db']|e] eqn:Eins; simpl.
    + destruct (fault env (S (S (S (clock w))))); simpl.
      { intros [= <- <-]; simpl. split; [apply same_facts_refl|].
        left; split; [reflexivity | discriminate]. }
      intros [= <- <-]; simpl.
      apply insert_date_spec in Eins. destruct Eins as (Hd & Hf & _ & _).
      split; [exact Hf|]. right. exists i. repeat split; auto.
      now apply select_date_id_of in Esel.
    + intros [= <- <-]; simpl. split; [apply same_facts_refl|].
      left; split; [reflexivity | discriminate].
  - intros [= <- <-]; simpl. split; [apply same_facts_refl|].
    left; split; [reflexivity | discriminate].
Qed.
End Resolver.

Lemma NoDup_snoc A (l : list A) (a : A) :
  NoDup l -> ~ In a l -> NoDup (l ++ [a])%list.
Proof.
  induction 1 as [|x l Hx Hl IH]; simpl; intros Ha.
  - constructor; [tauto | constructor].
  - constructor.
    + rewrite in_app_iff; simpl. intros [?|[?|[]]]; [tauto | subst; tauto].
    + apply IH; tauto.
Qed.

Lemma unique_dates_snoc db db' i d :
  unique_dates db -> date_id_of d db = None ->
  dimension db' = (dimension db ++ [(i, d)])%list ->
  unique_dates db'.
Proof.
  unfold unique_dates, date_id_of; intros Hu Hnone ->.
  rewrite map_app; simpl.
  destruct (find _ (dimension db)) eqn:E; [discriminate|].
  apply NoDup_snoc; [exact Hu | now apply find_none_not_in].
Qed.

Lemma get_or_create_date_id_grows env d w r w' :
  get_or_create_date_id env d w = (r, w') ->
  grows (store w) (store w') /\ same_facts (store w) (store w')
  /\ (unique_dates (store w) -> unique_dates (store w')).
Proof.
  intros H; apply get_or_create_date_id_spec in H.
  destruct H as (Hf & [(Hs & _) | (i & _ & Hnone & Hd)]).
  - rewrite Hs; repeat split; auto using grows_refl, same_facts_refl.
  - repeat split; try apply Hf.
    + now exists [(i, d)].
    + intros Hu; eapply unique_dates_snoc; eassumption.
Qed.

Lemma get_or_create_date_id_registers env d w i w' :
  get_or_create_date_id env d w = (Ok i, w') ->
  date_id_of d (store w') = Some i.
Proof.
  intros H; apply get_or_create_date_id_spec in H.
  destruct H as (_ & [(Hs & Hi) | (j & Hj & Hnone & Hd)]).
  - rewrite Hs; now apply Hi.
  - injection Hj as <-. unfold date_id_of in *. rewrite Hd.
    destruct (find _ (dimension (store w))) eqn:E; [discriminate|].
    clear Hnone Hd. induction (dimension (store w)) as [|a l IH]; simpl in *.
    + now rewrite String.eqb_refl.
    + destruct (String.eqb (snd a) d); [discriminate | now apply IH].
Qed.

(** A date already in the dimension: the lookup branch answers, when the
    connection and the query do not fail. *)
Lemma get_or_create_date_id_hit env d w i :
  date_id_of d (store w) = Some i ->
  fault env (clock w) = false -> fault env (S (clock w)) = false ->
  fst (get_or_create_date_id env d w) = Ok i.
Proof.
  intros Hi F0 F1.
  cbv beta delta [get_or_create_date_id connect try_except bind query execute
    commit get_store put_store lift log emit raise ret external]; simpl.
  rewrite F0; simpl; rewrite F1; simpl.
  unfold date_id_of, dimension, rows_of in Hi.
  unfold select_date_id, the_table.
  destruct (dates (store w)) as [t|]; [|discriminate].
  destruct (find _ (rows t)) as [row|]; [|discriminate].
  simpl in *. congruence.
Qed.

(** ** The watermark *)

(** [get_last_date] by cases.  The connection is opened first; once it is
    open nothing can escape the [try]. *)
Lemma get_last_date_spec env w r w' :
  get_last_date env w = (r, w') ->
  store w' = store w
  /\ (fault env (clock w) = true ->
      r = Raise OperationalError /\ trace w' = trace w)
  /\ (fault env (clock w) = false ->
      exists last, r = Ok last
        /\ (fault env (S (clock w)) = true ->
            last = None /\ trace w' = Log ERROR "Date retrieval failed" :: trace w)
        /\ (fault env (S (clock w)) = false ->
            match select_max_date (store w) with
            | Raise _ =>
                last = None
                /\ trace w' = Log ERROR "Date retrieval failed" :: trace w
            | Ok None => last = None /\ trace w' = trace w
            | Ok (Some s) =>
                if String.eqb s "" then last = None /\ trace w' = trace w
                else
                  match strptime s fmt_canonical with
                  | Ok d => last = Some d /\ trace w' = trace w
                  | Raise ValueError =>
                      match strptime s fmt_legacy with
                      | Ok d => last = Some d /\ trace w' = trace w
                      | Raise _ =>
                          last = None
                          /\ trace w'
                             = Log ERROR "Date retrieval failed" :: trace w
                      end
                  | Raise _ =>
                      last = None
                      /\ trace w' = Log ERROR "Date retrieval failed" :: trace w
                  end
            end)).
Proof.
  cbv beta delta [get_last_date connect try_except bind query get_store lift
    log emit raise ret external]; simpl.
  destruct (fault env (clock w)) eqn:F0; simpl.
  { intros H; inversion H; subst; simpl.
    split; [reflexivity|]. split; [auto | discriminate]. }
  destruct (fault env (S (clock w))) eqn:F1; simpl.
  { intros H; inversion H; subst; simpl.
    split; [reflexivity|]. split; [discriminate|].
    intros _; exists None. split; [reflexivity|].
    split; [auto | discriminate]. }
  destruct (select_max_date (store w)) as [[s|]|e] eqn:Emax; simpl.
  - destruct (String.eqb s "") eqn:Es.
    + intros H; inversion H; subst; simpl.
      split; [reflexivity|]. split; [discriminate|].
      intros _; exists None. split; [reflexivity|].
      split; [discriminate | auto].
    + destruct (strptime s fmt_canonical) as [d|e] eqn:Ec.
      * intros H; inversion H; subst; simpl.
        split; [reflexivity|]. split; [discriminate|].
        intros _; exists (Some d). split; [reflexivity|].
        split; [discriminate | auto].
      * destruct e; simpl;
          try (intros H; inversion H; subst; simpl;
               split; [reflexivity|]; split; [discriminate|];
               intros _; exists None; split; [reflexivity|];
               split; [discriminate | auto]).
        destruct (strptime s fmt_legacy) as [d|e] eqn:El; simpl;
          intros H; inversion H; subst; simpl;
          (split; [reflexivity|]); (split; [discriminate|]); intros _;
          [exists (Some d) | exists None]; (split; [reflexivity|]);
          (split; [discriminate | auto]).
  - intros H; inversion H; subst; simpl.
    split; [reflexivity|]. split; [discriminate|].
    intros _; exists None. split; [reflexivity|].
    split; [discriminate | auto].
  - intros H; inversion H; subst; simpl.
    split; [reflexivity|]. split; [discriminate|].
    intros _; exists None. split; [reflexivity|].
    split; [discriminate | auto].
Qed.

Lemma select_max_date_empty db :
  dimension db = [] -> dates db <> None -> select_max_date db = Ok None.
Proof.
  unfold dimension, select_max_date, rows_of, the_table.
  destruct (dates db) as [t|]; [|congruence].
  now intros ->.
Qed.

Lemma select_max_date_no_table db :
  dates db = None -> select_max_date db = Raise OperationalError.
Proof. unfold select_max_date, the_table; now intros ->. Qed.

(** C8 (as amended): once the connection is open, [get_last_date] never
    raises: it returns a date or none, and leaves the database alone.  It
    returns none when the query fails (a failing statement, a missing
    table), when the stored maximum can be read by neither parser, and when
    the dimension is empty; the value returned is the same in all these
    cases, only the failures leave an error line in the log. *)
Theorem C8_soft_failure_yields_none :
  forall (env : Env) (w : World),
    fault env (clock w) = false ->
    exists last : option date,
      fst (get_last_date env w) = Ok last
      /\ store (snd (get_last_date env w)) = store w
      /\ (fault env (S (clock w)) = true -> last = None)
      /\ (dates (store w) = None -> last = None)
      /\ (forall s e1 e2,
            select_max_date (store w) = Ok (Some s) ->
            strptime s fmt_canonical = Raise e1 ->
            strptime s fmt_legacy = Raise e2 ->
            last = None)
      /\ (dimension (store w) = [] -> last = None)
      /\ (dimension (store w) = [] -> dates (store w) <> None ->
          fault env (S (clock w)) = false ->
          trace (snd (get_last_date env w)) = trace w)
      /\ (fault env (S (clock w)) = true ->
          trace (snd (get_last_date env w))
          = Log ERROR "Date retrieval failed" :: trace w).
Proof.
  intros env w F0.
  destruct (get_last_date env w) as [r w'] eqn:E; simpl.
  apply get_last_date_spec in E. destruct E as (Hs & _ & Hok).
  destruct (Hok F0) as (last & -> & Hf & Hq).
  exists last. split; [reflexivity|]. split; [exact Hs|].
  destruct (fault env (S (clock w))) eqn:F1.
  - destruct (Hf eq_refl) as (-> & Ht).
    repeat split; auto; discriminate.
  - specialize (Hq eq_refl).
    split; [discriminate|].
    split.
    { intros Hnone. rewrite (select_max_date_no_table _ Hnone) in Hq. tauto. }
    split.
    { intros s e1 e2 Hmax Hc Hl. rewrite Hmax, Hc, Hl in Hq.
      destruct (String.eqb s ""); [tauto|]. destruct e1; tauto. }
    split.
    { intros Hnil. destruct (dates (store w)) eqn:Ed.
      - rewrite select_max_date_empty in Hq; [tauto | exact Hnil | congruence].
      - rewrite (select_max_date_no_table _ Ed) in Hq. tauto. }
    split; [|discriminate].
    intros Hnil Hd _. rewrite (select_max_date_empty _ Hnil Hd) in Hq. tauto.
Qed.

(** The amended statement where the query fails after the connection has
    opened. *)
Lemma C8_soft_failure_yields_none_witness :
  exists last : option date,
    fst (get_last_date (Samples.failing_at 1) (Samples.with_dates ["2024-01-01"]))
    = Ok last
    /\ last = None.
Proof.
  destruct (C8_soft_failure_yields_none
              (Samples.failing_at 1) (Samples.with_dates ["2024-01-01"]) eq_refl)
    as (last & H1 & _ & H3 & _).
  exists last; split; [exact H1 | apply H3; reflexivity].
Defined.

(** The connection itself cannot be opened: the exception leaves
    [get_last_date]. *)
Lemma C8_counterexample :
  fst (get_last_date (Samples.failing_at 0) (Samples.with_dates ["2024-01-01"]))
  = Raise OperationalError.
Proof. vm_compute; reflexivity. Qed.

(** C5 at a dimension that mixes the two encodings: the legacy row
    20240101 and the canonical row 2024-06-01.  Both are read by the
    parsers, the later day is 2024-06-01, but the [MAX] of the two strings
    is the legacy one and [get_last_date] returns 2024-01-01. *)
Lemma C5_mixed_encodings_return_earlier_day :
  fst (get_last_date Samples.quiet_env
         (Samples.with_dates ["20240101"; "2024-06-01"]))
  = Ok (Some (mkdate 2024 1 1))
  /\ select_max_date (store (Samples.with_dates ["20240101"; "2024-06-01"]))
     = Ok (Some "20240101")
  /\ strptime "2024-06-01" fmt_canonical = Ok (mkdate 2024 6 1)
  /\ strptime "20240101" fmt_legacy = Ok (mkdate 2024 1 1)
  /\ gt (mkdate 2024 6 1) (mkdate 2024 1 1) = true.
Proof. repeat split; vm_compute; reflexivity. Qed.

(** ** Sequencing *)

Lemma bind_inv A B (m : M A) (k : A -> M B) w r w' :
  bind m k w = (r, w') ->
  (exists a w1, m w = (Ok a, w1) /\ k a w1 = (r, w'))
  \/ (exists e, m w = (Raise e, w') /\ r = Raise e).
Proof.
  unfold bind. destruct (m w) as [[a|e] w1]; intros H.
  - left; eauto.
  - right; inversion H; subst; eauto.
Qed.

Lemma bind_ok_inv A B (m : M A) (k : A -> M B) w b w' :
  bind m k w = (Ok b, w') ->
  exists a w1, m w = (Ok a, w1) /\ k a w1 = (Ok b, w').
Proof.
  intros H; apply bind_inv in H.
  destruct H as [H | (e & _ & H)]; [exact H | discriminate].
Qed.

Lemma external_inv env e w r w' :
  external env e w = (r, w') ->
  store w' = store w /\ trace w' = trace w /\ clock w' = S (clock w)
  /\ r = (if fault env (clock w) then Raise e else Ok tt).
Proof. unfold external; intros H; inversion H; subst; simpl; auto. Qed.

Lemma lift_inv A (x : result A) w r w' :
  lift x w = (r, w') -> r = x /\ w' = w.
Proof. unfold lift; intros H; inversion H; auto. Qed.

Lemma emit_inv ev w r w' :
  emit ev w = (r, w') ->
  r = Ok tt /\ store w' = store w /\ clock w' = clock w
  /\ trace w' = ev :: trace w.
Proof. unfold emit; intros H; inversion H; subst; simpl; auto. Qed.

(** ** The writer *)

(** A loop changes nothing that is committed; when it ends normally every
    row has given its fact and every fact has been inserted. *)
Lemma insert_rows_spec env F (fact_of : entry -> result F)
      (insert : F -> DB -> result DB) df :
  forall txn w r w',
    insert_rows env fact_of insert df txn w = (r, w') ->
    store w' = store w /\ trace w' = trace w
    /\ forall txn', r = Ok txn' ->
         exists facts,
           Forall2 (fun row f => fact_of row = Ok f) df facts
           /\ insert_all insert facts txn = Ok txn'.
Proof.
  induction df as [|row rest IH]; simpl; intros txn w r w' H.
  - inversion H; subst. repeat split; auto.
    intros txn' [= <-]. exists []; split; [constructor | reflexivity].
  - apply bind_inv in H. destruct H as [(f & w1 & Hf & H) | (e & Hf & ->)].
    + apply lift_inv in Hf. destruct Hf as (Hf & ->).
      apply bind_inv in H. destruct H as [(t1 & w2 & Hx & H) | (e & Hx & ->)].
      * unfold execute in Hx. apply bind_inv in Hx.
        destruct Hx as [(u & w3 & He & Hx) | (e & He & [=])].
        apply external_inv in He. destruct He as (Hs & Ht & _ & _).
        apply lift_inv in Hx. destruct Hx as (Hx & ->).
        apply IH in H. destruct H as (Hs' & Ht' & Hok).
        split; [congruence|]. split; [congruence|].
        intros txn' Hr. destruct (Hok txn' Hr) as (facts & HF & Hall).
        exists (f :: facts); split; [constructor; auto|].
        simpl. now rewrite <- Hx, Hall.
      * unfold execute in Hx. apply bind_inv in Hx.
        destruct Hx as [(u & w3 & He & Hx) | (e' & He & _)].
        -- apply external_inv in He. destruct He as (Hs & Ht & _ & _).
           apply lift_inv in Hx. destruct Hx as (_ & ->).
           repeat split; auto; discriminate.
        -- apply external_inv in He. destruct He as (Hs & Ht & _ & _).
           repeat split; auto; discriminate.
    + apply lift_inv in Hf. destruct Hf as (_ & ->).
      repeat split; auto; discriminate.
Qed.

Lemma valid_map_grows m db db' :
  grows db db' -> valid_map m db -> valid_map m db'.
Proof. intros Hg Hv k v Hin. eapply date_id_of_grows; eauto. Qed.

Lemma resolve_dates_spec env l :
  forall date_map w r w',
    resolve_dates env l date_map w = (r, w') ->
    grows (store w) (store w') /\ same_facts (store w) (store w')
    /\ (unique_dates (store w) -> unique_dates (store w'))
    /\ (forall date_map', r = Ok date_map' ->
          valid_map date_map (store w) -> valid_map date_map' (store w')).
Proof.
  induction l as [|d rest IH]; simpl; intros m w r w' H.
  - inversion H; subst.
    repeat split; auto using grows_refl. intros m' [= <-]; auto.
  - apply bind_inv in H. destruct H as [(i & w1 & Hg & H) | (e & Hg & ->)].
    + pose proof (get_or_create_date_id_registers _ _ _ _ _ Hg) as Hreg.
      apply get_or_create_date_id_grows in Hg. destruct Hg as (G1 & F1 & U1).
      apply IH in H. destruct H as (G2 & F2 & U2 & V2).
      split; [eapply grows_trans; eauto|].
      split; [eapply same_facts_trans; eauto|].
      split; [auto|].
      intros m' Hr Hv. apply (V2 m' Hr).
      intros k v [[= <- <-] | Hin]; [exact Hreg|].
      eapply valid_map_grows; eauto.
    + apply get_or_create_date_id_grows in Hg. destruct Hg as (G1 & F1 & U1).
      repeat split; auto; try apply F1. discriminate.
Qed.

Lemma dict_get_valid m db k v :
  valid_map m db -> dict_get m k = Ok v -> date_id_of k db = Some v.
Proof.
  unfold dict_get; intros Hv H.
  destruct (find _ m) as [[k' v']|] eqn:E; [|discriminate].
  injection H as <-. apply find_some in E. destruct E as (Hin & Hk).
  simpl in Hk. apply String.eqb_eq in Hk. subst. now apply Hv.
Qed.

(** What the three [INSERT] statements of the fact tables do. *)
Lemma insert_user_fact_spec f db db' :
  insert_user_fact f db = Ok db' ->
  dates db' = dates db /\ content_metrics db' = content_metrics db
  /\ site_data db' = site_data db
  /\ exists i, rows_of (user_interaction db')
               = (rows_of (user_interaction db) ++ [(i, f)])%list.
Proof.
  unfold insert_user_fact, the_table, insert_auto; cbv zeta.
  destruct (negb _); [discriminate|].
  destruct (user_interaction db) as [t|]; [|discriminate].
  destruct (MAX_ROWID <=? _); [discriminate|].
  intros H; inversion H; subst; clear H; simpl. repeat split; eauto.
Qed.

Lemma insert_content_fact_spec f db db' :
  insert_content_fact f db = Ok db' ->
  dates db' = dates db /\ user_interaction db' = user_interaction db
  /\ site_data db' = site_data db
  /\ exists i, rows_of (content_metrics db')
               = (rows_of (content_metrics db) ++ [(i, f)])%list.
Proof.
  unfold insert_content_fact, the_table, insert_auto; cbv zeta.
  destruct (negb _); [discriminate|].
  destruct (content_metrics db) as [t|]; [|discriminate].
  destruct (MAX_ROWID <=? _); [discriminate|].
  intros H; inversion H; subst; clear H; simpl. repeat split; eauto.
Qed.

Lemma insert_site_fact_spec f db db' :
  insert_site_fact f db = Ok db' ->
  dates db' = dates db /\ user_interaction db' = user_interaction db
  /\ content_metrics db' = content_metrics db
  /\ exists i, rows_of (site_data db')
               = (rows_of (site_data db) ++ [(i, f)])%list.
Proof.
  unfold insert_site_fact, the_table, insert_auto; cbv zeta.
  destruct (negb _); [discriminate|].
  destruct (site_data db) as [t|]; [|discriminate].
  destruct (MAX_ROWID <=? _); [discriminate|].
  intros H; inversion H; subst; clear H; simpl. repeat split; eauto.
Qed.

Lemma insert_all_users facts : forall db db',
  insert_all insert_user_fact facts db = Ok db' ->
  dates db' = dates db /\ content_metrics db' = content_metrics db
  /\ site_data db' = site_data db
  /\ exists new, rows_of (user_interaction db')
                 = (rows_of (user_interaction db) ++ new)%list
                 /\ map snd new = facts.
Proof.
  induction facts as [|f rest IH]; simpl; intros db db' H.
  - injection H as <-. repeat split. exists []; now rewrite app_nil_r.
  - destruct (insert_user_fact f db) as [db1|] eqn:E; [|discriminate].
    apply insert_user_fact_spec in E. destruct E as (D1 & C1 & S1 & i & R1).
    apply IH in H. destruct H as (D2 & C2 & S2 & new & R2 & M2).
    repeat split; try congruence.
    exists ((i, f) :: new). rewrite R2, R1, <- app_assoc. simpl.
    split; [reflexivity | now rewrite M2].
Qed.

Lemma insert_all_content facts : forall db db',
  insert_all insert_content_fact facts db = Ok db' ->
  dates db' = dates db /\ user_interaction db' = user_interaction db
  /\ site_data db' = site_data db
  /\ exists new, rows_of (content_metrics db')
                 = (rows_of (content_metrics db) ++ new)%list
                 /\ map snd new = facts.
Proof.
  induction facts as [|f rest IH]; simpl; intros db db' H.
  - injection H as <-. repeat split. exists []; now rewrite app_nil_r.
  - destruct (insert_content_fact f db) as [db1|] eqn:E; [|discriminate].
    apply insert_content_fact_spec in E. destruct E as (D1 & C1 & S1 & i & R1).
    apply IH in H. destruct H as (D2 & C2 & S2 & new & R2 & M2).
    repeat split; try congruence.
    exists ((i, f) :: new). rewrite R2, R1, <- app_assoc. simpl.
    split; [reflexivity | now rewrite M2].
Qed.

Lemma insert_all_site facts : forall db db',
  insert_all insert_site_fact facts db = Ok db' ->
  dates db' = dates db /\ user_interaction db' = user_interaction db
  /\ content_metrics db' = content_metrics db
  /\ exists new, rows_of (site_data db')
                 = (rows_of (site_data db) ++ new)%list
                 /\ map snd new = facts.
Proof.
  induction facts as [|f rest IH]; simpl; intros db db' H.
  - injection H as <-. repeat split. exists []; now rewrite app_nil_r.
  - destruct (insert_site_fact f db) as [db1|] eqn:E; [|discriminate].
    apply insert_site_fact_spec in E. destruct E as (D1 & C1 & S1 & i & R1).
    apply IH in H. destruct H as (D2 & C2 & S2 & new & R2 & M2).
    repeat split; try congruence.
    exists ((i, f) :: new). rewrite R2, R1, <- app_assoc. simpl.
    split; [reflexivity | now rewrite M2].
Qed.

(** The export changes nothing in the database and fails with [OSError]
    only. *)
Lemma export_all_spec env tables : forall w r w',
  export_all env tables w = (r, w') ->
  store w' = store w /\ (r = Ok tt \/ r = Raise OSError).
Proof.
  induction tables as [|t rest IH]; simpl; intros w r w' H.
  - inversion H; auto.
  - apply bind_inv in H. destruct H as [(u & w1 & Hc & H) | (e & Hc & ->)].
    + unfold to_csv in Hc. apply bind_ok_inv in Hc.
      destruct Hc as (u' & w2 & He & Hm).
      apply external_inv in He. apply emit_inv in Hm.
      apply IH in H. destruct H as (Hs & Hr).
      split; [|exact Hr]. destruct He as (? & _), Hm as (_ & ? & _). congruence.
    + unfold to_csv in Hc. apply bind_inv in Hc.
      destruct Hc as [(u' & w2 & He & Hm) | (e' & He & [= ->])].
      * apply emit_inv in Hm. destruct Hm as ([=] & _).
      * apply external_inv in He. destruct He as (Hs & _ & _ & Hr).
        split; [exact Hs|]. right.
        destruct (fault env (clock w)); [exact Hr | discriminate].
Qed.

(** Which exceptions the steps before the export can raise: never the
    [OSError] of the export. *)
Lemma select_date_id_raises d db e :
  select_date_id d db = Raise e -> e <> OSError.
Proof.
  unfold select_date_id, the_table. destruct (dates db); [discriminate|].
  intros [= <-]; discriminate.
Qed.

Lemma insert_auto_raises R (r : R) t e :
  insert_auto r t = Raise e -> e <> OSError.
Proof.
  unfold insert_auto; cbv zeta. destruct (MAX_ROWID <=? _); [|discriminate].
  intros [= <-]; discriminate.
Qed.

Lemma insert_date_raises d db e :
  insert_date d db = Raise e -> e <> OSError.
Proof.
  unfold insert_date, the_table. destruct (dates db) as [t|].
  - destruct (existsb _ _); [intros [= <-]; discriminate|].
    destruct (insert_auto d t) as [[i t']|e'] eqn:E; [discriminate|].
    intros [= <-]. eapply insert_auto_raises; eassumption.
  - intros [= <-]; discriminate.
Qed.

Lemma insert_user_fact_raises f db e :
  insert_user_fact f db = Raise e -> e <> OSError.
Proof.
  unfold insert_user_fact, the_table.
  destruct (negb _); [intros [= <-]; discriminate|].
  destruct (user_interaction db) as [t|]; [|intros [= <-]; discriminate].
  destruct (insert_auto f t) as [[i t']|e'] eqn:E; [discriminate|].
  intros [= <-]. eapply insert_auto_raises; eassumption.
Qed.

Lemma insert_content_fact_raises f db e :
  insert_content_fact f db = Raise e -> e <> OSError.
Proof.
  unfold insert_content_fact, the_table.
  destruct (negb _); [intros [= <-]; discriminate|].
  destruct (content_metrics db) as [t|]; [|intros [= <-]; discriminate].
  destruct (insert_auto f t) as [[i t']|e'] eqn:E; [discriminate|].
  intros [= <-]. eapply insert_auto_raises; eassumption.
Qed.

Lemma insert_site_fact_raises f db e :
  insert_site_fact f db = Raise e -> e <> OSError.
Proof.
  unfold insert_site_fact, the_table.
  destruct (negb _); [intros [= <-]; discriminate|].
  destruct (site_data db) as [t|]; [|intros [= <-]; discriminate].
  destruct (insert_auto f t) as [[i t']|e'] eqn:E; [discriminate|].
  intros [= <-]. eapply insert_auto_raises; eassumption.
Qed.

Lemma dict_get_raises m k e : dict_get m k = Raise e -> e = KeyError.
Proof. unfold dict_get; destruct (find _ m); congruence. Qed.

Lemma row_int_raises row col e : row_int row col = Raise e -> e = KeyError.
Proof.
  unfold row_int; destruct row;
    repeat match goal with
      | |- context [if ?b then _ else _] => destruct b
      end; congruence.
Qed.

Lemma row_float_raises row col e : row_float row col = Raise e -> e = KeyError.
Proof.
  unfold row_float; destruct row;
    repeat match goal with
      | |- context [if ?b then _ else _] => destruct b
      end; congruence.
Qed.

Lemma row_str_raises row col e : row_str row col = Raise e -> e = KeyError.
Proof.
  unfold row_str; destruct row;
    repeat match goal with
      | |- context [if ?b then _ else _] => destruct b
      end; congruence.
Qed.

Lemma rbind_raises A B (r : result A) (k : A -> result B) e :
  rbind r k = Raise e -> r = Raise e \/ exists a, r = Ok a /\ k a = Raise e.
Proof.
  destruct r as [a|e']; simpl; intros H; [right; eauto | left; congruence].
Qed.

Ltac key_error :=
  repeat match goal with
    | H : rbind _ _ = Raise _ |- _ =>
        apply rbind_raises in H; destruct H as [H | (? & _ & H)]
    | H : row_int _ _ = Raise _ |- _ => apply row_int_raises in H
    | H : row_float _ _ = Raise _ |- _ => apply row_float_raises in H
    | H : row_str _ _ = Raise _ |- _ => apply row_str_raises in H
    | H : dict_get _ _ = Raise _ |- _ => apply dict_get_raises in H
    | H : Ok _ = Raise _ |- _ => discriminate H
    end; subst; try discriminate.

Lemma user_fact_of_raises m row e : user_fact_of m row = Raise e -> e <> OSError.
Proof. unfold user_fact_of; intros H; key_error. Qed.

Lemma content_fact_of_raises m row e :
  content_fact_of m row = Raise e -> e <> OSError.
Proof. unfold content_fact_of; intros H; key_error. Qed.

Lemma site_fact_of_raises m row e : site_fact_of m row = Raise e -> e <> OSError.
Proof. unfold site_fact_of; intros H; key_error. Qed.

Lemma collect_dates_raises dfs : forall acc e,
  collect_dates dfs acc = Raise e -> e = KeyError.
Proof.
  induction dfs as [|df rest IH]; simpl; intros acc e H; [discriminate|].
  destruct df as [|row df]; simpl in H; [congruence|]. eapply IH; eassumption.
Qed.

Lemma get_or_create_date_id_raises env d w e w' :
  get_or_create_date_id env d w = (Raise e, w') -> e <> OSError.
Proof.
  cbv beta delta [get_or_create_date_id connect try_except bind query execute
    commit get_store put_store lift log emit raise ret external]; simpl.
  destruct (fault env (clock w)); simpl; [intros [= <- _]; discriminate|].
  destruct (fault env (S (clock w))); simpl; [intros [= <- _]; discriminate|].
  destruct (select_date_id d (store w)) as [[i|]|e0] eqn:Esel; simpl.
  - discriminate.
  - destruct (fault env (S (S (clock w)))); simpl;
      [intros [= <- _]; discriminate|].
    destruct (insert_date d (store w)) as [[i db']|e0] eqn:Eins; simpl.
    + destruct (fault env (S (S (S (clock w))))); simpl;
        [intros [= <- _]; discriminate | discriminate].
    + intros [= <- _]. eapply insert_date_raises; eassumption.
  - intros [= <- _]. eapply select_date_id_raises; eassumption.
Qed.

Lemma resolve_dates_raises env l : forall m w e w',
  resolve_dates env l m w = (Raise e, w') -> e <> OSError.
Proof.
  induction l as [|d rest IH]; simpl; intros m w e w' H; [discriminate|].
  apply bind_inv in H. destruct H as [(i & w1 & _ & H) | (e' & Hg & [= ->])].
  - eapply IH; eassumption.
  - eapply get_or_create_date_id_raises; eassumption.
Qed.

Lemma insert_rows_raises env F (fact_of : entry -> result F)
      (insert : F -> DB -> result DB) :
  (forall row e, fact_of row = Raise e -> e <> OSError) ->
  (forall f db e, insert f db = Raise e -> e <> OSError) ->
  forall df txn w e w',
    insert_rows env fact_of insert df txn w = (Raise e, w') -> e <> OSError.
Proof.
  intros Hfact Hins.
  induction df as [|row rest IH]; simpl; intros txn w e w' H; [discriminate|].
  apply bind_inv in H. destruct H as [(f & w1 & Hf & H) | (e' & Hf & [= ->])].
  - apply bind_inv in H. destruct H as [(t & w2 & Hx & H) | (e' & Hx & [= ->])].
    + eapply IH; eassumption.
    + unfold execute in Hx. apply bind_inv in Hx.
      destruct Hx as [(u & w3 & _ & Hx) | (e2 & He & [= ->])].
      * apply lift_inv in Hx. destruct Hx as (Hx & _).
        eapply Hins; symmetry; eassumption.
      * apply external_inv in He. destruct He as (_ & _ & _ & He).
        destruct (fault env (clock w1)); [|discriminate].
        injection He as ->; discriminate.
  - apply lift_inv in Hf. destruct Hf as (Hf & _).
    eapply Hfact; symmetry; eassumption.
Qed.

Lemma external_raises env e0 w e w' :
  external env e0 w = (Raise e, w') -> e = e0.
Proof.
  unfold external. destruct (fault env (clock w)); intros H; inversion H; auto.
Qed.

Lemma try_reraise_inv A (m : M A) msg w r w' :
  try_except m (fun e => bind (log ERROR msg) (fun _ => raise e)) w = (r, w') ->
  exists w1, m w = (r, w1) /\ store w' = store w1.
Proof.
  unfold try_except. destruct (m w) as [[a|e] w1]; intros H.
  - inversion H; subst; eauto.
  - cbv in H. inversion H; subst. eexists; split; eauto.
Qed.

(** [save_data], outcome by outcome: either the fact tables are as they
    were and the call has raised, or the transaction has been committed and
    the call has returned or the export has failed. *)
Lemma save_data_spec env data w r w' :
  save_data env data w = (r, w') ->
  (same_facts (store w) (store w') /\ grows (store w) (store w')
   /\ (unique_dates (store w) -> unique_dates (store w'))
   /\ exists e, r = Raise e /\ e <> OSError)
  \/ (exists date_map, committed date_map data (store w) (store w')
                       /\ (r = Ok tt \/ r = Raise OSError)).
Proof.
  unfold save_data. intros H.
  apply bind_inv in H. destruct H as [(u0 & w0 & He & H) | (e & He & ->)];
    [|apply emit_inv in He; destruct He as ([=] & _)].
  apply emit_inv in He. destruct He as (_ & S0 & _).
  apply bind_inv in H. destruct H as [(u1 & w1 & Hc & H) | (e & Hc & ->)].
  2:{ pose proof (external_raises _ _ _ _ _ Hc) as ->.
      apply external_inv in Hc. destruct Hc as (S1 & _).
      left. rewrite S1, S0.
      repeat split; auto using grows_refl.
      eexists; split; [reflexivity | discriminate]. }
  apply external_inv in Hc. destruct Hc as (S1 & _).
  assert (Sw : store w1 = store w) by congruence. clear S0 S1.
  apply try_reraise_inv in H. destruct H as (w2 & H & S2). rewrite S2, <- Sw.
  clear S2 Sw w w0 u0 u1 w'.
  apply bind_inv in H. destruct H as [(all_dates & wa & Hl & H) | (e & Hl & ->)].
  2:{ apply lift_inv in Hl. destruct Hl as (Hl & ->).
      symmetry in Hl. apply collect_dates_raises in Hl. subst e.
      left. repeat split; auto using grows_refl.
      eexists; split; [reflexivity | discriminate]. }
  apply lift_inv in Hl. destruct Hl as (_ & ->).
  apply bind_inv in H. destruct H as [(date_map & wb & Hr & H) | (e & Hr & ->)].
  2:{ pose proof (resolve_dates_raises _ _ _ _ _ _ Hr) as K.
      apply resolve_dates_spec in Hr. destruct Hr as (G & F & U & _).
      left. repeat split; auto; try apply F; eauto. }
  apply resolve_dates_spec in Hr. destruct Hr as (G & F & U & V).
  specialize (V date_map eq_refl (fun k v (Hin : In (k, v) []) => match Hin with end)).
  apply bind_inv in H. destruct H as [(t0 & wc & Hg & H) | (e & Hg & ->)];
    [|discriminate].
  unfold get_store in Hg. inversion Hg; subst t0 wc; clear Hg.
  apply bind_inv in H. destruct H as [(t1 & wd & Hi & H) | (e & Hi & ->)].
  2:{ pose proof (insert_rows_raises _ _ _ _ (user_fact_of_raises date_map)
                    insert_user_fact_raises _ _ _ _ _ Hi) as K.
      apply insert_rows_spec in Hi. destruct Hi as (S & _). rewrite S.
      left. repeat split; auto; try apply F; eauto. }
  apply insert_rows_spec in Hi. destruct Hi as (Sd & _ & Hu).
  destruct (Hu t1 eq_refl) as (ufs & FU & IU). clear Hu.
  apply bind_inv in H. destruct H as [(t2 & we & Hi & H) | (e & Hi & ->)].
  2:{ pose proof (insert_rows_raises _ _ _ _ (content_fact_of_raises date_map)
                    insert_content_fact_raises _ _ _ _ _ Hi) as K.
      apply insert_rows_spec in Hi. destruct Hi as (S & _). rewrite S, Sd.
      left. repeat split; auto; try apply F; eauto. }
  apply insert_rows_spec in Hi. destruct Hi as (Se & _ & Hc).
  destruct (Hc t2 eq_refl) as (cfs & FC & IC). clear Hc.
  apply bind_inv in H. destruct H as [(t3 & wf & Hi & H) | (e & Hi & ->)].
  2:{ pose proof (insert_rows_raises _ _ _ _ (site_fact_of_raises date_map)
                    insert_site_fact_raises _ _ _ _ _ Hi) as K.
      apply insert_rows_spec in Hi. destruct Hi as (S & _). rewrite S, Se, Sd.
      left. repeat split; auto; try apply F; eauto. }
  apply insert_rows_spec in Hi. destruct Hi as (Sf & _ & Hs).
  destruct (Hs t3 eq_refl) as (sfs & FS & IS). clear Hs.
  apply bind_inv in H. destruct H as [(u & wg & Hc & H) | (e & Hc & ->)].
  2:{ unfold commit in Hc. apply bind_inv in Hc.
      destruct Hc as [(u & wh & He & Hp) | (e' & He & [= ->])].
      - unfold put_store in Hp. inversion Hp.
      - pose proof (external_raises _ _ _ _ _ He) as ->.
        apply external_inv in He. destruct He as (S & _). rewrite S, Sf, Se, Sd.
        left. repeat split; auto; try apply F.
        eexists; split; [reflexivity | discriminate]. }
  unfold commit in Hc. apply bind_ok_inv in Hc. destruct Hc as (u' & wh & He & Hp).
  unfold put_store in Hp. inversion Hp; subst wg; clear Hp.
  apply bind_inv in H. destruct H as [(u2 & wi & Hl & H) | (e & Hl & ->)];
    [|apply emit_inv in Hl; destruct Hl as ([=] & _)].
  apply emit_inv in Hl. destruct Hl as (_ & Sl & _). simpl in Sl.
  apply export_all_spec in H. destruct H as (Sx & Hr).
  right. exists date_map. split; [|exact Hr].
  rewrite Sx, Sl.
  exact (Committed date_map data (store w1) t3 (store wb) t1 t2 ufs cfs sfs
           G F U V FU FC FS IU IC IS).
Qed.

(** *** Referential integrity *)

Lemma date_id_of_known d db i : date_id_of d db = Some i -> known db i.
Proof.
  unfold date_id_of, known.
  destruct (find _ (dimension db)) as [row|] eqn:E; [|discriminate].
  intros [= <-]. apply find_some in E. apply in_map, E.
Qed.

Lemma known_grows db db' i : grows db db' -> known db i -> known db' i.
Proof.
  unfold known; intros (more & ->) H.
  rewrite map_app, in_app_iff; auto.
Qed.

Lemma user_fact_of_date m row f :
  user_fact_of m row = Ok f -> dict_get m (entry_date row) = Ok (uf_date_id f).
Proof.
  unfold user_fact_of, row_str; simpl. intros H.
  destruct (dict_get m (entry_date row)) as [i|]; [|discriminate].
  simpl in H. rbind_inv. reflexivity.
Qed.

Lemma content_fact_of_date m row f :
  content_fact_of m row = Ok f -> dict_get m (entry_date row) = Ok (cf_date_id f).
Proof.
  unfold content_fact_of; intros H.
  change (row_str row "date") with (Ok (A := string) (entry_date row)) in H.
  simpl in H.
  destruct (dict_get m (entry_date row)) as [i|]; [|discriminate].
  simpl in H. rbind_inv. reflexivity.
Qed.

Lemma site_fact_of_date m row f :
  site_fact_of m row = Ok f -> dict_get m (entry_date row) = Ok (sf_date_id f).
Proof.
  unfold site_fact_of; intros H.
  change (row_str row "date") with (Ok (A := string) (entry_date row)) in H.
  simpl in H.
  destruct (dict_get m (entry_date row)) as [i|]; [|discriminate].
  simpl in H. rbind_inv. reflexivity.
Qed.

Lemma Forall2_snd A B C (P : A -> B -> Prop) (l : list A) (new : list (C * B)) :
  Forall2 P l (map snd new) -> Forall2 (fun a r => P a (snd r)) l new.
Proof.
  revert l; induction new as [|r new IH]; simpl; intros l H; inversion H; subst.
  - constructor.
  - constructor; auto.
Qed.

Lemma Forall2_Forall_r A B (P : A -> B -> Prop) (Q : B -> Prop) l l' :
  Forall2 P l l' -> (forall a b, P a b -> Q b) -> Forall Q l'.
Proof. induction 1; intros HPQ; constructor; eauto. Qed.

Lemma Forall2_impl A B (P Q : A -> B -> Prop) l l' :
  Forall2 P l l' -> (forall a b, P a b -> Q a b) -> Forall2 Q l l'.
Proof. induction 1; intros HPQ; constructor; eauto. Qed.

Lemma date_id_of_same_dates d db db' :
  dates db' = dates db -> date_id_of d db' = date_id_of d db.
Proof. unfold date_id_of, dimension; now intros ->. Qed.

Lemma committed_resolved_rows date_map data before after :
  committed date_map data before after ->
  grows before after /\ resolved_rows data before after
  /\ (unique_dates before -> unique_dates after).
Proof.
  intros [resolved t1 t2 ufs cfs sfs G (Fu & Fc & Fs) U V FU FC FS IU IC IS].
  apply insert_all_users in IU. destruct IU as (D1 & C1 & S1 & us & RU & MU).
  apply insert_all_content in IC. destruct IC as (D2 & U2 & S2 & cs & RC & MC).
  apply insert_all_site in IS. destruct IS as (D3 & U3 & C3 & ss & RS & MS).
  assert (Hd : dates after = dates resolved) by congruence.
  assert (Hdim : dimension after = dimension resolved)
    by (unfold dimension; now rewrite Hd).
  split; [destruct G as (more & G); exists more; congruence|].
  split.
  - exists us, cs, ss.
    split; [rewrite U3, U2, RU, Fu; reflexivity|].
    split; [rewrite C3, RC, C1, Fc; reflexivity|].
    split; [rewrite RS, S2, S1, Fs; reflexivity|].
    subst ufs cfs sfs.
    split; [|split].
    + apply (Forall2_snd _ _ _ (fun row f => date_id_of (entry_date row) after
                                             = Some (uf_date_id f))).
      eapply Forall2_impl; [exact FU|]. intros row f Hf.
      rewrite (date_id_of_same_dates _ _ _ Hd).
      eapply dict_get_valid; [exact V|]. now apply user_fact_of_date.
    + apply (Forall2_snd _ _ _ (fun row f => date_id_of (entry_date row) after
                                             = Some (cf_date_id f))).
      eapply Forall2_impl; [exact FC|]. intros row f Hf.
      rewrite (date_id_of_same_dates _ _ _ Hd).
      eapply dict_get_valid; [exact V|]. now apply content_fact_of_date.
    + apply (Forall2_snd _ _ _ (fun row f => date_id_of (entry_date row) after
                                             = Some (sf_date_id f))).
      eapply Forall2_impl; [exact FS|]. intros row f Hf.
      rewrite (date_id_of_same_dates _ _ _ Hd).
      eapply dict_get_valid; [exact V|]. now apply site_fact_of_date.
  - unfold unique_dates. rewrite Hdim. exact U.
Qed.

Lemma referential_integrity_kept data before after :
  grows before after -> resolved_rows data before after ->
  referential_integrity before -> referential_integrity after.
Proof.
  intros G (us & cs & ss & RU & RC & RS & FU & FC & FS) (IU & IC & IS).
  unfold referential_integrity. rewrite RU, RC, RS.
  repeat split; apply Forall_app; split.
  - eapply Forall_impl; [|exact IU]. intros r; now apply known_grows.
  - eapply Forall2_Forall_r; [exact FU|]. intros row r; apply date_id_of_known.
  - eapply Forall_impl; [|exact IC]. intros r; now apply known_grows.
  - eapply Forall2_Forall_r; [exact FC|]. intros row r; apply date_id_of_known.
  - eapply Forall_impl; [|exact IS]. intros r; now apply known_grows.
  - eapply Forall2_Forall_r; [exact FS|]. intros row r; apply date_id_of_known.
Qed.

(** C2: after a successful [save_data], every row of the three fact tables
    refers to a row of the dimension, provided the rows that were there
    before did; and each row written by the call carries the identifier
    that the dimension holds for the date of its record -- the date was
    resolved, and its dimension row committed, before the fact row was
    inserted.  The rows that were there before are still there. *)
Theorem C2_referential_integrity :
  forall (env : Env) (data : Data) (w w' : World),
    save_data env data w = (Ok tt, w') ->
    (referential_integrity (store w) -> referential_integrity (store w'))
    /\ resolved_rows data (store w) (store w')
    /\ grows (store w) (store w').
Proof.
  intros env data w w' H. apply save_data_spec in H.
  destruct H as [(_ & _ & _ & e & [=] & _) | (date_map & Hc & _)].
  apply committed_resolved_rows in Hc. destruct Hc as (G & R & _).
  split; [now apply (referential_integrity_kept data)|]. split; assumption.
Qed.

(** The statement on the save of the scenario's three records into a store
    that has its schema and no rows. *)
Lemma C2_referential_integrity_witness :
  let w' := snd (save_data Samples.quiet_env Samples.scenario_data
                   Samples.initialised) in
  referential_integrity (store w')
  /\ resolved_rows Samples.scenario_data (store Samples.initialised) (store w').
Proof.
  intros w'.
  destruct (C2_referential_integrity Samples.quiet_env Samples.scenario_data
              Samples.initialised w') as (H1 & H2 & _).
  - vm_compute; reflexivity.
  - split; [apply H1; repeat split; constructor | exact H2].
Defined.

(** ** Atomicity of the save *)

(** C1 (as amended): when [save_data] raises for any reason other than a
    failed export -- that is, when a step up to and including the commit
    has failed, such as the insertion of a content row -- the three fact
    tables are exactly as before the call: nothing of the call's
    transaction is committed, and the exception is the caller's.  A failed
    export (the only source of [OSError]) comes after the commit: the
    exception reaches the caller as well, but the transaction stays
    committed. *)
Theorem C1_all_or_nothing_until_commit :
  forall (env : Env) (data : Data) (w w' : World) (e : exn),
    save_data env data w = (Raise e, w') ->
    (e <> OSError -> same_facts (store w) (store w'))
    /\ (e = OSError ->
        exists date_map, committed date_map data (store w) (store w')).
Proof.
  intros env data w w' e H. apply save_data_spec in H.
  destruct H as [(F & _ & _ & e' & [= <-] & K) | (date_map & Hc & [[=] | [= ->]])].
  - split; [auto | contradiction].
  - split; [congruence | eauto].
Qed.

(** The amended statement where the insertion of the content row fails,
    after the engagement row has been inserted. *)
Lemma C1_all_or_nothing_until_commit_witness :
  fst (save_data (Samples.failing_at 6) Samples.scenario_data Samples.initialised)
  = Raise OperationalError
  /\ same_facts (store Samples.initialised)
       (store (snd (save_data (Samples.failing_at 6) Samples.scenario_data
                      Samples.initialised))).
Proof.
  split; [vm_compute; reflexivity|].
  refine (proj1 (C1_all_or_nothing_until_commit (Samples.failing_at 6)
                   Samples.scenario_data Samples.initialised _ OperationalError _) _).
  - vm_compute; reflexivity.
  - discriminate.
Defined.

(** The first export fails: [save_data] raises, and the rows of the call
    are in the three fact tables. *)
Lemma C1_counterexample :
  let out := save_data (Samples.failing_at 9) Samples.scenario_data
               Samples.initialised in
  fst out = Raise OSError
  /\ rows_of (user_interaction (store Samples.initialised)) = []
  /\ rows_of (user_interaction (store (snd out)))
     = [(1, mkuser_fact 1 100 120 (F_dec false 55 (-2)) 5 (F_dec false 423 (-1)))]
  /\ rows_of (content_metrics (store (snd out)))
     = [(1, mkcontent_fact 1 "Home" 300 120 (F_dec false 55 (-2))
              (F_dec false 423 (-1)))]
  /\ rows_of (site_data (store (snd out))) = [(1, mksite_fact 1 "shoes" 10 200)].
Proof. vm_compute. repeat split; reflexivity. Qed.

(** ** The writer on a frame without rows *)

Lemma collect_dates_empty_frame dfs : forall acc,
  In [] dfs -> collect_dates dfs acc = Raise KeyError.
Proof.
  induction dfs as [|df rest IH]; simpl; intros acc Hin; [tauto|].
  destruct Hin as [->|Hin]; [reflexivity|].
  destruct df; simpl; [reflexivity | now apply IH].
Qed.

(** [save_data] on data with an empty frame. *)
Lemma save_data_empty_frame env data w :
  In [] (values data) ->
  exists e,
    fst (save_data env data w) = Raise e
    /\ store (snd (save_data env data w)) = store w
    /\ (fault env (clock w) = false -> e = KeyError)
    /\ (fault env (clock w) = true -> e = OperationalError).
Proof.
  intros Hin. destruct (save_data env data w) as [r w'] eqn:H; simpl.
  unfold save_data in H.
  apply bind_inv in H. destruct H as [(u0 & w0 & He & H) | (e & He & ->)];
    [|apply emit_inv in He; destruct He as ([=] & _)].
  apply emit_inv in He. destruct He as (_ & S0 & C0 & _).
  apply bind_inv in H. destruct H as [(u1 & w1 & Hc & H) | (e & Hc & ->)].
  - apply external_inv in Hc. destruct Hc as (S1 & _ & _ & Hf).
    rewrite C0 in Hf.
    apply try_reraise_inv in H. destruct H as (w2 & H & S2).
    apply bind_inv in H.
    destruct H as [(all_dates & wa & Hl & H) | (e & Hl & ->)];
      apply lift_inv in Hl; destruct Hl as (Hl & ->);
      rewrite (collect_dates_empty_frame _ [] Hin) in Hl; [discriminate|].
    injection Hl as ->. exists KeyError.
    split; [reflexivity|]. split; [congruence|].
    split; [reflexivity|].
    intros F; rewrite F in Hf; discriminate.
  - pose proof (external_raises _ _ _ _ _ Hc) as ->.
    apply external_inv in Hc. destruct Hc as (S1 & _ & _ & Hf).
    rewrite C0 in Hf.
    exists OperationalError.
    split; [reflexivity|]. split; [congruence|].
    split; [|reflexivity].
    intros F; rewrite F in Hf; discriminate.
Qed.

(** ** Runs of [main] *)

Lemma same_rows_refl db : same_rows db db.
Proof. repeat split. Qed.

Lemma same_rows_eq db db' db'' :
  same_rows db db' -> db'' = db' -> same_rows db db''.
Proof. now intros H ->. Qed.

Lemma rows_of_create R (o : option (table R)) :
  rows_of (create_if_not_exists o) = rows_of o.
Proof. destruct o; reflexivity. Qed.

Lemma prologue_spec env w r w' :
  prologue env w = (r, w') ->
  same_rows (store w) (store w')
  /\ attempts (trace w') = attempts (trace w)
  /\ saves (trace w') = saves (trace w)
  /\ (r = Ok tt -> dates (store w') <> None).
Proof.
  cbv beta delta [prologue init_db autocommit connect bind get_store put_store
    log emit ret external]; simpl.
  repeat match goal with
    | |- context [if fault env ?c then _ else _] =>
        destruct (fault env c); simpl
    end;
    intros H; inversion H; subst; simpl;
    unfold same_rows, dimension, create_dates, create_user_interaction,
      create_content_metrics, create_site_data; simpl;
    rewrite ?rows_of_create; repeat split; try discriminate.
  destruct (dates (store w)); discriminate.
Qed.

Lemma get_last_date_frame env w r w' :
  get_last_date env w = (r, w') ->
  store w' = store w
  /\ attempts (trace w') = attempts (trace w)
  /\ saves (trace w') = saves (trace w).
Proof.
  cbv beta delta [get_last_date connect try_except bind query get_store lift
    log emit raise ret external]; simpl.
  repeat match goal with
    | |- context [if fault env ?c then _ else _] =>
        destruct (fault env c); simpl
    | |- context [select_max_date ?d] =>
        destruct (select_max_date d) as [[?|]|?]; simpl
    | |- context [if String.eqb ?a ?b then _ else _] =>
        destruct (String.eqb a b); simpl
    | |- context [strptime ?a ?b] =>
        destruct (strptime a b) as [?|[]]; simpl
    end;
    intros H; inversion H; subst; simpl; auto.
Qed.

(** One attempt: the database is not touched and the trace gets the
    attempt, and the error line when the attempt fails inside the [try]. *)
Lemma fetch_ga4_data_once_spec env s e w r w' :
  fetch_ga4_data_once env s e w = (r, w') ->
  store w' = store w
  /\ (trace w' = FetchAttempt s e :: trace w
      \/ trace w' = Log ERROR "GA4 data fetch failed" :: FetchAttempt s e :: trace w).
Proof.
  cbv beta delta [fetch_ga4_data_once run_report try_except bind lift now
    log emit raise ret external]; simpl.
  repeat match goal with
    | |- context [if fault env ?c then _ else _] =>
        destruct (fault env c); simpl
    | |- context [process_response ?a ?b] =>
        destruct (process_response a b); simpl
    end;
    intros H; inversion H; subst; simpl; auto.
Qed.

Lemma retry_loop_spec env s e more : forall w r w',
  retry_loop more (fetch_ga4_data_once env s e) w = (r, w') ->
  store w' = store w
  /\ saves (trace w') = saves (trace w)
  /\ (attempts (trace w) < attempts (trace w') <= attempts (trace w) + S more)%nat
  /\ In (FetchAttempt s e) (trace w')
  /\ (forall x, r = Raise x ->
        x = RetryError
        /\ attempts (trace w') = (attempts (trace w) + S more)%nat).
Proof.
  induction more as [|k IH]; simpl; intros w r w' H.
  - destruct (fetch_ga4_data_once env s e w) as [[d|x] w1] eqn:E;
      inversion H; subst; clear H;
      apply fetch_ga4_data_once_spec in E; destruct E as (S1 & [T|T]);
      rewrite T; unfold attempts, saves; simpl;
      (split; [exact S1|]); (split; [reflexivity|]); (split; [lia|]);
      (split; [auto|]); intros x' Hx; inversion Hx; subst; split; auto; lia.
  - destruct (fetch_ga4_data_once env s e w) as [[d|x] w1] eqn:E.
    + inversion H; subst; clear H.
      apply fetch_ga4_data_once_spec in E; destruct E as (S1 & [T|T]);
        rewrite T; unfold attempts, saves; simpl;
        (split; [exact S1|]); (split; [reflexivity|]); (split; [lia|]);
        (split; [auto|]); discriminate.
    + apply IH in H. destruct H as (S2 & V2 & A2 & I2 & R2).
      apply fetch_ga4_data_once_spec in E. destruct E as (S1 & T).
      assert (A1 : attempts (trace w1) = S (attempts (trace w))
                   /\ saves (trace w1) = saves (trace w))
        by (destruct T as [T|T]; rewrite T; unfold attempts, saves; simpl; auto).
      destruct A1 as (A1 & V1).
      split; [congruence|]. split; [congruence|].
      split; [lia|]. split; [exact I2|].
      intros x' Hr. destruct (R2 x' Hr) as (-> & A3). split; [reflexivity | lia].
Qed.

Lemma main_window env w0 w1 last w2 start :
  prologue env w0 = (Ok tt, w1) ->
  get_last_date env w1 = (Ok last, w2) ->
  window_start env last = Ok start ->
  main env w0
  = if gt start (today env)
    then (0, snd (log INFO "No new data to fetch" w2))
    else finish env (fetch_ga4_data env (strftime_iso start)
                       (strftime_iso (today env))
                       (snd (log INFO "Fetching data" w2))).
Proof.
  intros H1 H2 H3. unfold main.
  change (bind (log INFO "Starting GA4 relational data pipeline")
               (fun _ => init_db env) w0) with (prologue env w0).
  rewrite H1. unfold run. unfold bind at 1. rewrite H2.
  change (match last with
          | Some d => add_days d 1
          | None => add_days (today env) (-30)
          end) with (window_start env last).
  rewrite H3. unfold bind at 1, lift at 1.
  destruct (gt start (today env)); [reflexivity|].
  unfold finish, bind, log, emit; simpl.
  destruct (fetch_ga4_data env _ _ _) as [[data|x] w3]; [|reflexivity].
  destruct (negb _); [reflexivity|].
  destruct (save_data env data w3) as [[u|x] w4]; reflexivity.
Qed.

Lemma main_reaches_fetch env w0 start wf :
  reaches_fetch env w0 start wf ->
  main env w0
  = finish env (fetch_ga4_data env (strftime_iso start)
                  (strftime_iso (today env)) wf).
Proof.
  intros (w1 & last & w2 & H1 & H2 & H3 & H4 & ->).
  rewrite (main_window _ _ _ _ _ _ H1 H2 H3), H4. reflexivity.
Qed.

Lemma reaches_fetch_frame env w0 start wf :
  reaches_fetch env w0 start wf ->
  same_rows (store w0) (store wf)
  /\ attempts (trace wf) = attempts (trace w0)
  /\ saves (trace wf) = saves (trace w0).
Proof.
  intros (w1 & last & w2 & H1 & H2 & _ & _ & ->).
  apply prologue_spec in H1. destruct H1 as (R1 & A1 & V1 & _).
  apply get_last_date_frame in H2. destruct H2 as (S2 & A2 & V2).
  simpl. rewrite S2. split; [exact R1|].
  unfold attempts, saves in *; simpl. split; congruence.
Qed.

(** ** Day arithmetic

    [fromordinal] is a right inverse of [toordinal]: adding days to a date
    moves its ordinal by that many days.  The calendar repeats every 400
    years (146097 days); one period is checked by computation and carried
    over to every other. *)

Lemma check_range_sound fuel : forall lo len p,
  check_range fuel lo len p = true ->
  forall i, lo <= i < lo + len -> p i = true.
Proof.
  induction fuel as [|f IH]; simpl; intros lo len p H i Hi.
  - apply Z.leb_le in H. lia.
  - destruct (Z.leb_spec len 0); [lia|].
    destruct (Z.eqb_spec len 1).
    + replace i with lo by lia. exact H.
    + apply andb_true_iff in H. destruct H as (H1 & H2).
      assert (0 <= len / 2 < len) by (split; [apply Z.div_pos | apply Z.div_lt]; lia).
      destruct (Z_lt_le_dec i (lo + len / 2)).
      * apply (IH _ _ _ H1); lia.
      * apply (IH _ _ _ H2); lia.
Qed.

Lemma first_cycle_checked : check_range 20 0 DI400Y cycle_day_ok = true.
Proof. vm_compute. reflexivity. Qed.

Lemma first_cycle r :
  0 <= r < DI400Y ->
  let d := ord2ymd (r + 1) in
  ymd2ord (year d) (month d) (day d) = r + 1
  /\ valid_fields (year d) (month d) (day d) = true.
Proof.
  intros Hr.
  pose proof (check_range_sound _ _ _ _ first_cycle_checked r) as H.
  unfold cycle_day_ok in H. cbv zeta in *.
  specialize (H ltac:(lia)). apply andb_true_iff in H.
  destruct H as (H1 & H2). apply Z.eqb_eq in H1. auto.
Qed.

Lemma days_before_year_shift y q :
  days_before_year (y + 400 * q) = days_before_year y + DI400Y * q.
Proof.
  unfold days_before_year, DI400Y; cbv zeta.
  replace (y + 400 * q - 1) with (y - 1 + 400 * q) by lia.
  replace ((y - 1 + 400 * q) / 4) with ((y - 1) / 4 + 100 * q)
    by (replace (400 * q) with (100 * q * 4) by lia; now rewrite Z.div_add).
  replace ((y - 1 + 400 * q) / 100) with ((y - 1) / 100 + 4 * q)
    by (replace (400 * q) with (4 * q * 100) by lia; now rewrite Z.div_add).
  replace ((y - 1 + 400 * q) / 400) with ((y - 1) / 400 + q)
    by (replace (400 * q) with (q * 400) by lia; now rewrite Z.div_add).
  lia.
Qed.

Lemma is_leap_shift y q : is_leap (y + 400 * q) = is_leap y.
Proof.
  unfold is_leap.
  replace ((y + 400 * q) mod 4) with (y mod 4)
    by (replace (400 * q) with (100 * q * 4) by lia; now rewrite Z.mod_add).
  replace ((y + 400 * q) mod 100) with (y mod 100)
    by (replace (400 * q) with (4 * q * 100) by lia; now rewrite Z.mod_add).
  replace ((y + 400 * q) mod 400) with (y mod 400)
    by (replace (400 * q) with (q * 400) by lia; now rewrite Z.mod_add).
  reflexivity.
Qed.

Lemma ymd2ord_shift y m d q :
  ymd2ord (y + 400 * q) m d = ymd2ord y m d + DI400Y * q.
Proof.
  unfold ymd2ord, days_before_month.
  rewrite days_before_year_shift, is_leap_shift. lia.
Qed.

Lemma ord2ymd_shift n :
  let d := ord2ymd ((n - 1) mod DI400Y + 1) in
  ord2ymd n = mkdate (year d + 400 * ((n - 1) / DI400Y)) (month d) (day d).
Proof.
  cbv zeta.
  assert (Hr : 0 <= (n - 1) mod DI400Y < DI400Y)
    by (apply Z.mod_pos_bound; reflexivity).
  unfold ord2ymd; cbv zeta.
  set (r := (n - 1) mod DI400Y) in *. set (q := (n - 1) / DI400Y).
  replace (r + 1 - 1) with r by lia.
  rewrite (Z.div_small r DI400Y), (Z.mod_small r DI400Y) by exact Hr.
  repeat match goal with
    | |- context [if ?c then _ else _] => destruct c
    end; cbn [year month day]; f_equal; lia.
Qed.

(** The ordinal of the date of an ordinal. *)
Lemma toordinal_fromordinal n : toordinal (fromordinal n) = n.
Proof.
  unfold toordinal, fromordinal. rewrite (ord2ymd_shift n); cbn [year month day].
  assert (Hr : 0 <= (n - 1) mod DI400Y < DI400Y)
    by (apply Z.mod_pos_bound; reflexivity).
  rewrite ymd2ord_shift.
  destruct (first_cycle _ Hr) as (H & _). cbv zeta in H. rewrite H.
  pose proof (Z.div_mod (n - 1) DI400Y ltac:(discriminate)). lia.
Qed.

Lemma add_days_ordinal d k s :
  add_days d k = Ok s -> toordinal s = toordinal d + k.
Proof.
  unfold add_days. destruct (_ && _); [|discriminate].
  intros [= <-]. apply toordinal_fromordinal.
Qed.

Lemma fetch_ga4_data_spec env s e w r w' :
  fetch_ga4_data env s e w = (r, w') ->
  store w' = store w
  /\ saves (trace w') = saves (trace w)
  /\ (attempts (trace w) < attempts (trace w') <= attempts (trace w) + 3)%nat
  /\ In (FetchAttempt s e) (trace w')
  /\ (forall x, r = Raise x ->
        x = RetryError /\ attempts (trace w') = (attempts (trace w) + 3)%nat).
Proof. exact (retry_loop_spec env s e 2 w r w'). Qed.

(** ** The fetch window *)

(** C4: with the schema in place and the watermark read, the window starts
    the day after the last ingested date when there is one, and thirty days
    before the current date when there is none.  When that start is after
    the current date the run ends with status 0 and has made no fetch
    attempt, no call of the writer and no change to the rows of any table;
    otherwise the fetch is called for the window from the start to the
    current date, both included in the request as written. *)
Theorem C4_fetch_window :
  forall (env : Env) (w0 w1 w2 : World) (last : option date) (start : date),
    prologue env w0 = (Ok tt, w1) ->
    get_last_date env w1 = (Ok last, w2) ->
    window_start env last = Ok start ->
    (forall D, last = Some D ->
               add_days D 1 = Ok start /\ toordinal start = toordinal D + 1)
    /\ (last = None ->
        add_days (today env) (-30) = Ok start
        /\ toordinal start = toordinal (today env) - 30)
    /\ (gt start (today env) = true ->
        fst (main env w0) = 0
        /\ same_rows (store w0) (store (snd (main env w0)))
        /\ attempts (trace (snd (main env w0))) = attempts (trace w0)
        /\ saves (trace (snd (main env w0))) = saves (trace w0))
    /\ (gt start (today env) = false ->
        let wf := snd (log INFO "Fetching data" w2) in
        let out := fetch_ga4_data env (strftime_iso start)
                     (strftime_iso (today env)) wf in
        main env w0 = finish env out
        /\ In (FetchAttempt (strftime_iso start) (strftime_iso (today env)))
              (trace (snd out))
        /\ attempts (trace wf) = attempts (trace w0)).
Proof.
  intros env w0 w1 w2 last start H1 H2 H3.
  split.
  { intros D ->. simpl in H3. split; [exact H3|].
    now apply add_days_ordinal in H3. }
  split.
  { intros ->. simpl in H3. split; [exact H3|].
    apply add_days_ordinal in H3. lia. }
  pose proof (main_window _ _ _ _ _ _ H1 H2 H3) as Hm.
  pose proof (prologue_spec _ _ _ _ H1) as (R1 & A1 & V1 & _).
  pose proof (get_last_date_frame _ _ _ _ H2) as (S2 & A2 & V2).
  split.
  - intros Hgt. rewrite Hm, Hgt; simpl.
    rewrite S2. split; [reflexivity|]. split; [exact R1|].
    unfold attempts, saves in *; simpl. split; congruence.
  - intros Hgt. cbv zeta. rewrite Hm, Hgt.
    split; [reflexivity|]. split.
    + destruct (fetch_ga4_data env _ _ _) as [r w3] eqn:E.
      apply fetch_ga4_data_spec in E. simpl. apply E.
    + unfold attempts in *; simpl. congruence.
Qed.

(** The statement on three runs on 2024-01-31: the dimension ends at
    2024-01-30 (the window is the single day 2024-01-31), the dimension
    ends at 2024-01-31 (nothing to fetch), and the store is new (the window
    starts on 2024-01-01). *)
Lemma C4_fetch_window_witness :
  In (FetchAttempt "2024-01-31" "2024-01-31")
     (trace (snd (fetch_ga4_data Samples.quiet_env "2024-01-31" "2024-01-31"
                    (snd (log INFO "Fetching data"
                            (snd (get_last_date Samples.quiet_env
                                    (snd (prologue Samples.quiet_env
                                            (Samples.with_dates ["2024-01-30"]))))))))))
  /\ fst (main Samples.quiet_env (Samples.with_dates ["2024-01-31"])) = 0
  /\ toordinal (mkdate 2024 1 1) = toordinal (today Samples.quiet_env) - 30.
Proof.
  split; [|split].
  - set (w0 := Samples.with_dates ["2024-01-30"]).
    set (w1 := snd (prologue Samples.quiet_env w0)).
    set (w2 := snd (get_last_date Samples.quiet_env w1)).
    assert (H1 : prologue Samples.quiet_env w0 = (Ok tt, w1))
      by (vm_compute; reflexivity).
    assert (H2 : get_last_date Samples.quiet_env w1
                 = (Ok (Some (mkdate 2024 1 30)), w2))
      by (vm_compute; reflexivity).
    assert (H3 : window_start Samples.quiet_env (Some (mkdate 2024 1 30))
                 = Ok (mkdate 2024 1 31))
      by (vm_compute; reflexivity).
    destruct (C4_fetch_window _ _ _ _ _ _ H1 H2 H3) as (_ & _ & _ & H).
    apply H. reflexivity.
  - set (w0 := Samples.with_dates ["2024-01-31"]).
    set (w1 := snd (prologue Samples.quiet_env w0)).
    set (w2 := snd (get_last_date Samples.quiet_env w1)).
    assert (H1 : prologue Samples.quiet_env w0 = (Ok tt, w1))
      by (vm_compute; reflexivity).
    assert (H2 : get_last_date Samples.quiet_env w1
                 = (Ok (Some (mkdate 2024 1 31)), w2))
      by (vm_compute; reflexivity).
    assert (H3 : window_start Samples.quiet_env (Some (mkdate 2024 1 31))
                 = Ok (mkdate 2024 2 1))
      by (vm_compute; reflexivity).
    destruct (C4_fetch_window _ _ _ _ _ _ H1 H2 H3) as (_ & _ & H & _).
    apply H. reflexivity.
  - set (w1 := snd (prologue Samples.quiet_env Samples.fresh)).
    set (w2 := snd (get_last_date Samples.quiet_env w1)).
    assert (H1 : prologue Samples.quiet_env Samples.fresh = (Ok tt, w1))
      by (vm_compute; reflexivity).
    assert (H2 : get_last_date Samples.quiet_env w1 = (Ok None, w2))
      by (vm_compute; reflexivity).
    assert (H3 : window_start Samples.quiet_env None = Ok (mkdate 2024 1 1))
      by (vm_compute; reflexivity).
    destruct (C4_fetch_window _ _ _ _ _ _ H1 H2 H3) as (_ & H & _).
    apply H. reflexivity.
Defined.

(** ** Retry exhaustion *)

(** C7: a call of the fetch makes at least one and at most three attempts.
    It raises exactly when three attempts in a row have failed, and then
    with tenacity's error, having touched neither the database nor the
    writer.  In a run of [main] that comes to the fetch, such a failure
    ends the process with status 1, without any call of [save_data] and
    without any change to the rows of any table. *)
Theorem C7_retry_exhaustion :
  forall (env : Env) (s e : string) (w : World),
    (attempts (trace w) < attempts (trace (snd (fetch_ga4_data env s e w)))
     <= attempts (trace w) + 3)%nat
    /\ (forall x w', fetch_ga4_data env s e w = (Raise x, w') ->
          x = RetryError
          /\ attempts (trace w') = (attempts (trace w) + 3)%nat
          /\ store w' = store w
          /\ saves (trace w') = saves (trace w)
          /\ exists e1 w1 e2 w2 e3,
               fetch_ga4_data_once env s e w = (Raise e1, w1)
               /\ fetch_ga4_data_once env s e w1 = (Raise e2, w2)
               /\ fetch_ga4_data_once env s e w2 = (Raise e3, w'))
    /\ (forall e1 w1 e2 w2 e3 w3,
          fetch_ga4_data_once env s e w = (Raise e1, w1) ->
          fetch_ga4_data_once env s e w1 = (Raise e2, w2) ->
          fetch_ga4_data_once env s e w2 = (Raise e3, w3) ->
          fetch_ga4_data env s e w = (Raise RetryError, w3))
    /\ (forall w0 start x w',
          reaches_fetch env w0 start w ->
          s = strftime_iso start -> e = strftime_iso (today env) ->
          fetch_ga4_data env s e w = (Raise x, w') ->
          fst (main env w0) = 1
          /\ saves (trace (snd (main env w0))) = saves (trace w0)
          /\ same_rows (store w0) (store (snd (main env w0)))).
Proof.
  intros env s e w.
  split.
  { destruct (fetch_ga4_data env s e w) as [r w'] eqn:E.
    apply fetch_ga4_data_spec in E. simpl. apply E. }
  split.
  { intros x w' H.
    pose proof (fetch_ga4_data_spec _ _ _ _ _ _ H) as (S & V & _ & _ & R).
    destruct (R x eq_refl) as (-> & A).
    repeat (split; [assumption || reflexivity|]).
    unfold fetch_ga4_data, retry in H; simpl in H.
    destruct (fetch_ga4_data_once env s e w) as [[d|e1] w1]; [discriminate|].
    destruct (fetch_ga4_data_once env s e w1) as [[d|e2] w2] eqn:E2;
      [discriminate|].
    destruct (fetch_ga4_data_once env s e w2) as [[d|e3] w3] eqn:E3;
      [discriminate|].
    inversion H; subst. exists e1, w1, e2, w2, e3. auto. }
  split.
  { intros e1 w1 e2 w2 e3 w3 H1 H2 H3.
    unfold fetch_ga4_data, retry; simpl. now rewrite H1, H2, H3. }
  intros w0 start x w' Hreach -> -> H.
  rewrite (main_reaches_fetch _ _ _ _ Hreach), H; simpl.
  apply reaches_fetch_frame in Hreach. destruct Hreach as (R & _ & V).
  apply fetch_ga4_data_spec in H. destruct H as (S' & V' & _).
  rewrite S'. split; [reflexivity|]. split; [|exact R].
  unfold saves in *; simpl. congruence.
Qed.

(** The statement on a run in a new store where the API is down from the
    first attempt on. *)
Lemma C7_retry_exhaustion_witness :
  fst (main (Samples.failing_from 8) Samples.fresh) = 1
  /\ saves (trace (snd (main (Samples.failing_from 8) Samples.fresh)))
     = saves (trace Samples.fresh)
  /\ same_rows (store Samples.fresh)
       (store (snd (main (Samples.failing_from 8) Samples.fresh))).
Proof.
  set (env := Samples.failing_from 8).
  set (w1 := snd (prologue env Samples.fresh)).
  set (w2 := snd (get_last_date env w1)).
  set (wf := snd (log INFO "Fetching data" w2)).
  refine (proj2 (proj2 (proj2 (C7_retry_exhaustion env "2024-01-01" "2024-01-31" wf)))
            Samples.fresh (mkdate 2024 1 1) RetryError
            (snd (fetch_ga4_data env "2024-01-01" "2024-01-31" wf)) _ _ _ _).
  - exists w1, None, w2. repeat split; vm_compute; reflexivity.
  - vm_compute; reflexivity.
  - vm_compute; reflexivity.
  - vm_compute; reflexivity.
Defined.

(** ** A category without rows *)

(** C10: when one of the three frames handed to [save_data] has no row and
    another has some, [save_data] raises without writing anything -- the
    key error of the missing date column, as soon as its connection is
    open, before any date is resolved or any fact inserted -- and a run of
    [main] in which the fetch has returned such data ends with status 1,
    the rows of every table being what they were. *)
Theorem C10_empty_category_aborts_save :
  forall (env : Env) (data : Data) (w : World),
    In [] (values data) ->
    existsb (fun df => negb (df_empty df)) (values data) = true ->
    (exists e,
        fst (save_data env data w) = Raise e
        /\ store (snd (save_data env data w)) = store w
        /\ (fault env (clock w) = false -> e = KeyError))
    /\ (forall w0 start wf,
          reaches_fetch env w0 start wf ->
          fetch_ga4_data env (strftime_iso start) (strftime_iso (today env)) wf
          = (Ok data, w) ->
          fst (main env w0) = 1
          /\ same_rows (store w0) (store (snd (main env w0)))).
Proof.
  intros env data w Hin Hsome.
  destruct (save_data_empty_frame env data w Hin) as (e & Hr & Hs & Hk & _).
  split; [exists e; auto|].
  intros w0 start wf Hreach Hfetch.
  rewrite (main_reaches_fetch _ _ _ _ Hreach), Hfetch. unfold finish.
  rewrite Hsome; simpl.
  destruct (save_data env data w) as [r w4]; simpl in *. subst r; simpl.
  apply reaches_fetch_frame in Hreach. destruct Hreach as (R & _).
  apply fetch_ga4_data_spec in Hfetch. destruct Hfetch as (S' & _).
  split; [reflexivity|]. rewrite Hs, S'. exact R.
Qed.

(** The statement on a run in a new store where the API has engagement and
    content rows but no site-search row. *)
Lemma C10_empty_category_aborts_save_witness :
  fst (main Samples.no_site_env Samples.fresh) = 1
  /\ same_rows (store Samples.fresh)
       (store (snd (main Samples.no_site_env Samples.fresh))).
Proof.
  set (env := Samples.no_site_env).
  set (w1 := snd (prologue env Samples.fresh)).
  set (w2 := snd (get_last_date env w1)).
  set (wf := snd (log INFO "Fetching data" w2)).
  set (out := fetch_ga4_data env "2024-01-01" "2024-01-31" wf).
  refine (proj2 (C10_empty_category_aborts_save env
                   (mkData (data_users Samples.scenario_data)
                           (data_content Samples.scenario_data) [])
                   (snd out) _ _)
            Samples.fresh (mkdate 2024 1 1) wf _ _).
  - simpl; auto.
  - reflexivity.
  - exists w1, None, w2. repeat split; vm_compute; reflexivity.
  - vm_compute; reflexivity.
Defined.

(** ** Invariants of whole runs *)

Lemma same_rows_grows db db' : same_rows db db' -> grows db db'.
Proof. intros (H & _). exists []. now rewrite app_nil_r. Qed.

Lemma same_rows_unique db db' :
  same_rows db db' -> unique_dates db -> unique_dates db'.
Proof. unfold unique_dates; intros (-> & _); auto. Qed.

Lemma same_rows_integrity db db' :
  same_rows db db' -> referential_integrity db -> referential_integrity db'.
Proof.
  unfold referential_integrity, known. intros (-> & -> & -> & ->); auto.
Qed.

Lemma same_facts_integrity db db' :
  same_facts db db' -> grows db db' ->
  referential_integrity db -> referential_integrity db'.
Proof.
  unfold referential_integrity. intros (-> & -> & ->) G (I1 & I2 & I3).
  repeat split; (eapply Forall_impl; [|eassumption]);
    intros r; now apply known_grows.
Qed.

(** [save_data], however it ends: the dimension only grows, stays free of
    repeated dates, and the fact rows keep referring to it. *)
Lemma save_data_invariants env data w r w' :
  save_data env data w = (r, w') ->
  grows (store w) (store w')
  /\ (unique_dates (store w) -> unique_dates (store w'))
  /\ (referential_integrity (store w) -> referential_integrity (store w')).
Proof.
  intros H. apply save_data_spec in H.
  destruct H as [(F & G & U & _) | (date_map & Hc & _)].
  - split; [exact G|]. split; [exact U|].
    now apply same_facts_integrity.
  - apply committed_resolved_rows in Hc. destruct Hc as (G & R & U).
    split; [exact G|]. split; [exact U|].
    now apply (referential_integrity_kept data).
Qed.

(** The [try] block of [main] touches the database through one call of
    [save_data] at most. *)
Lemma run_store env w r w' :
  run env w = (r, w') ->
  store w' = store w
  \/ exists data w3 r3 w4,
       store w3 = store w /\ save_data env data w3 = (r3, w4)
       /\ store w' = store w4.
Proof.
  unfold run. intros H.
  apply bind_inv in H. destruct H as [(last & w1 & Hl & H) | (e & Hl & ->)].
  2:{ apply get_last_date_frame in Hl. left. apply Hl. }
  apply get_last_date_frame in Hl. destruct Hl as (S1 & _).
  apply bind_inv in H. destruct H as [(start & w2 & Hw & H) | (e & Hw & ->)].
  2:{ apply lift_inv in Hw. destruct Hw as (_ & ->). left. exact S1. }
  apply lift_inv in Hw. destruct Hw as (_ & ->).
  destruct (gt start (today env)).
  { apply emit_inv in H. destruct H as (_ & S2 & _). left. congruence. }
  apply bind_inv in H. destruct H as [(u & w3 & He & H) | (e & He & ->)];
    [|apply emit_inv in He; destruct He as ([=] & _)].
  apply emit_inv in He. destruct He as (_ & S3 & _).
  apply bind_inv in H. destruct H as [(data & w4 & Hf & H) | (e & Hf & ->)].
  2:{ apply fetch_ga4_data_spec in Hf. left. destruct Hf as (S4 & _). congruence. }
  apply fetch_ga4_data_spec in Hf. destruct Hf as (S4 & _).
  destruct (negb _).
  { apply emit_inv in H. destruct H as (_ & S5 & _). left. congruence. }
  apply bind_inv in H. destruct H as [(u' & w5 & Hs & H) | (e & Hs & ->)].
  - apply emit_inv in H. destruct H as (_ & S6 & _).
    right. exists data, w4, (Ok u'), w5. repeat split; congruence.
  - right. exists data, w4, (Raise e), w'. repeat split; congruence.
Qed.

(** A whole run of [main], however it ends: the dimension only grows (no
    row is changed or removed), stays free of repeated dates, and the fact
    rows keep referring to it. *)
Lemma main_invariants env w :
  grows (store w) (store (snd (main env w)))
  /\ (unique_dates (store w) -> unique_dates (store (snd (main env w))))
  /\ (referential_integrity (store w) ->
      referential_integrity (store (snd (main env w)))).
Proof.
  unfold main.
  change (bind (log INFO "Starting GA4 relational data pipeline")
               (fun _ => init_db env) w) with (prologue env w).
  destruct (prologue env w) as [[u|e] w1] eqn:Hp;
    apply prologue_spec in Hp; destruct Hp as (R & _).
  2:{ simpl. split; [now apply same_rows_grows|].
      split; [now apply same_rows_unique | now apply same_rows_integrity]. }
  assert (Hrun : forall r w2, run env w1 = (r, w2) ->
            grows (store w) (store w2)
            /\ (unique_dates (store w) -> unique_dates (store w2))
            /\ (referential_integrity (store w) ->
                referential_integrity (store w2))).
  { intros r w2 Hr. apply run_store in Hr.
    destruct Hr as [S | (data & w3 & r3 & w4 & S3 & Hs & S4)].
    - rewrite S. split; [now apply same_rows_grows|].
      split; [now apply same_rows_unique | now apply same_rows_integrity].
    - apply save_data_invariants in Hs. rewrite S3 in Hs. rewrite S4.
      destruct Hs as (G & U & I).
      split; [eapply grows_trans; [apply same_rows_grows|]; eauto|].
      split; intros H0; [apply U | apply I];
        [eapply same_rows_unique | eapply same_rows_integrity]; eauto. }
  destruct (run env w1) as [[u'|e] w2] eqn:Hr; simpl;
    exact (Hrun _ _ eq_refl).
Qed.

(** On a new database file nothing refers to anything and no date is
    repeated. *)
Lemma fresh_store_invariants :
  unique_dates no_tables /\ referential_integrity no_tables.
Proof. repeat split; constructor. Qed.

Lemma later_invariants w w' :
  later w w' ->
  grows (store w) (store w')
  /\ (unique_dates (store w) -> unique_dates (store w')).
Proof.
  induction 1 as [w | env d w r w1 w2 H _ IH | env data w r w1 w2 H _ IH
                  | env w w2 _ IH | w w1 w2 H _ IH].
  - split; [apply grows_refl | auto].
  - apply get_or_create_date_id_grows in H. destruct H as (G & _ & U).
    destruct IH as (G' & U'). split; [eapply grows_trans; eauto | auto].
  - apply save_data_invariants in H. destruct H as (G & U & _).
    destruct IH as (G' & U'). split; [eapply grows_trans; eauto | auto].
  - destruct (main_invariants env w) as (G & U & _).
    destruct IH as (G' & U'). split; [eapply grows_trans; eauto | auto].
  - rewrite H in IH. exact IH.
Qed.

(** ** Idempotence of the date dimension *)

(** C3: a calendar date string resolved twice gets the same identifier.
    After a first resolution that returned [i], a second resolution of the
    same string -- at once or later, after any resolutions, saves and whole
    runs of the pipeline, in the same process or in another -- leaves the
    database as it is (it takes the lookup branch and inserts nothing), can
    return nothing but [i], and does return [i] when its connection and its
    query do not fail.  A dimension without two rows of the same calendar
    value stays so all along. *)
Theorem C3_idempotent_date_dimension :
  forall (env env' : Env) (date_str : string) (w w1 w2 w3 : World) (i : Z)
         (r : result Z),
    get_or_create_date_id env date_str w = (Ok i, w1) ->
    later w1 w2 ->
    get_or_create_date_id env' date_str w2 = (r, w3) ->
    store w3 = store w2
    /\ (forall j, r = Ok j -> j = i)
    /\ (fault env' (clock w2) = false -> fault env' (S (clock w2)) = false ->
        r = Ok i)
    /\ (unique_dates (store w) ->
        unique_dates (store w1) /\ unique_dates (store w2)
        /\ unique_dates (store w3)).
Proof.
  intros env env' d w w1 w2 w3 i r H1 Hl H2.
  apply later_invariants in Hl. destruct Hl as (Hg & Hu).
  pose proof (get_or_create_date_id_registers _ _ _ _ _ H1) as Hreg.
  pose proof (date_id_of_grows _ _ _ _ Hg Hreg) as Hreg2.
  pose proof (get_or_create_date_id_spec _ _ _ _ _ H2) as (_ & Hcases).
  assert (Hsame : store w3 = store w2
                  /\ forall j, r = Ok j -> date_id_of d (store w2) = Some j).
  { destruct Hcases as [Hc | (j & _ & Hnone & _)]; [exact Hc | congruence]. }
  destruct Hsame as (Hs & Hj).
  split; [exact Hs|].
  split; [intros j Hr; specialize (Hj j Hr); congruence|].
  split.
  { intros F0 F1.
    pose proof (get_or_create_date_id_hit env' d w2 i Hreg2 F0 F1) as Hhit.
    rewrite H2 in Hhit; exact Hhit. }
  intros U0.
  pose proof (proj2 (proj2 (get_or_create_date_id_grows _ _ _ _ _ H1)) U0) as U1.
  split; [exact U1|]. split; [auto|]. rewrite Hs; auto.
Qed.

(** The statement on a store with its schema: 2024-01-01 is resolved,
    then another date is resolved, a whole run of the pipeline takes place
    in a new process, and 2024-01-01 is resolved again. *)
Lemma C3_idempotent_date_dimension_witness :
  let w1 := snd (get_or_create_date_id Samples.quiet_env "2024-01-01"
                   Samples.initialised) in
  let w1' := snd (get_or_create_date_id Samples.quiet_env "2024-01-02" w1) in
  let w2 := snd (main Samples.quiet_env (mkWorld (store w1') 0 [])) in
  let w3 := snd (get_or_create_date_id Samples.quiet_env "2024-01-01" w2) in
  store w3 = store w2
  /\ fst (get_or_create_date_id Samples.quiet_env "2024-01-01" w2) = Ok 1
  /\ unique_dates (store w3).
Proof.
  intros w1 w1' w2 w3.
  assert (U0 : unique_dates (store Samples.initialised)) by constructor.
  assert (L : later w1 w2).
  { eapply later_resolve with (env := Samples.quiet_env)
                              (date_str := "2024-01-02"); [reflexivity|].
    fold w1'. apply later_restart with (w1 := mkWorld (store w1') 0 []);
      [reflexivity|].
    apply later_main with (env := Samples.quiet_env). apply later_now. }
  destruct (C3_idempotent_date_dimension
              Samples.quiet_env Samples.quiet_env "2024-01-01"
              Samples.initialised w1 w2 w3 1
              (fst (get_or_create_date_id Samples.quiet_env "2024-01-01" w2)))
    as (H1 & _ & H3 & H4).
  - vm_compute; reflexivity.
  - exact L.
  - vm_compute; reflexivity.
  - split; [exact H1|].
    split; [apply H3; reflexivity | apply (H4 U0)].
Defined.

(** * Further properties *)

(** ** The schema *)

Lemma create_if_not_exists_some R (o : option (table R)) :
  o <> None -> create_if_not_exists o = o.
Proof. destruct o; [reflexivity | congruence]. Qed.

Lemma create_if_not_exists_exists R (o : option (table R)) :
  create_if_not_exists o <> None.
Proof. destruct o; discriminate. Qed.

Lemma create_all_ready db :
  schema_ready db ->
  create_dates db = db /\ create_user_interaction db = db
  /\ create_content_metrics db = db /\ create_site_data db = db.
Proof.
  intros (H1 & H2 & H3 & H4). destruct db as [d u c s]; simpl in *.
  unfold create_dates, create_user_interaction, create_content_metrics,
    create_site_data; simpl.
  rewrite ?create_if_not_exists_some by assumption. auto.
Qed.

Lemma init_db_spec env w r w' :
  init_db env w = (r, w') ->
  same_rows (store w) (store w')
  /\ (r = Ok tt -> schema_ready (store w'))
  /\ (schema_ready (store w) -> store w' = store w).
Proof.
  cbv beta delta [init_db autocommit connect bind get_store put_store
    log emit ret external]; simpl.
  repeat match goal with
    | |- context [if fault env ?c then _ else _] =>
        destruct (fault env c); simpl
    end;
    intros H; inversion H; subst; simpl;
    (split; [unfold same_rows, dimension, create_dates, create_user_interaction,
               create_content_metrics, create_site_data; simpl;
             rewrite ?rows_of_create; repeat split|]);
    (split; [try discriminate|]);
    try (intros Hr; destruct (create_all_ready _ Hr) as (E1 & E2 & E3 & E4);
         rewrite ?E1, ?E2, ?E3, ?E4; reflexivity).
  intros _. unfold schema_ready, create_dates, create_user_interaction,
    create_content_metrics, create_site_data; simpl.
  repeat split; apply create_if_not_exists_exists.
Qed.

(** X1: [init_db] is safe to run on every invocation.  When it returns, the
    four tables exist; whatever it does (also when one of its statements
    fails half way) the rows of every table are what they were; and on a
    database that already has the four tables it changes nothing, so a
    second run of it after a first one leaves the database as the first one
    left it. *)
Theorem X1_init_db_idempotent :
  forall (env : Env) (w : World) (r : result unit) (w' : World),
    init_db env w = (r, w') ->
    same_rows (store w) (store w')
    /\ (r = Ok tt -> schema_ready (store w'))
    /\ (schema_ready (store w) -> store w' = store w)
    /\ (r = Ok tt ->
        forall env' w'',
          store w'' = store w' ->
          store (snd (init_db env' w'')) = store w').
Proof.
  intros env w r w' H. pose proof (init_db_spec _ _ _ _ H) as (R & S & I).
  split; [exact R|]. split; [exact S|]. split; [exact I|].
  intros Hr env' w'' Hs.
  destruct (init_db env' w'') as [r2 w2] eqn:H2; simpl.
  apply init_db_spec in H2. destruct H2 as (_ & _ & I2).
  rewrite <- Hs. apply I2. rewrite Hs. auto.
Qed.

(** The statement on a new database file: the schema is created, and a
    second initialisation in a later process changes nothing. *)
Lemma X1_init_db_idempotent_witness :
  let w' := snd (init_db Samples.quiet_env Samples.fresh) in
  schema_ready (store w')
  /\ store (snd (init_db Samples.quiet_env (mkWorld (store w') 0 []))) = store w'.
Proof.
  intros w'.
  destruct (X1_init_db_idempotent Samples.quiet_env Samples.fresh (Ok tt) w')
    as (_ & S & _ & I).
  - vm_compute; reflexivity.
  - split; [apply S; reflexivity|].
    apply (I eq_refl Samples.quiet_env (mkWorld (store w') 0 [])). reflexivity.
Defined.

(** ** The resolver *)

Lemma select_none_insert_no_conflict d db e :
  select_date_id d db = Ok None -> insert_date d db = Raise e ->
  e <> IntegrityError.
Proof.
  unfold select_date_id, insert_date, the_table.
  destruct (dates db) as [t|]; [|discriminate].
  destruct (find _ (rows t)) as [row|] eqn:E; [discriminate|]. intros _.
  assert (Hex : existsb (fun r => String.eqb (snd r) d) (rows t) = false).
  { clear -E. induction (rows t) as [|a l IH]; simpl in *; [reflexivity|].
    destruct (String.eqb (snd a) d); [discriminate | auto]. }
  rewrite Hex. unfold insert_auto; cbv zeta.
  destruct (MAX_ROWID <=? _); [|discriminate].
  intros [= <-]; discriminate.
Qed.

(** X2: a resolution that fails leaves nothing behind.  When
    [get_or_create_date_id] raises, the database is exactly what it was (a
    row whose insertion or commit failed is dropped with the connection),
    and the exception is never the integrity error of the [UNIQUE] column:
    the insertion is only tried for a date that the lookup has just found
    absent. *)
Theorem X2_failed_resolution_leaves_nothing :
  forall (env : Env) (date_str : string) (w w' : World) (e : exn),
    get_or_create_date_id env date_str w = (Raise e, w') ->
    store w' = store w /\ e <> IntegrityError.
Proof.
  intros env d w w' e.
  cbv beta delta [get_or_create_date_id connect try_except bind query execute
    commit get_store put_store lift log emit raise ret external]; simpl.
  destruct (fault env (clock w)); simpl;
    [intros H; inversion H; subst; simpl; split; [reflexivity | discriminate]|].
  destruct (fault env (S (clock w))); simpl;
    [intros H; inversion H; subst; simpl; split; [reflexivity | discriminate]|].
  destruct (select_date_id d (store w)) as [[i|]|e0] eqn:Esel; simpl.
  - discriminate.
  - destruct (fault env (S (S (clock w)))); simpl;
      [intros H; inversion H; subst; simpl; split; [reflexivity | discriminate]|].
    destruct (insert_date d (store w)) as [[i db']|e0] eqn:Eins; simpl.
    + destruct (fault env (S (S (S (clock w))))); simpl; [|discriminate].
      intros H; inversion H; subst; simpl; split; [reflexivity | discriminate].
    + intros H; inversion H; subst; simpl. split; [reflexivity|].
      eapply select_none_insert_no_conflict; eassumption.
  - intros H; inversion H; subst; simpl. split; [reflexivity|].
    unfold select_date_id, the_table in Esel.
    destruct (dates (store w)); [discriminate|].
    injection Esel as <-; discriminate.
Qed.

(** The statement where the commit of the new row fails. *)
Lemma X2_failed_resolution_leaves_nothing_witness :
  store (snd (get_or_create_date_id (Samples.failing_at 3) "2024-01-01"
                Samples.initialised))
  = store Samples.initialised
  /\ OperationalError <> IntegrityError.
Proof.
  apply (X2_failed_resolution_leaves_nothing (Samples.failing_at 3) "2024-01-01"
           Samples.initialised).
  vm_compute; reflexivity.
Defined.

Lemma max_rowid_bound R (l : list (Z * R)) i :
  In i (map fst l) -> i <= max_rowid l.
Proof.
  induction l as [|a l IH]; simpl; [tauto|].
  intros [<-|Hin]; [lia|]. specialize (IH Hin). lia.
Qed.

Lemma max_rowid_nonneg R (l : list (Z * R)) : 0 <= max_rowid l.
Proof. induction l as [|a l IH]; simpl; lia. Qed.

Lemma insert_date_fresh d db i db' :
  insert_date d db = Ok (i, db') ->
  0 < i /\ forall j, In j (map fst (dimension db)) -> j < i.
Proof.
  unfold insert_date, the_table, dimension, insert_auto; cbv zeta.
  destruct (dates db) as [t|]; [|discriminate].
  destruct (existsb _ _); [discriminate|].
  destruct (MAX_ROWID <=? _); [discriminate|].
  intros H; inversion H; subst; clear H; simpl.
  pose proof (max_rowid_nonneg _ (rows t)).
  split; [lia|]. intros j Hj. apply max_rowid_bound in Hj. lia.
Qed.

Lemma get_or_create_date_id_new env d w i w' :
  get_or_create_date_id env d w = (Ok i, w') ->
  date_id_of d (store w) = None ->
  dimension (store w') = (dimension (store w) ++ [(i, d)])%list
  /\ 0 < i /\ forall j, In j (map fst (dimension (store w))) -> j < i.
Proof.
  cbv beta delta [get_or_create_date_id connect try_except bind query execute
    commit get_store put_store lift log emit raise ret external]; simpl.
  destruct (fault env (clock w)); simpl; [discriminate|].
  destruct (fault env (S (clock w))); simpl; [discriminate|].
  destruct (select_date_id d (store w)) as [[i0|]|e0] eqn:Esel; simpl;
    [| |discriminate].
  - apply select_date_id_of in Esel. congruence.
  - destruct (fault env (S (S (clock w)))); simpl; [discriminate|].
    destruct (insert_date d (store w)) as [[i1 db']|e0] eqn:Eins; simpl;
      [|discriminate].
    destruct (fault env (S (S (S (clock w))))); simpl; [discriminate|].
    intros H _; inversion H; subst; clear H; simpl.
    pose proof (insert_date_fresh _ _ _ _ Eins) as (P & F).
    apply insert_date_spec in Eins. destruct Eins as (D & _).
    auto.
Qed.

Lemma unique_ids_kept env d w r w' :
  get_or_create_date_id env d w = (r, w') ->
  unique_ids (store w) -> unique_ids (store w').
Proof.
  intros H U. pose proof (get_or_create_date_id_spec _ _ _ _ _ H) as (_ & C).
  destruct C as [(S & _) | (i & -> & Hnone & D)].
  - now rewrite S.
  - destruct (get_or_create_date_id_new _ _ _ _ _ H Hnone) as (_ & _ & F).
    unfold unique_ids. rewrite D, map_app; simpl.
    apply NoDup_snoc; [exact U|]. intros Hin. specialize (F i Hin). lia.
Qed.

Lemma same_id_same_date db d1 d2 i :
  unique_ids db ->
  date_id_of d1 db = Some i -> date_id_of d2 db = Some i -> d1 = d2.
Proof.
  unfold unique_ids, date_id_of. intros U H1 H2.
  destruct (find _ (dimension db)) as [[i1 s1]|] eqn:E1; [|discriminate].
  destruct (find (fun r => String.eqb (snd r) d2) (dimension db))
    as [[i2 s2]|] eqn:E2; [|discriminate].
  simpl in *. injection H1 as ->. injection H2 as ->.
  apply find_some in E1, E2. destruct E1 as (I1 & Q1), E2 as (I2 & Q2).
  simpl in *. apply String.eqb_eq in Q1, Q2. subst.
  clear -U I1 I2. induction (dimension db) as [|a l IH]; simpl in *; [tauto|].
  inversion U as [|x l' Hx Hl]; subst.
  destruct I1 as [->|I1], I2 as [E|I2].
  - now injection E.
  - exfalso. apply Hx. simpl. change i with (fst (i, d2)). now apply in_map.
  - subst a. exfalso. apply Hx. simpl. change i with (fst (i, d1)).
    now apply in_map.
  - auto.
Qed.

(** X3: surrogate identifiers are fresh.  A resolution that inserts (the
    date was not in the dimension) appends exactly the row of that date with
    a positive identifier larger than every identifier already there; so a
    dimension without repeated identifiers stays so through any resolution,
    and in such a dimension two calendar strings with the same identifier
    are the same string. *)
Theorem X3_fresh_surrogate_identifiers :
  forall (env : Env) (date_str : string) (w w' : World) (r : result Z),
    get_or_create_date_id env date_str w = (r, w') ->
    (forall i, r = Ok i -> date_id_of date_str (store w) = None ->
       dimension (store w') = (dimension (store w) ++ [(i, date_str)])%list
       /\ 0 < i
       /\ forall j, In j (map fst (dimension (store w))) -> j < i)
    /\ (unique_ids (store w) ->
        unique_ids (store w')
        /\ forall d1 d2 i,
             date_id_of d1 (store w') = Some i ->
             date_id_of d2 (store w') = Some i -> d1 = d2).
Proof.
  intros env d w w' r H. split.
  - intros i -> Hnone. eapply get_or_create_date_id_new; eassumption.
  - intros U. pose proof (unique_ids_kept _ _ _ _ _ H U) as U'.
    split; [exact U'|]. intros d1 d2 i. now apply same_id_same_date.
Qed.

(** The statement on a dimension that holds 2024-01-01 and gets
    2024-01-02. *)
Lemma X3_fresh_surrogate_identifiers_witness :
  let w := Samples.with_dates ["2024-01-01"] in
  let w' := snd (get_or_create_date_id Samples.quiet_env "2024-01-02" w) in
  dimension (store w') = [(1, "2024-01-01"); (2, "2024-01-02")]
  /\ unique_ids (store w').
Proof.
  intros w w'.
  destruct (X3_fresh_surrogate_identifiers Samples.quiet_env "2024-01-02" w w'
              (Ok 2)) as (N & U).
  - vm_compute; reflexivity.
  - split.
    + apply (N 2 eq_refl). reflexivity.
    + apply U. vm_compute. repeat constructor. simpl; tauto.
Defined.

(** ** The normaliser *)

Lemma process_response_ok_iff rows type : forall df,
  process_response rows type = Ok df
  <-> Forall2 (fun row e => process_row type row = Ok e) rows df.
Proof.
  induction rows as [|row rest IH]; simpl; intros df.
  - split.
    + intros [= <-]; constructor.
    + intros H; inversion H; reflexivity.
  - split.
    + intros H. apply rbind_ok_inv in H. destruct H as (e & He & H).
      apply rbind_ok_inv in H. destruct H as (data & Hd & H).
      injection H as <-. constructor; [exact He | now apply IH].
    + intros H; inversion H as [|? e ? data He Hd]; subst.
      rewrite He; simpl. apply IH in Hd. rewrite Hd; reflexivity.
Qed.

Lemma process_response_first_failure type bad rest e : forall good,
  Forall (fun row => is_ok (process_row type row) = true) good ->
  process_row type bad = Raise e ->
  process_response (good ++ bad :: rest) type = Raise e.
Proof.
  induction good as [|row good IH]; simpl; intros Hg Hb.
  - now rewrite Hb.
  - inversion Hg as [|? ? Hr Hg']; subst.
    destruct (process_row type row) as [e0|]; [|discriminate]. simpl.
    now rewrite (IH Hg' Hb).
Qed.

(** X4: normalisation goes row by row and stops at the first row it cannot
    convert.  A response is normalised exactly when each of its rows is, and
    the frame then holds the records of the rows in their order; when a row
    fails after rows that do not, the whole normalisation fails with the
    exception of that row, whatever comes after it. *)
Theorem X4_normalisation_row_by_row :
  forall (type : string) (rows : list report_row),
    (forall df,
        process_response rows type = Ok df
        <-> Forall2 (fun row e => process_row type row = Ok e) rows df)
    /\ (forall good bad rest e,
          rows = (good ++ bad :: rest)%list ->
          Forall (fun row => is_ok (process_row type row) = true) good ->
          process_row type bad = Raise e ->
          process_response rows type = Raise e).
Proof.
  intros type rows. split.
  - apply process_response_ok_iff.
  - intros good bad rest e -> Hg Hb.
    now apply process_response_first_failure.
Qed.

(** The statement on a response whose second row has a metric that is no
    number and whose third row has no metric at all: the error is the
    second row's. *)
Lemma X4_normalisation_row_by_row_witness :
  process_response [mkrow ["20240101"; "shoes"] ["10"; "200"];
                    mkrow ["20240102"; "boots"] ["ten"; "200"];
                    mkrow ["20240103"; "hats"] []] "site"
  = Raise ValueError.
Proof.
  apply (proj2 (X4_normalisation_row_by_row "site" _)
           [mkrow ["20240101"; "shoes"] ["10"; "200"]]
           (mkrow ["20240102"; "boots"] ["ten"; "200"])
           [mkrow ["20240103"; "hats"] []]).
  - reflexivity.
  - repeat constructor.
  - reflexivity.
Defined.

(** ** From the report row to the fact row *)

Ltac row_inv :=
  repeat match goal with
    | H : rbind _ _ = Ok _ |- _ =>
        let a := fresh "a" in
        let Ha := fresh "Ha" in
        apply rbind_ok_inv in H; destruct H as (a & Ha & H)
    | H : index _ _ = Ok _ |- _ => apply index_ok_inv in H
    | H : Ok _ = Ok _ |- _ => injection H as H; subst
    end.

(** X5: the values of a report row arrive in the columns that the schema
    names for them.  For a row normalised as engagement, content or
    site-search and then turned into the parameters of its [INSERT]: the
    date identifier is the one the date map holds for the converted date,
    the secondary dimension (page title, search term) is stored verbatim,
    and every numeric column holds the [int] or [float] of the metric in
    the position the request asked it in (for content, the sessions metric
    goes to the column [content_sessions]). *)
Theorem X5_report_values_reach_their_columns :
  forall (date_map : list (string * Z)) (row : report_row) (e : entry),
    (process_row "user" row = Ok e ->
     forall f, user_fact_of date_map e = Ok f ->
       exists d m0 m1 m2 m3 m4,
         at_position (dimension_values row) 0 d
         /\ at_position (metric_values row) 0 m0
         /\ at_position (metric_values row) 1 m1
         /\ at_position (metric_values row) 2 m2
         /\ at_position (metric_values row) 3 m3
         /\ at_position (metric_values row) 4 m4
         /\ dict_get date_map (format_date d) = Ok (uf_date_id f)
         /\ py_int m0 = Ok (uf_users f)
         /\ py_int m1 = Ok (uf_sessions f)
         /\ py_float m2 = Ok (uf_engagement_rate f)
         /\ py_int m3 = Ok (uf_conversions f)
         /\ py_float m4 = Ok (uf_average_session_duration f))
    /\ (process_row "content" row = Ok e ->
        forall f, content_fact_of date_map e = Ok f ->
          exists d m0 m1 m2 m3,
            at_position (dimension_values row) 0 d
            /\ at_position (dimension_values row) 1 (cf_page_title f)
            /\ at_position (metric_values row) 0 m0
            /\ at_position (metric_values row) 1 m1
            /\ at_position (metric_values row) 2 m2
            /\ at_position (metric_values row) 3 m3
            /\ dict_get date_map (format_date d) = Ok (cf_date_id f)
            /\ py_int m0 = Ok (cf_page_views f)
            /\ py_int m1 = Ok (cf_content_sessions f)
            /\ py_float m2 = Ok (cf_engagement_rate f)
            /\ py_float m3 = Ok (cf_session_duration f))
    /\ (process_row "site" row = Ok e ->
        forall f, site_fact_of date_map e = Ok f ->
          exists d m0 m1,
            at_position (dimension_values row) 0 d
            /\ at_position (dimension_values row) 1 (sf_search_Term f)
            /\ at_position (metric_values row) 0 m0
            /\ at_position (metric_values row) 1 m1
            /\ dict_get date_map (format_date d) = Ok (sf_date_id f)
            /\ py_int m0 = Ok (sf_clicks f)
            /\ py_int m1 = Ok (sf_impressions f)).
Proof.
  intros date_map row e. unfold at_position. split; [|split].
  - unfold process_row; simpl. intros H f Hf. row_inv.
    unfold user_fact_of in Hf; simpl in Hf.
    destruct (dict_get date_map (format_date a)) as [i|] eqn:Ed;
      [|discriminate].
    simpl in Hf. injection Hf as <-.
    cbn [uf_date_id uf_users uf_sessions uf_engagement_rate uf_conversions
         uf_average_session_duration].
    do 6 eexists. repeat split; eassumption.
  - unfold process_row; simpl. intros H f Hf. row_inv.
    unfold content_fact_of in Hf; simpl in Hf.
    destruct (dict_get date_map (format_date a)) as [i|] eqn:Ed;
      [|discriminate].
    simpl in Hf. injection Hf as <-.
    cbn [cf_date_id cf_page_title cf_page_views cf_content_sessions
         cf_engagement_rate cf_session_duration].
    do 5 eexists. repeat split; eassumption.
  - unfold process_row; simpl. intros H f Hf. row_inv.
    unfold site_fact_of in Hf; simpl in Hf.
    destruct (dict_get date_map (format_date a)) as [i|] eqn:Ed;
      [|discriminate].
    simpl in Hf. injection Hf as <-.
    cbn [sf_date_id sf_search_Term sf_clicks sf_impressions].
    do 3 eexists. repeat split; eassumption.
Qed.

(** The statement on a content row with the date map of one resolved
    date. *)
Lemma X5_report_values_reach_their_columns_witness :
  exists d m0 m1 m2 m3,
    at_position ["20240101"; "Home"] 0 d
    /\ at_position ["20240101"; "Home"] 1 "Home"
    /\ at_position ["300"; "120"; "0.55"; "42.3"] 0 m0
    /\ at_position ["300"; "120"; "0.55"; "42.3"] 1 m1
    /\ at_position ["300"; "120"; "0.55"; "42.3"] 2 m2
    /\ at_position ["300"; "120"; "0.55"; "42.3"] 3 m3
    /\ dict_get [("2024-01-01", 7)] (format_date d) = Ok 7
    /\ py_int m0 = Ok 300
    /\ py_int m1 = Ok 120
    /\ py_float m2 = Ok (F_dec false 55 (-2))
    /\ py_float m3 = Ok (F_dec false 423 (-1)).
Proof.
  refine (proj1 (proj2 (X5_report_values_reach_their_columns
            [("2024-01-01", 7)]
            (mkrow ["20240101"; "Home"] ["300"; "120"; "0.55"; "42.3"])
            (ContentEntry "2024-01-01" "Home" 300 120 (F_dec false 55 (-2))
                          (F_dec false 423 (-1))))) _
            (mkcontent_fact 7 "Home" 300 120 (F_dec false 55 (-2))
                            (F_dec false 423 (-1))) _);
    reflexivity.
Defined.

(** ** The fetch *)

(** X6: the fetch returns the data of the first attempt that succeeds and
    makes no attempt after it; whatever its outcome it neither changes the
    database nor calls the writer, and data it returns are the data of an
    attempt. *)
Theorem X6_fetch_first_success :
  forall (env : Env) (s e : string) (w : World),
    store (snd (fetch_ga4_data env s e w)) = store w
    /\ saves (trace (snd (fetch_ga4_data env s e w))) = saves (trace w)
    /\ (forall data w1,
          fetch_ga4_data_once env s e w = (Ok data, w1) ->
          fetch_ga4_data env s e w = (Ok data, w1)
          /\ attempts (trace w1) = S (attempts (trace w)))
    /\ (forall x w1 data w2,
          fetch_ga4_data_once env s e w = (Raise x, w1) ->
          fetch_ga4_data_once env s e w1 = (Ok data, w2) ->
          fetch_ga4_data env s e w = (Ok data, w2)
          /\ attempts (trace w2) = S (S (attempts (trace w))))
    /\ (forall x w1 y w2 data w3,
          fetch_ga4_data_once env s e w = (Raise x, w1) ->
          fetch_ga4_data_once env s e w1 = (Raise y, w2) ->
          fetch_ga4_data_once env s e w2 = (Ok data, w3) ->
          fetch_ga4_data env s e w = (Ok data, w3)
          /\ attempts (trace w3) = S (S (S (attempts (trace w)))))
    /\ (forall data w',
          fetch_ga4_data env s e w = (Ok data, w') ->
          exists wp, fetch_ga4_data_once env s e wp = (Ok data, w')).
Proof.
  intros env s e w.
  assert (A : forall r v v', fetch_ga4_data_once env s e v = (r, v') ->
                attempts (trace v') = S (attempts (trace v))).
  { intros r v v' H. apply fetch_ga4_data_once_spec in H.
    destruct H as (_ & [T|T]); rewrite T; reflexivity. }
  split; [|split].
  - destruct (fetch_ga4_data env s e w) as [r w'] eqn:E.
    apply fetch_ga4_data_spec in E. simpl. apply E.
  - destruct (fetch_ga4_data env s e w) as [r w'] eqn:E.
    apply fetch_ga4_data_spec in E. simpl. apply E.
  - unfold fetch_ga4_data, retry; simpl.
    split; [|split; [|split]].
    + intros data w1 H1. rewrite H1. split; [reflexivity | eapply A; eauto].
    + intros x w1 data w2 H1 H2. rewrite H1, H2. split; [reflexivity|].
      rewrite (A _ _ _ H2), (A _ _ _ H1). reflexivity.
    + intros x w1 y w2 data w3 H1 H2 H3. rewrite H1, H2, H3.
      split; [reflexivity|].
      rewrite (A _ _ _ H3), (A _ _ _ H2), (A _ _ _ H1). reflexivity.
    + intros data w'.
      destruct (fetch_ga4_data_once env s e w) as [[d|x] w1] eqn:E1.
      { intros H; inversion H; subst. eauto. }
      destruct (fetch_ga4_data_once env s e w1) as [[d|y] w2] eqn:E2.
      { intros H; inversion H; subst. eauto. }
      destruct (fetch_ga4_data_once env s e w2) as [[d|z] w3] eqn:E3.
      { intros H; inversion H; subst. eauto. }
      discriminate.
Qed.

(** The statement where the client cannot be built at the first attempt
    and the second attempt goes through. *)
Lemma X6_fetch_first_success_witness :
  let out := fetch_ga4_data (Samples.failing_at 0) "2024-01-01" "2024-01-31"
               Samples.initialised in
  fst out = Ok Samples.scenario_data
  /\ attempts (trace (snd out)) = 2%nat.
Proof.
  set (env := Samples.failing_at 0).
  set (w1 := snd (fetch_ga4_data_once env "2024-01-01" "2024-01-31"
                    Samples.initialised)).
  set (w2 := snd (fetch_ga4_data_once env "2024-01-01" "2024-01-31" w1)).
  destruct (proj1 (proj2 (proj2 (proj2 (X6_fetch_first_success env "2024-01-01"
              "2024-01-31" Samples.initialised))))
              GoogleAPIError w1 Samples.scenario_data w2) as (H1 & H2).
  - vm_compute; reflexivity.
  - vm_compute; reflexivity.
  - cbv zeta. rewrite H1. split; [reflexivity | exact H2].
Defined.

(** ** Ends of a run *)

Lemma prologue_raise_trace env w e w1 :
  prologue env w = (Raise e, w1) ->
  trace w1 = Log INFO "Starting GA4 relational data pipeline" :: trace w
  /\ e = OperationalError.
Proof.
  cbv beta delta [prologue init_db autocommit connect bind get_store put_store
    log emit ret external]; simpl.
  repeat match goal with
    | |- context [if fault env ?c then _ else _] =>
        destruct (fault env c); simpl
    end;
    intros H; inversion H; subst; simpl; auto.
Qed.

(** X7: when the schema step fails the run is over at once.  [init_db] is
    called outside the [try] of [main]: its exception ends the process with
    status 1, nothing has been read, fetched or written, the rows of every
    table are what they were, and no "Pipeline failed" line is logged --
    the only event of the run is its first log line. *)
Theorem X7_schema_failure_ends_the_run :
  forall (env : Env) (w w1 : World) (e : exn),
    prologue env w = (Raise e, w1) ->
    main env w = (1, w1)
    /\ e = OperationalError
    /\ same_rows (store w) (store w1)
    /\ trace w1 = Log INFO "Starting GA4 relational data pipeline" :: trace w.
Proof.
  intros env w w1 e H.
  pose proof (prologue_raise_trace _ _ _ _ H) as (T & E).
  pose proof (prologue_spec _ _ _ _ H) as (R & _).
  split; [|auto].
  unfold main.
  change (bind (log INFO "Starting GA4 relational data pipeline")
               (fun _ => init_db env) w) with (prologue env w).
  now rewrite H.
Qed.

(** The statement where the third [CREATE TABLE] fails on a new file. *)
Lemma X7_schema_failure_ends_the_run_witness :
  fst (main (Samples.failing_at 3) Samples.fresh) = 1
  /\ trace (snd (main (Samples.failing_at 3) Samples.fresh))
     = [Log INFO "Starting GA4 relational data pipeline"].
Proof.
  destruct (X7_schema_failure_ends_the_run (Samples.failing_at 3) Samples.fresh
              (snd (prologue (Samples.failing_at 3) Samples.fresh))
              OperationalError) as (M & _ & _ & T).
  - vm_compute; reflexivity.
  - rewrite M. split; [reflexivity | exact T].
Defined.

(** X8: an answer without any row is no error.  In a run that comes to the
    fetch, when the three frames returned are all empty the run ends with
    status 0 without calling the writer, and the rows of every table are
    what they were. *)
Theorem X8_empty_answer_is_a_successful_no_op :
  forall (env : Env) (w0 wf w3 : World) (start : date) (data : Data),
    reaches_fetch env w0 start wf ->
    fetch_ga4_data env (strftime_iso start) (strftime_iso (today env)) wf
    = (Ok data, w3) ->
    data_users data = [] -> data_content data = [] -> data_site data = [] ->
    fst (main env w0) = 0
    /\ same_rows (store w0) (store (snd (main env w0)))
    /\ saves (trace (snd (main env w0))) = saves (trace w0).
Proof.
  intros env w0 wf w3 start data Hreach Hfetch Hu Hc Hs.
  rewrite (main_reaches_fetch _ _ _ _ Hreach), Hfetch. unfold finish, values.
  rewrite Hu, Hc, Hs. simpl.
  apply reaches_fetch_frame in Hreach. destruct Hreach as (R & _ & V).
  apply fetch_ga4_data_spec in Hfetch. destruct Hfetch as (S' & V' & _).
  rewrite S'. split; [reflexivity|]. split; [exact R|].
  unfold saves in *; simpl. congruence.
Qed.

(** The statement on a run in a new store against an API without rows. *)
Lemma X8_empty_answer_is_a_successful_no_op_witness :
  fst (main Scenarios.silent_env Samples.fresh) = 0
  /\ same_rows (store Samples.fresh)
       (store (snd (main Scenarios.silent_env Samples.fresh)))
  /\ saves (trace (snd (main Scenarios.silent_env Samples.fresh)))
     = saves (trace Samples.fresh).
Proof.
  set (env := Scenarios.silent_env).
  set (w1 := snd (prologue env Samples.fresh)).
  set (w2 := snd (get_last_date env w1)).
  set (wf := snd (log INFO "Fetching data" w2)).
  refine (X8_empty_answer_is_a_successful_no_op env Samples.fresh wf
            (snd (fetch_ga4_data env "2024-01-01" "2024-01-31" wf))
            (mkdate 2024 1 1) (mkData [] [] []) _ _ eq_refl eq_refl eq_refl).
  - exists w1, None, w2. repeat split; vm_compute; reflexivity.
  - vm_compute; reflexivity.
Defined.

(** ** The order of dates *)

Lemma month_cases m :
  1 <= m <= 12 ->
  m = 1 \/ m = 2 \/ m = 3 \/ m = 4 \/ m = 5 \/ m = 6 \/ m = 7 \/ m = 8
  \/ m = 9 \/ m = 10 \/ m = 11 \/ m = 12.
Proof. lia. Qed.

Lemma days_before_year_succ y :
  days_before_year (y + 1) = days_before_year y + year_length y.
Proof.
  unfold days_before_year, year_length, is_leap; cbv zeta.
  replace (y + 1 - 1) with y by lia.
  destruct (Z.eqb_spec (y mod 4) 0), (Z.eqb_spec (y mod 100) 0),
    (Z.eqb_spec (y mod 400) 0); simpl;
    Z.div_mod_to_equations; lia.
Qed.

Lemma year_length_bounds y : 365 <= year_length y <= 366.
Proof. unfold year_length; destruct (is_leap y); lia. Qed.

Lemma days_before_year_mono (n : nat) y :
  days_before_year y + 365 * Z.of_nat n <= days_before_year (y + Z.of_nat n).
Proof.
  induction n as [|n IH].
  - simpl. replace (y + 0) with y by lia. lia.
  - replace (y + Z.of_nat (S n)) with (y + Z.of_nat n + 1) by lia.
    rewrite days_before_year_succ.
    pose proof (year_length_bounds (y + Z.of_nat n)). lia.
Qed.

Lemma days_before_year_lt y1 y2 :
  y1 < y2 -> days_before_year y1 + year_length y1 <= days_before_year y2.
Proof.
  intros H. rewrite <- days_before_year_succ.
  pose proof (days_before_year_mono (Z.to_nat (y2 - (y1 + 1))) (y1 + 1)) as M.
  rewrite Z2Nat.id in M by lia.
  replace (y1 + 1 + (y2 - (y1 + 1))) with y2 in M by lia. lia.
Qed.

Lemma month_span y m :
  1 <= m <= 12 ->
  0 <= days_before_month y m
  /\ 1 <= days_in_month y m
  /\ days_before_month y m + days_in_month y m <= year_length y.
Proof.
  unfold days_before_month, days_in_month, year_length.
  generalize (is_leap y); intros b Hm.
  destruct (month_cases m Hm) as
    [->|[->|[->|[->|[->|[->|[->|[->|[->|[->|[->| ->]]]]]]]]]]];
    destruct b; repeat split; apply Z.leb_le; reflexivity.
Qed.

Lemma month_order y m1 m2 :
  1 <= m1 <= 12 -> 1 <= m2 <= 12 -> m1 < m2 ->
  days_before_month y m1 + days_in_month y m1 <= days_before_month y m2.
Proof.
  unfold days_before_month, days_in_month.
  generalize (is_leap y); intros b H1 H2 Hlt.
  destruct (month_cases m1 H1) as
    [->|[->|[->|[->|[->|[->|[->|[->|[->|[->|[->| ->]]]]]]]]]]];
    destruct (month_cases m2 H2) as
    [->|[->|[->|[->|[->|[->|[->|[->|[->|[->|[->| ->]]]]]]]]]]];
    try lia; destruct b; apply Z.leb_le; reflexivity.
Qed.

Lemma valid_month_day_inv y m d :
  valid_month_day y m d = true ->
  1 <= m <= 12 /\ 1 <= d <= days_in_month y m.
Proof.
  unfold valid_month_day. intros H.
  repeat (apply andb_true_iff in H; destruct H as (H & ?)).
  repeat match goal with H : (_ <=? _) = true |- _ => apply Z.leb_le in H end.
  lia.
Qed.

(** The day of the year of a calendar date. *)
Lemma day_of_year_bounds y m d :
  valid_month_day y m d = true ->
  1 <= days_before_month y m + d <= year_length y.
Proof.
  intros H. apply valid_month_day_inv in H. destruct H as (Hm & Hd).
  pose proof (month_span y m Hm). lia.
Qed.

Lemma month_before y m1 d1 m2 d2 :
  valid_month_day y m1 d1 = true -> valid_month_day y m2 d2 = true ->
  m1 < m2 ->
  days_before_month y m1 + d1 < days_before_month y m2 + d2.
Proof.
  intros H1 H2 Hlt.
  apply valid_month_day_inv in H1, H2.
  pose proof (month_order y m1 m2 ltac:(lia) ltac:(lia) Hlt). lia.
Qed.

Lemma valid_fields_month_day y m d :
  valid_fields y m d = true -> valid_month_day y m d = true.
Proof.
  unfold valid_fields, valid_month_day. intros H.
  repeat (apply andb_true_iff in H; destruct H as (H & ?)).
  repeat (apply andb_true_iff; split); assumption.
Qed.

(** On calendar dates, [>] on the fields is [>] on the ordinals. *)
Lemma gt_ordinal d1 d2 :
  valid_month_day (year d1) (month d1) (day d1) = true ->
  valid_month_day (year d2) (month d2) (day d2) = true ->
  gt d1 d2 = true <-> toordinal d2 < toordinal d1.
Proof.
  destruct d1 as [y1 m1 d1], d2 as [y2 m2 d2]; simpl. intros V1 V2.
  unfold gt, toordinal, ymd2ord; simpl.
  pose proof (day_of_year_bounds _ _ _ V1) as B1.
  pose proof (day_of_year_bounds _ _ _ V2) as B2.
  destruct (Z.ltb_spec y2 y1) as [Hy|Hy]; simpl.
  - split; [intros _|reflexivity].
    pose proof (days_before_year_lt _ _ Hy). lia.
  - destruct (Z.eqb_spec y1 y2) as [->|Hne]; simpl.
    + destruct (Z.ltb_spec m2 m1) as [Hm|Hm]; simpl.
      * split; [intros _|reflexivity].
        pose proof (month_before _ _ _ _ _ V2 V1 Hm). lia.
      * destruct (Z.eqb_spec m1 m2) as [->|Hmne]; simpl.
        -- rewrite Z.ltb_lt. lia.
        -- split; [discriminate|]. intros Hlt.
           assert (Hm' : m1 < m2) by lia.
           pose proof (month_before _ _ _ _ _ V1 V2 Hm'). lia.
    + split; [discriminate|]. intros Hlt.
      assert (Hy' : y1 < y2) by lia.
      pose proof (days_before_year_lt _ _ Hy'). lia.
Qed.

(** The date of an ordinal of the supported range is a date of the
    calendar. *)
Lemma fromordinal_month_day n :
  let d := fromordinal n in
  valid_month_day (year d) (month d) (day d) = true.
Proof.
  cbv zeta. unfold fromordinal. rewrite (ord2ymd_shift n); cbn [year month day].
  assert (Hr : 0 <= (n - 1) mod DI400Y < DI400Y)
    by (apply Z.mod_pos_bound; reflexivity).
  destruct (first_cycle _ Hr) as (_ & V). cbv zeta in V.
  apply valid_fields_month_day in V.
  unfold valid_month_day, days_in_month in *. now rewrite is_leap_shift.
Qed.

(** ** The watermark and the window *)



Lemma days_before_year_nonneg y : 1 <= y -> 0 <= days_before_year y.
Proof.
  intros H. pose proof (days_before_year_mono (Z.to_nat (y - 1)) 1) as M.
  rewrite Z2Nat.id in M by lia. replace (1 + (y - 1)) with y in M by lia.
  change (days_before_year 1) with 0 in M. lia.
Qed.

Lemma valid_date_ordinal d : valid_date d -> 1 <= toordinal d <= MAXORDINAL.
Proof.
  unfold valid_date. intros V.
  pose proof (valid_fields_month_day _ _ _ V) as V'.
  pose proof (day_of_year_bounds _ _ _ V') as B.
  unfold valid_fields in V.
  repeat (apply andb_true_iff in V; destruct V as (V & ?)).
  apply Z.leb_le in V. apply Z.leb_le in H3.
  unfold toordinal, ymd2ord, MINYEAR, MAXYEAR in *.
  pose proof (days_before_year_nonneg (year d) V).
  split; [lia|].
  destruct (Z.eq_dec (year d) 9999) as [E|E].
  - rewrite E in *. change (days_before_year 9999) with 3651694.
    unfold year_length in B. change (is_leap 9999) with false in B.
    unfold MAXORDINAL. lia.
  - pose proof (days_before_year_lt (year d) 9999 ltac:(lia)) as L.
    change (days_before_year 9999) with 3651694 in L.
    unfold MAXORDINAL. lia.
Qed.

Lemma gt_by_ordinal d1 d2 :
  valid_month_day (year d1) (month d1) (day d1) = true ->
  valid_month_day (year d2) (month d2) (day d2) = true ->
  gt d1 d2 = negb (toordinal d1 <=? toordinal d2).
Proof.
  intros V1 V2. pose proof (gt_ordinal d1 d2 V1 V2) as G.
  destruct (Z.leb_spec (toordinal d1) (toordinal d2)); simpl.
  - destruct (gt d1 d2); [|reflexivity].
    assert (toordinal d2 < toordinal d1) by (apply G; reflexivity). lia.
  - apply G. assumption.
Qed.



(** X10: a watermark that cannot be read is not fatal, and sends the run
    back thirty days.  With the schema in place, when the connection of
    [get_last_date] opens and its query fails, the run goes on as on an
    empty dimension: it comes to the fetch for the window that starts
    thirty days before the current date, whatever dates the dimension
    holds. *)
Theorem X10_unreadable_watermark_refetches_thirty_days :
  forall (env : Env) (w0 w1 : World),
    prologue env w0 = (Ok tt, w1) ->
    fault env (clock w1) = false ->
    fault env (S (clock w1)) = true ->
    valid_date (today env) ->
    30 < toordinal (today env) ->
    exists start,
      add_days (today env) (-30) = Ok start
      /\ toordinal start = toordinal (today env) - 30
      /\ reaches_fetch env w0 start
           (snd (log INFO "Fetching data" (snd (get_last_date env w1))))
      /\ fst (get_last_date env w1) = Ok None.
Proof.
  intros env w0 w1 H1 F0 F1 Vt Ht.
  pose proof (valid_date_ordinal _ Vt) as (OT1 & OT2).
  destruct (get_last_date env w1) as [r w2] eqn:H2.
  pose proof (get_last_date_spec _ _ _ _ H2) as (_ & _ & Hok).
  destruct (Hok F0) as (last & -> & Hf & _).
  destruct (Hf F1) as (-> & _). simpl.
  exists (fromordinal (toordinal (today env) + -30)).
  assert (Hs : add_days (today env) (-30)
               = Ok (fromordinal (toordinal (today env) + -30))).
  { unfold add_days.
    destruct (Z.ltb_spec 0 (toordinal (today env) + -30)); [|lia].
    destruct (Z.leb_spec (toordinal (today env) + -30) MAXORDINAL);
      [reflexivity | lia]. }
  split; [exact Hs|].
  split; [rewrite toordinal_fromordinal; lia|].
  split; [|reflexivity].
  exists w1, None, w2. repeat split; auto.
  rewrite gt_by_ordinal.
  - rewrite toordinal_fromordinal.
    destruct (Z.leb_spec (toordinal (today env) + -30) (toordinal (today env)));
      [reflexivity | lia].
  - apply fromordinal_month_day.
  - now apply valid_fields_month_day.
Qed.

(** The statement on 2024-01-31 with a dimension that already ends on that
    day, the query of the watermark failing. *)
Lemma X10_unreadable_watermark_refetches_thirty_days_witness :
  exists start,
    add_days (today (Samples.failing_at 7)) (-30) = Ok start
    /\ toordinal start = toordinal (today (Samples.failing_at 7)) - 30
    /\ reaches_fetch (Samples.failing_at 7) (Samples.with_dates ["2024-01-31"])
         start
         (snd (log INFO "Fetching data"
                 (snd (get_last_date (Samples.failing_at 7)
                         (snd (prologue (Samples.failing_at 7)
                                 (Samples.with_dates ["2024-01-31"])))))))
    /\ fst (get_last_date (Samples.failing_at 7)
              (snd (prologue (Samples.failing_at 7)
                      (Samples.with_dates ["2024-01-31"])))) = Ok None.
Proof.
  apply X10_unreadable_watermark_refetches_thirty_days.
  - vm_compute; reflexivity.
  - reflexivity.
  - reflexivity.
  - reflexivity.
  - vm_compute; reflexivity.
Defined.

(** ** Nothing is ever changed or removed *)

Lemma appended_refl db : appended db db.
Proof. repeat split; exists []; now rewrite app_nil_r. Qed.

Lemma appended_trans a b c : appended a b -> appended b c -> appended a c.
Proof.
  intros ((d1 & D1) & (u1 & U1) & (c1 & C1) & (s1 & S1))
         ((d2 & D2) & (u2 & U2) & (c2 & C2) & (s2 & S2)).
  repeat split.
  - exists (d1 ++ d2)%list. now rewrite D2, D1, app_assoc.
  - exists (u1 ++ u2)%list. now rewrite U2, U1, app_assoc.
  - exists (c1 ++ c2)%list. now rewrite C2, C1, app_assoc.
  - exists (s1 ++ s2)%list. now rewrite S2, S1, app_assoc.
Qed.

Lemma same_rows_appended db db' : same_rows db db' -> appended db db'.
Proof.
  intros (D & U & C & S). repeat split; exists []; now rewrite app_nil_r.
Qed.

Lemma save_data_appended env data w r w' :
  save_data env data w = (r, w') -> appended (store w) (store w').
Proof.
  intros H. apply save_data_spec in H.
  destruct H as [((Fu & Fc & Fs) & G & _) | (date_map & Hc & _)].
  - split; [exact G|]. rewrite Fu, Fc, Fs.
    repeat split; exists []; now rewrite app_nil_r.
  - apply committed_resolved_rows in Hc.
    destruct Hc as (G & (us & cs & ss & RU & RC & RS & _) & _).
    split; [exact G|]. repeat split; eauto.
Qed.

(** X11: the pipeline only ever adds rows.  Whatever a call of [save_data]
    or a whole run of [main] does, and however it ends, each of the four
    tables afterwards is the table before with rows added at its end: no
    date row and no fact row is updated, removed or reordered. *)
Theorem X11_rows_are_only_added :
  forall (env : Env) (w : World),
    appended (store w) (store (snd (main env w)))
    /\ forall data, appended (store w) (store (snd (save_data env data w))).
Proof.
  intros env w. split.
  - unfold main.
    change (bind (log INFO "Starting GA4 relational data pipeline")
                 (fun _ => init_db env) w) with (prologue env w).
    destruct (prologue env w) as [[u|e] w1] eqn:Hp;
      apply prologue_spec in Hp; destruct Hp as (R & _);
      apply same_rows_appended in R; [|exact R].
    assert (Hrun : forall r w2, run env w1 = (r, w2) ->
                     appended (store w) (store w2)).
    { intros r w2 Hr. apply run_store in Hr.
      destruct Hr as [S | (data & w3 & r3 & w4 & S3 & Hs & S4)].
      - now rewrite S.
      - apply save_data_appended in Hs. rewrite S3 in Hs. rewrite S4.
        eapply appended_trans; eauto. }
    destruct (run env w1) as [[u'|e] w2] eqn:Hr; simpl;
      exact (Hrun _ _ eq_refl).
  - intros data. destruct (save_data env data w) as [r w'] eqn:H. simpl.
    eapply save_data_appended; eassumption.
Qed.

(** ** What a run can add to the trace *)

Lemma silent_ret A (a : A) : silent (ret a).
Proof. intros w r w' H; inversion H; auto. Qed.

Lemma silent_raise A e : silent (@raise A e).
Proof. intros w r w' H; inversion H; auto. Qed.

Lemma silent_lift A (x : result A) : silent (lift x).
Proof. intros w r w' H; inversion H; auto. Qed.

Lemma silent_get_store : silent get_store.
Proof. intros w r w' H; inversion H; auto. Qed.

Lemma silent_put_store db : silent (put_store db).
Proof. intros w r w' H; inversion H; auto. Qed.

Lemma silent_external env e : silent (external env e).
Proof. intros w r w' H; inversion H; auto. Qed.

Lemma silent_log l msg : silent (log l msg).
Proof. intros w r w' H; inversion H; auto. Qed.

Lemma silent_bind A B (m : M A) (k : A -> M B) :
  silent m -> (forall a, silent (k a)) -> silent (bind m k).
Proof.
  intros Hm Hk w r w' H. apply bind_inv in H.
  destruct H as [(a & w1 & H1 & H2) | (e & H1 & _)].
  - apply Hm in H1. apply Hk in H2. destruct H1, H2. split; congruence.
  - now apply Hm in H1.
Qed.

Lemma silent_try_except A (m : M A) (h : exn -> M A) :
  silent m -> (forall e, silent (h e)) -> silent (try_except m h).
Proof.
  intros Hm Hh w r w' H. unfold try_except in H.
  destruct (m w) as [[a|e] w1] eqn:E.
  - inversion H; subst. now apply Hm in E.
  - apply Hm in E. apply Hh in H. destruct E, H. split; congruence.
Qed.

Ltac silence :=
  repeat first
    [ apply silent_bind; [|intros ?]
    | apply silent_try_except; [|intros ?]
    | apply silent_ret | apply silent_raise | apply silent_lift
    | apply silent_get_store | apply silent_put_store
    | apply silent_external | apply silent_log ].

Lemma silent_get_or_create_date_id env d : silent (get_or_create_date_id env d).
Proof.
  unfold get_or_create_date_id, connect, query, execute, commit. silence.
  destruct a0; silence.
Qed.

Lemma silent_resolve_dates env l : forall m, silent (resolve_dates env l m).
Proof.
  induction l as [|d l IH]; simpl; intros m; [apply silent_ret|].
  apply silent_bind; [apply silent_get_or_create_date_id | intros; apply IH].
Qed.

Lemma silent_insert_rows env F (fact_of : entry -> result F) insert df :
  forall txn, silent (insert_rows env fact_of insert df txn).
Proof.
  induction df as [|row df IH]; simpl; intros txn; [apply silent_ret|].
  apply silent_bind; [apply silent_lift | intros f].
  apply silent_bind; [unfold execute; silence | intros; apply IH].
Qed.

Lemma silent_to_csv env file : silent (to_csv env file).
Proof.
  unfold to_csv. apply silent_bind; [apply silent_external|]. intros _.
  intros w r w' H; inversion H; auto.
Qed.

Lemma silent_export_all env tables : silent (export_all env tables).
Proof.
  induction tables as [|t l IH]; simpl; [apply silent_ret|].
  apply silent_bind; [apply silent_to_csv | intros; apply IH].
Qed.

Lemma silent_get_last_date env : silent (get_last_date env).
Proof.
  intros w r w' H. apply get_last_date_frame in H. tauto.
Qed.

(** [save_data] is entered once, and adds nothing else that counts. *)
Lemma save_data_trace env data w r w' :
  save_data env data w = (r, w') ->
  attempts (trace w') = attempts (trace w)
  /\ saves (trace w') = S (saves (trace w)).
Proof.
  unfold save_data. intros H.
  apply bind_inv in H. destruct H as [(u & w0 & He & H) | (e & He & _)];
    [|apply emit_inv in He; destruct He as ([=] & _)].
  apply emit_inv in He. destruct He as (_ & _ & _ & T0).
  assert (Hs : silent
    (bind (connect env) (fun _ =>
       try_except
         (bind (lift (collect_dates (values data) [])) (fun all_dates =>
          bind (resolve_dates env (set_order env all_dates) []) (fun date_map =>
          bind get_store (fun txn =>
          bind (insert_rows env (user_fact_of date_map) insert_user_fact
                  (data_users data) txn) (fun txn =>
          bind (insert_rows env (content_fact_of date_map) insert_content_fact
                  (data_content data) txn) (fun txn =>
          bind (insert_rows env (site_fact_of date_map) insert_site_fact
                  (data_site data) txn) (fun txn =>
          bind (commit env txn) (fun _ =>
          bind (log INFO "Successfully saved data") (fun _ =>
          export_all env ["users"; "content"; "site"])))))))))
         (fun e => bind (log ERROR "Data save failed") (fun _ => raise e))))).
  { unfold connect, commit.
    repeat first
      [ apply silent_resolve_dates | apply silent_insert_rows
      | apply silent_export_all
      | apply silent_bind; [|intros ?]
      | apply silent_try_except; [|intros ?]
      | apply silent_ret | apply silent_raise | apply silent_lift
      | apply silent_get_store | apply silent_put_store
      | apply silent_external | apply silent_log ]. }
  apply Hs in H. destruct H as (A & V). rewrite A, V, T0.
  unfold attempts, saves; simpl. auto.
Qed.

(** X12: a run makes at most three fetch attempts and enters the writer at
    most once, however it ends; and the writer, once entered, makes no
    fetch attempt. *)
Theorem X12_at_most_three_attempts_and_one_save :
  forall (env : Env) (w : World),
    (attempts (trace (snd (main env w))) <= attempts (trace w) + 3)%nat
    /\ (saves (trace (snd (main env w))) <= saves (trace w) + 1)%nat
    /\ forall data,
         attempts (trace (snd (save_data env data w))) = attempts (trace w).
Proof.
  intros env w.
  assert (Hsave : forall data v r v', save_data env data v = (r, v') ->
            attempts (trace v') = attempts (trace v)
            /\ saves (trace v') = S (saves (trace v)))
    by (intros; eapply save_data_trace; eauto).
  assert (Hrun : forall v r v', run env v = (r, v') ->
            (attempts (trace v') <= attempts (trace v) + 3)%nat
            /\ (saves (trace v') <= saves (trace v) + 1)%nat).
  { intros v r v'. unfold run. intros H.
    apply bind_inv in H. destruct H as [(last & w1 & Hl & H) | (e & Hl & ->)].
    2:{ apply get_last_date_frame in Hl. lia. }
    apply get_last_date_frame in Hl. destruct Hl as (_ & A1 & V1).
    apply bind_inv in H. destruct H as [(start & w2 & Hw & H) | (e & Hw & ->)].
    2:{ apply lift_inv in Hw. destruct Hw as (_ & ->). lia. }
    apply lift_inv in Hw. destruct Hw as (_ & ->).
    destruct (gt start (today env)).
    { apply silent_log in H. lia. }
    apply bind_inv in H. destruct H as [(u & w3 & He & H) | (e & He & ->)];
      [|apply silent_log in He; lia].
    apply silent_log in He. destruct He as (A3 & V3).
    apply bind_inv in H. destruct H as [(data & w4 & Hf & H) | (e & Hf & ->)].
    2:{ apply fetch_ga4_data_spec in Hf. lia. }
    apply fetch_ga4_data_spec in Hf. destruct Hf as (_ & V4 & A4 & _).
    destruct (negb _).
    { apply silent_log in H. lia. }
    apply bind_inv in H. destruct H as [(u' & w5 & Hs & H) | (e & Hs & ->)].
    - apply Hsave in Hs. apply silent_log in H. lia.
    - apply Hsave in Hs. lia. }
  split; [|split].
  - unfold main.
    change (bind (log INFO "Starting GA4 relational data pipeline")
                 (fun _ => init_db env) w) with (prologue env w).
    destruct (prologue env w) as [[u|e] w1] eqn:Hp;
      apply prologue_spec in Hp; destruct Hp as (_ & A & V & _);
      [|simpl; lia].
    destruct (run env w1) as [[u'|e] w2] eqn:Hr; apply Hrun in Hr; simpl;
      unfold attempts in *; simpl; lia.
  - unfold main.
    change (bind (log INFO "Starting GA4 relational data pipeline")
                 (fun _ => init_db env) w) with (prologue env w).
    destruct (prologue env w) as [[u|e] w1] eqn:Hp;
      apply prologue_spec in Hp; destruct Hp as (_ & A & V & _);
      [|simpl; lia].
    destruct (run env w1) as [[u'|e] w2] eqn:Hr; apply Hrun in Hr; simpl;
      unfold saves in *; simpl; lia.
  - intros data. destruct (save_data env data w) as [r w'] eqn:H. simpl.
    apply Hsave in H. tauto.
Qed.

(** ** What a successful save leaves *)

Lemma try_reraise_ok_inv A (m : M A) msg w a w' :
  try_except m (fun e => bind (log ERROR msg) (fun _ => raise e)) w = (Ok a, w') ->
  m w = (Ok a, w').
Proof.
  unfold try_except. destruct (m w) as [[x|e] w1]; intros H.
  - exact H.
  - cbv in H. discriminate.
Qed.

Lemma export_three env w w' :
  export_all env ["users"; "content"; "site"] w = (Ok tt, w') ->
  store w' = store w
  /\ trace w' = ToCsv "site_metrics.csv" :: ToCsv "content_metrics.csv"
                :: ToCsv "users_metrics.csv" :: trace w.
Proof.
  cbv beta iota delta [export_all to_csv bind emit ret external]; simpl.
  repeat match goal with
    | |- context [if fault env ?c then _ else _] =>
        destruct (fault env c); simpl
    end;
    intros H; inversion H; subst; simpl; auto.
Qed.

(** The steps of a call of [save_data] that has returned. *)
Lemma save_data_ok_inv env data w w' :
  save_data env data w = (Ok tt, w') ->
  exists all_dates date_map w1 w2,
    collect_dates (values data) [] = Ok all_dates
    /\ store w1 = store w
    /\ resolve_dates env (set_order env all_dates) [] w1 = (Ok date_map, w2)
    /\ dimension (store w') = dimension (store w2)
    /\ trace w' = ToCsv "site_metrics.csv" :: ToCsv "content_metrics.csv"
                  :: ToCsv "users_metrics.csv"
                  :: Log INFO "Successfully saved data" :: trace w2.
Proof.
  unfold save_data. intros H.
  apply bind_ok_inv in H. destruct H as (u0 & w0 & He & H).
  apply emit_inv in He. destruct He as (_ & S0 & _).
  apply bind_ok_inv in H. destruct H as (u1 & w1 & Hc & H).
  apply external_inv in Hc. destruct Hc as (S1 & _).
  apply try_reraise_ok_inv in H.
  apply bind_ok_inv in H. destruct H as (all_dates & wa & Hl & H).
  apply lift_inv in Hl. destruct Hl as (Hl & ->).
  apply bind_ok_inv in H. destruct H as (date_map & w2 & Hr & H).
  exists all_dates, date_map, w1, w2.
  split; [auto|]. split; [congruence|]. split; [exact Hr|].
  apply bind_ok_inv in H. destruct H as (t0 & wc & Hg & H).
  unfold get_store in Hg. inversion Hg; subst t0 wc; clear Hg.
  apply bind_ok_inv in H. destruct H as (t1 & wd & Hi & H).
  apply insert_rows_spec in Hi. destruct Hi as (Sd & Td & Hu).
  destruct (Hu t1 eq_refl) as (ufs & _ & IU). clear Hu.
  apply bind_ok_inv in H. destruct H as (t2 & we & Hi & H).
  apply insert_rows_spec in Hi. destruct Hi as (Se & Te & Hc).
  destruct (Hc t2 eq_refl) as (cfs & _ & IC). clear Hc.
  apply bind_ok_inv in H. destruct H as (t3 & wf & Hi & H).
  apply insert_rows_spec in Hi. destruct Hi as (Sf & Tf & Hs).
  destruct (Hs t3 eq_refl) as (sfs & _ & IS). clear Hs.
  apply bind_ok_inv in H. destruct H as (u2 & wg & Hc & H).
  unfold commit in Hc. apply bind_ok_inv in Hc. destruct Hc as (u3 & wh & He & Hp).
  apply external_inv in He. destruct He as (_ & Th & _).
  unfold put_store in Hp. inversion Hp; subst wg; clear Hp.
  apply bind_ok_inv in H. destruct H as (u4 & wi & Hl' & H).
  apply emit_inv in Hl'. destruct Hl' as (_ & Si & _ & Ti). simpl in Si, Ti.
  apply export_three in H. destruct H as (Sx & Tx).
  apply insert_all_users in IU. destruct IU as (D1 & _).
  apply insert_all_content in IC. destruct IC as (D2 & _).
  apply insert_all_site in IS. destruct IS as (D3 & _).
  split.
  - unfold dimension. rewrite Sx, Si. congruence.
  - rewrite Tx, Ti. congruence.
Qed.

Lemma run_ok_inv env v v' :
  run env v = (Ok tt, v') ->
  store v' = store v
  \/ exists data w3 w4,
       store w3 = store v
       /\ save_data env data w3 = (Ok tt, w4)
       /\ v' = snd (log INFO "Pipeline completed successfully" w4).
Proof.
  unfold run. intros H.
  apply bind_ok_inv in H. destruct H as (last & w1 & Hl & H).
  apply get_last_date_frame in Hl. destruct Hl as (S1 & _).
  apply bind_ok_inv in H. destruct H as (start & w2 & Hw & H).
  apply lift_inv in Hw. destruct Hw as (_ & ->).
  destruct (gt start (today env)).
  { apply emit_inv in H. destruct H as (_ & S2 & _). left. congruence. }
  apply bind_ok_inv in H. destruct H as (u & w3 & He & H).
  apply emit_inv in He. destruct He as (_ & S3 & _).
  apply bind_ok_inv in H. destruct H as (data & w4 & Hf & H).
  apply fetch_ga4_data_spec in Hf. destruct Hf as (S4 & _).
  destruct (negb _).
  { apply emit_inv in H. destruct H as (_ & S5 & _). left. congruence. }
  apply bind_ok_inv in H. destruct H as ([] & w5 & Hs & H).
  right. exists data, w4, w5. split; [congruence|]. split; [exact Hs|].
  unfold log, emit in *. now inversion H.
Qed.

(** X13: a run that reports success has written nothing, or all of it.
    When [main] ends with status 0, either the rows of every table are what
    they were, or exactly one call of [save_data] has returned: its
    transaction is committed whole (every record of the three frames has
    its fact row, each referring to the dimension row of its date) and the
    three export files have been written after the commit. *)
Theorem X13_status_zero_means_nothing_or_everything :
  forall (env : Env) (w : World),
    fst (main env w) = 0 ->
    same_rows (store w) (store (snd (main env w)))
    \/ exists data w3 rest,
         same_rows (store w) (store w3)
         /\ resolved_rows data (store w3) (store (snd (main env w)))
         /\ grows (store w3) (store (snd (main env w)))
         /\ trace (snd (main env w))
            = Log INFO "Pipeline completed successfully"
              :: ToCsv "site_metrics.csv" :: ToCsv "content_metrics.csv"
              :: ToCsv "users_metrics.csv"
              :: Log INFO "Successfully saved data" :: rest.
Proof.
  intros env w. unfold main.
  change (bind (log INFO "Starting GA4 relational data pipeline")
               (fun _ => init_db env) w) with (prologue env w).
  destruct (prologue env w) as [[u|e] w1] eqn:Hp; [|discriminate].
  apply prologue_spec in Hp. destruct Hp as (R & _).
  destruct (run env w1) as [[[]|e] w2] eqn:Hr; [|discriminate].
  intros _. simpl. apply run_ok_inv in Hr.
  destruct Hr as [S | (data & w3 & w4 & S3 & Hs & ->)].
  - left. now rewrite S.
  - right. pose proof (save_data_ok_inv _ _ _ _ Hs)
      as (all_dates & date_map & wa & wb & _ & _ & _ & _ & T).
    apply save_data_spec in Hs.
    destruct Hs as [(_ & _ & _ & e & [=] & _) | (dm & Hc & _)].
    apply committed_resolved_rows in Hc. destruct Hc as (G & RR & _).
    exists data, w3, (trace wb). simpl.
    split; [now rewrite S3|]. split; [exact RR|]. split; [exact G|].
    now rewrite T.
Qed.

(** The statement on the run of the end-to-end scenario. *)
Lemma X13_status_zero_means_nothing_or_everything_witness :
  same_rows (store Samples.fresh)
    (store (snd (main Samples.quiet_env Samples.fresh)))
  \/ exists data w3 rest,
       same_rows (store Samples.fresh) (store w3)
       /\ resolved_rows data (store w3)
            (store (snd (main Samples.quiet_env Samples.fresh)))
       /\ grows (store w3) (store (snd (main Samples.quiet_env Samples.fresh)))
       /\ trace (snd (main Samples.quiet_env Samples.fresh))
          = Log INFO "Pipeline completed successfully"
            :: ToCsv "site_metrics.csv" :: ToCsv "content_metrics.csv"
            :: ToCsv "users_metrics.csv"
            :: Log INFO "Successfully saved data" :: rest.
Proof.
  apply X13_status_zero_means_nothing_or_everything.
  vm_compute; reflexivity.
Defined.

(** ** Saving the same data again *)

Lemma resolve_dates_registers env l : forall m w m' w',
  resolve_dates env l m w = (Ok m', w') ->
  forall d, In d l -> date_id_of d (store w') <> None.
Proof.
  induction l as [|d0 l IH]; simpl; intros m w m' w' H d Hin; [tauto|].
  apply bind_ok_inv in H. destruct H as (i & w1 & Hg & H).
  destruct Hin as [->|Hin].
  - apply get_or_create_date_id_registers in Hg.
    apply resolve_dates_spec in H. destruct H as (G & _).
    rewrite (date_id_of_grows _ _ _ _ G Hg). discriminate.
  - eapply IH; eassumption.
Qed.

Lemma resolve_dates_present env l : forall m w r w',
  (forall d, In d l -> date_id_of d (store w) <> None) ->
  resolve_dates env l m w = (r, w') -> store w' = store w.
Proof.
  induction l as [|d0 l IH]; simpl; intros m w r w' Hall H.
  - now inversion H.
  - assert (Hhit : forall r1 w1, get_or_create_date_id env d0 w = (r1, w1) ->
                     store w1 = store w).
    { intros r1 w1 Hg. apply get_or_create_date_id_spec in Hg.
      destruct Hg as (_ & [(S & _) | (i & _ & Hnone & _)]); [exact S|].
      exfalso. apply (Hall d0); auto. }
    apply bind_inv in H. destruct H as [(i & w1 & Hg & H) | (e & Hg & _)].
    + pose proof (Hhit _ _ Hg) as S1.
      apply IH in H; [congruence|].
      intros d Hd. rewrite S1. apply Hall; auto.
    + eapply Hhit; eassumption.
Qed.

Lemma date_id_of_same_dimension d db db' :
  dimension db' = dimension db -> date_id_of d db' = date_id_of d db.
Proof. unfold date_id_of; now intros ->. Qed.

Lemma resolved_rows_lengths data before after :
  resolved_rows data before after ->
  List.length (rows_of (user_interaction after))
  = (List.length (rows_of (user_interaction before))
     + List.length (data_users data))%nat
  /\ List.length (rows_of (content_metrics after))
     = (List.length (rows_of (content_metrics before))
        + List.length (data_content data))%nat
  /\ List.length (rows_of (site_data after))
     = (List.length (rows_of (site_data before))
        + List.length (data_site data))%nat.
Proof.
  intros (us & cs & ss & RU & RC & RS & FU & FC & FS).
  rewrite RU, RC, RS, !length_app.
  apply Forall2_length in FU, FC, FS. lia.
Qed.

Lemma save_data_ok_rows env data w w' :
  save_data env data w = (Ok tt, w') -> resolved_rows data (store w) (store w').
Proof.
  intros H. apply save_data_spec in H.
  destruct H as [(_ & _ & _ & e & [=] & _) | (dm & Hc & _)].
  now apply committed_resolved_rows in Hc.
Qed.

(** X14: dates are deduplicated, facts are not.  When [save_data] returns
    a second time for the same data (at once or in a later process, the
    database being as the first call left it), the dimension is exactly
    what the first call left -- every date is found by the lookup -- while
    each fact table has received the rows of its frame once more. *)
Theorem X14_saving_again_duplicates_the_facts :
  forall (env : Env) (data : Data) (w w1 v w2 : World),
    save_data env data w = (Ok tt, w1) ->
    store v = store w1 ->
    save_data env data v = (Ok tt, w2) ->
    dimension (store w2) = dimension (store w1)
    /\ List.length (rows_of (user_interaction (store w2)))
       = (List.length (rows_of (user_interaction (store w)))
          + 2 * List.length (data_users data))%nat
    /\ List.length (rows_of (content_metrics (store w2)))
       = (List.length (rows_of (content_metrics (store w)))
          + 2 * List.length (data_content data))%nat
    /\ List.length (rows_of (site_data (store w2)))
       = (List.length (rows_of (site_data (store w)))
          + 2 * List.length (data_site data))%nat.
Proof.
  intros env data w w1 v w2 H1 Sv H2.
  pose proof (save_data_ok_inv _ _ _ _ H1)
    as (l1 & m1 & a1 & b1 & C1 & Sa1 & R1 & D1 & _).
  pose proof (save_data_ok_inv _ _ _ _ H2)
    as (l2 & m2 & a2 & b2 & C2 & Sa2 & R2 & D2 & _).
  assert (l2 = l1) by congruence. subst l2.
  pose proof (resolve_dates_registers _ _ _ _ _ _ R1) as Reg.
  assert (Hall : forall d, In d (set_order env l1) ->
                   date_id_of d (store a2) <> None).
  { intros d Hd. rewrite Sa2, Sv.
    rewrite (date_id_of_same_dimension d _ _ D1). now apply Reg. }
  pose proof (resolve_dates_present _ _ _ _ _ _ Hall R2) as Sb2.
  split.
  - rewrite D2. unfold dimension. now rewrite Sb2, Sa2, Sv.
  - pose proof (resolved_rows_lengths _ _ _ (save_data_ok_rows _ _ _ _ H1))
      as (U1 & K1 & T1).
    pose proof (resolved_rows_lengths _ _ _ (save_data_ok_rows _ _ _ _ H2))
      as (U2 & K2 & T2).
    rewrite Sv in U2, K2, T2. lia.
Qed.

(** The statement on the scenario's data, saved twice, the second time in
    a new process. *)
Lemma X14_saving_again_duplicates_the_facts_witness :
  let w1 := snd (save_data Samples.quiet_env Samples.scenario_data
                   Samples.initialised) in
  let w2 := snd (save_data Samples.quiet_env Samples.scenario_data
                   (mkWorld (store w1) 0 [])) in
  dimension (store w2) = dimension (store w1)
  /\ List.length (rows_of (user_interaction (store w2))) = 2%nat.
Proof.
  intros w1 w2.
  destruct (X14_saving_again_duplicates_the_facts Samples.quiet_env
              Samples.scenario_data Samples.initialised w1
              (mkWorld (store w1) 0 []) w2) as (D & U & _).
  - vm_compute; reflexivity.
  - reflexivity.
  - vm_compute; reflexivity.
  - split; [exact D | exact U].
Defined.

(** ** When the writer succeeds *)

Lemma max_rowid_snoc R (l : list (Z * R)) i r :
  max_rowid (l ++ [(i, r)]) = Z.max (max_rowid l) (Z.max i 0).
Proof.
  unfold max_rowid. induction l as [|a l IH]; cbn [fold_right app fst].
  - lia.
  - rewrite IH. lia.
Qed.

Lemma insert_auto_room R (r : R) (t : table R) n :
  top_rowid t + Z.of_nat (S n) <= MAX_ROWID ->
  exists t',
    insert_auto r t = Ok (top_rowid t + 1, t')
    /\ rows t' = (rows t ++ [(top_rowid t + 1, r)])%list
    /\ top_rowid t' = top_rowid t + 1.
Proof.
  intros H. unfold insert_auto. fold (top_rowid t).
  destruct (MAX_ROWID <=? top_rowid t) eqn:E.
  { apply Z.leb_le in E. lia. }
  eexists. split; [reflexivity|]. split; [reflexivity|].
  unfold top_rowid at 1. cbn [Sqlite.seq rows]. rewrite max_rowid_snoc.
  pose proof (max_rowid_nonneg _ (rows t)). unfold top_rowid in *. lia.
Qed.

Lemma external_ok env e w :
  no_fault env ->
  external env e w = (Ok tt, mkWorld (store w) (S (clock w)) (trace w)).
Proof. intros H. unfold external. now rewrite H. Qed.

Lemma bind_ok A B (m : M A) (k : A -> M B) w a w1 :
  m w = (Ok a, w1) -> bind m k w = k a w1.
Proof. unfold bind. now intros ->. Qed.

Lemma try_except_ok A (m : M A) h w a w1 :
  m w = (Ok a, w1) -> try_except m h w = (Ok a, w1).
Proof. unfold try_except. now intros ->. Qed.

Lemma top_rowid_fits R (t : table R) :
  top_rowid t < MAX_ROWID -> fits_int64 (top_rowid t + 1) = true.
Proof.
  intros H. pose proof (max_rowid_nonneg _ (rows t)).
  unfold fits_int64, top_rowid, MAX_ROWID in *.
  apply andb_true_iff. split; apply Z.leb_le; lia.
Qed.

(** A resolution in a dimension with room for one more row. *)
Lemma get_or_create_date_id_ok env d w t :
  no_fault env -> dates (store w) = Some t -> top_rowid t < MAX_ROWID ->
  exists i w' t',
    get_or_create_date_id env d w = (Ok i, w')
    /\ dates (store w') = Some t'
    /\ top_rowid t' <= top_rowid t + 1
    /\ (Forall (fun r => fits_int64 (fst r) = true) (rows t) ->
        Forall (fun r => fits_int64 (fst r) = true) (rows t'))
    /\ user_interaction (store w') = user_interaction (store w)
    /\ content_metrics (store w') = content_metrics (store w)
    /\ site_data (store w') = site_data (store w).
Proof.
  intros Hnf Ht Htop. unfold get_or_create_date_id, connect.
  erewrite bind_ok by (apply external_ok, Hnf).
  unfold query.
  destruct (find (fun r => String.eqb (snd r) d) (rows t)) as [row|] eqn:Hf.
  - exists (fst row). eexists. exists t.
    split.
    + apply try_except_ok.
      erewrite bind_ok.
      2:{ erewrite bind_ok by (apply external_ok, Hnf).
          unfold get_store, bind, lift. cbn [store].
          unfold select_date_id, the_table. rewrite Ht, Hf. reflexivity. }
      reflexivity.
    + cbn [store]. repeat split; auto. lia.
  - destruct (insert_auto_room _ d t 0) as (t' & Hi & Hr & Htop').
    { change (Z.of_nat 1) with 1. lia. }
    exists (top_rowid t + 1). eexists. exists t'.
    split.
    + apply try_except_ok.
      erewrite bind_ok.
      2:{ erewrite bind_ok by (apply external_ok, Hnf).
          unfold get_store, bind, lift. cbn [store].
          unfold select_date_id, the_table. rewrite Ht, Hf. reflexivity. }
      cbn [option_map].
      erewrite bind_ok by reflexivity.
      erewrite bind_ok.
      2:{ unfold execute. erewrite bind_ok by (apply external_ok, Hnf).
          unfold lift. cbn [store]. unfold insert_date, the_table.
          rewrite Ht.
          assert (Hex : existsb (fun r => String.eqb (snd r) d) (rows t) = false).
          { clear -Hf. induction (rows t) as [|a l IH]; simpl in *; [reflexivity|].
            destruct (String.eqb (snd a) d); [discriminate | auto]. }
          rewrite Hex, Hi. reflexivity. }
      cbn [fst snd]. unfold commit.
      erewrite bind_ok.
      2:{ erewrite bind_ok by (apply external_ok, Hnf). reflexivity. }
      reflexivity.
    + cbn [store dates user_interaction content_metrics site_data].
      repeat split; auto; [lia|].
      intros HF. rewrite Hr. apply Forall_app. split; [exact HF|].
      constructor; [|constructor]. cbn [fst]. now apply top_rowid_fits.
Qed.

Lemma dict_get_cons_same m d i : dict_get ((d, i) :: m) d = Ok i.
Proof. unfold dict_get; cbn [find fst snd]. now rewrite String.eqb_refl. Qed.

Lemma dict_get_cons_key m d0 i0 d :
  (exists i, dict_get m d = Ok i) -> exists i, dict_get ((d0, i0) :: m) d = Ok i.
Proof.
  intros (i & H). unfold dict_get in *; cbn [find fst snd].
  destruct (String.eqb d0 d); eauto.
Qed.

(** The resolution loop in a dimension with room for every date. *)
Lemma resolve_dates_ok env l : forall m w t,
  no_fault env -> dates (store w) = Some t ->
  top_rowid t + Z.of_nat (List.length l) <= MAX_ROWID ->
  exists m' w' t',
    resolve_dates env l m w = (Ok m', w')
    /\ dates (store w') = Some t'
    /\ (Forall (fun r => fits_int64 (fst r) = true) (rows t) ->
        Forall (fun r => fits_int64 (fst r) = true) (rows t'))
    /\ user_interaction (store w') = user_interaction (store w)
    /\ content_metrics (store w') = content_metrics (store w)
    /\ site_data (store w') = site_data (store w)
    /\ forall d, In d l \/ (exists i, dict_get m d = Ok i) ->
                 exists i, dict_get m' d = Ok i.
Proof.
  induction l as [|d0 l IH]; intros m w t Hnf Ht Hroom.
  - exists m, w, t. cbn [resolve_dates]. unfold ret.
    repeat split; auto. intros d [[]|H]; exact H.
  - cbn [List.length] in Hroom.
    destruct (get_or_create_date_id_ok env d0 w t Hnf Ht)
      as (i & w1 & t1 & Hg & Ht1 & Htop1 & HF1 & U1 & C1 & S1); [lia|].
    destruct (IH ((d0, i) :: m) w1 t1 Hnf Ht1)
      as (m' & w' & t' & Hr & Ht' & HF' & U' & C' & S' & K); [lia|].
    exists m', w', t'. cbn [resolve_dates].
    erewrite bind_ok by exact Hg.
    split; [exact Hr|]. split; [exact Ht'|]. split; [auto|].
    split; [congruence|]. split; [congruence|]. split; [congruence|].
    intros d [[<-|Hin]|Hk]; apply K; auto.
    + right. eexists. apply dict_get_cons_same.
    + right. now apply dict_get_cons_key.
Qed.

Lemma set_add_in x y s : In x (set_add y s) <-> x = y \/ In x s.
Proof.
  unfold set_add. destruct (existsb (String.eqb y) s) eqn:E.
  - split; [auto|]. intros [->|H]; [|exact H].
    apply existsb_exists in E. destruct E as (z & Hz & Hyz).
    apply String.eqb_eq in Hyz. now subst.
  - rewrite in_app_iff. cbn [In]. intuition.
Qed.

Lemma set_add_length y s : (List.length (set_add y s) <= S (List.length s))%nat.
Proof.
  unfold set_add. destruct (existsb _ s); [lia|].
  rewrite length_app. cbn [List.length]. lia.
Qed.

Lemma set_update_in xs : forall s x,
  In x (set_update s xs) <-> In x s \/ In x xs.
Proof.
  unfold set_update. induction xs as [|y xs IH]; intros s x; cbn [fold_left In].
  - tauto.
  - rewrite IH, set_add_in. intuition.
Qed.

Lemma set_update_length xs : forall s,
  (List.length (set_update s xs) <= List.length s + List.length xs)%nat.
Proof.
  unfold set_update. induction xs as [|y xs IH]; intros s;
    cbn [fold_left List.length]; [lia|].
  specialize (IH (set_add y s)). pose proof (set_add_length y s). lia.
Qed.

(** The dates of frames none of which is empty. *)
Lemma collect_dates_ok data :
  data_users data <> [] -> data_content data <> [] -> data_site data <> [] ->
  exists all_dates,
    collect_dates (values data) [] = Ok all_dates
    /\ (forall e, In e (data_users data) \/ In e (data_content data)
                  \/ In e (data_site data) -> In (entry_date e) all_dates)
    /\ (List.length all_dates
        <= List.length (data_users data) + List.length (data_content data)
           + List.length (data_site data))%nat.
Proof.
  intros Hu Hc Hs.
  assert (Hcol : forall df, df <> [] ->
            date_column_unique df = Ok (set_update [] (map entry_date df))).
  { intros [|a df] H; [contradiction | reflexivity]. }
  unfold values. cbn [collect_dates]. rewrite !Hcol by assumption.
  cbn [rbind]. eexists. split; [reflexivity|]. split.
  - intros e H. rewrite !set_update_in.
    destruct H as [H|[H|H]]; apply (in_map entry_date) in H; tauto.
  - set (u := map entry_date (data_users data)).
    set (c := map entry_date (data_content data)).
    set (s := map entry_date (data_site data)).
    pose proof (set_update_length u []) as H1.
    pose proof (set_update_length c []) as H2.
    pose proof (set_update_length s []) as H3.
    pose proof (set_update_length (set_update [] u) []) as H4.
    pose proof (set_update_length (set_update [] c)
                  (set_update [] (set_update [] u))) as H5.
    pose proof (set_update_length (set_update [] s)
                  (set_update (set_update [] (set_update [] u))
                     (set_update [] c))) as H6.
    unfold u, c, s in *. rewrite !length_map in *.
    cbn [List.length] in *. lia.
Qed.

(** One of the insertion loops, each step of which goes through. *)
Lemma insert_rows_ok env F (fact_of : entry -> result F)
      (insert : F -> DB -> result DB)
      (Inv : nat -> DB -> Prop) (good : entry -> Prop) :
  no_fault env ->
  (forall row n txn, good row -> Inv (S n) txn ->
     exists f txn', fact_of row = Ok f /\ insert f txn = Ok txn' /\ Inv n txn') ->
  forall df txn w, Forall good df -> Inv (List.length df) txn ->
    exists txn' w',
      insert_rows env fact_of insert df txn w = (Ok txn', w')
      /\ Inv 0%nat txn' /\ store w' = store w.
Proof.
  intros Hnf Hstep. induction df as [|row rest IH]; intros txn w Hg Hi.
  - exists txn, w. now repeat split.
  - inversion Hg as [|? ? Hrow Hrest]; subst.
    destruct (Hstep row (List.length rest) txn Hrow Hi) as (f & txn1 & Hf & Hins & Hi1).
    destruct (IH txn1 (mkWorld (store w) (S (clock w)) (trace w)) Hrest Hi1)
      as (txn' & w' & Hr & Hi' & Hs).
    exists txn', w'. cbn [insert_rows].
    erewrite bind_ok by (unfold lift; rewrite Hf; reflexivity).
    erewrite bind_ok.
    2:{ unfold execute. erewrite bind_ok by (apply external_ok, Hnf).
        unfold lift. rewrite Hins. reflexivity. }
    now repeat split.
Qed.

Lemma room_step R (f : R) (o : option (table R)) n :
  room o (S n) ->
  exists t t', o = Some t /\ insert_auto f t = Ok (top_rowid t + 1, t')
               /\ room (Some t') n.
Proof.
  intros (t & -> & H).
  destruct (insert_auto_room _ f t n H) as (t' & Hi & _ & Htop).
  exists t, t'. split; [reflexivity|]. split; [exact Hi|].
  exists t'. split; [reflexivity|]. rewrite Htop. lia.
Qed.

Lemma user_step m e n db :
  storable_user e = true ->
  (exists i, dict_get m (entry_date e) = Ok i /\ fits_int64 i = true) ->
  room (user_interaction db) (S n) ->
  exists f db',
    user_fact_of m e = Ok f /\ insert_user_fact f db = Ok db'
    /\ room (user_interaction db') n
    /\ content_metrics db' = content_metrics db
    /\ site_data db' = site_data db.
Proof.
  intros Hs (i & Hi & Hfit) Hroom.
  destruct e; try discriminate. cbn [storable_user entry_date] in Hs, Hi.
  apply andb_true_iff in Hs. destruct Hs as (Hs & H3).
  apply andb_true_iff in Hs. destruct Hs as (H1 & H2).
  eexists. 
  destruct (room_step _ (mkuser_fact i users sessions engagement_rate
                           conversions average_session_duration)
              _ _ Hroom) as (t & t' & Ht & Hins & Hr').
  eexists. split.
  { unfold user_fact_of, row_str, row_int, row_float, rbind; simpl.
    rewrite Hi. reflexivity. }
  unfold insert_user_fact.
  cbn [uf_date_id uf_users uf_sessions uf_conversions].
  rewrite Hfit, H1, H2, H3. cbn [andb negb]. rewrite Ht. unfold the_table.
  rewrite Hins. split; [reflexivity|].
  cbn [user_interaction content_metrics site_data]. auto.
Qed.

Lemma content_step m e n db :
  storable_content e = true ->
  (exists i, dict_get m (entry_date e) = Ok i /\ fits_int64 i = true) ->
  room (content_metrics db) (S n) ->
  exists f db',
    content_fact_of m e = Ok f /\ insert_content_fact f db = Ok db'
    /\ room (content_metrics db') n
    /\ site_data db' = site_data db.
Proof.
  intros Hs (i & Hi & Hfit) Hroom.
  destruct e; try discriminate. cbn [storable_content entry_date] in Hs, Hi.
  apply andb_true_iff in Hs. destruct Hs as (H1 & H2).
  eexists.
  destruct (room_step _ (mkcontent_fact i page_title page_views sessions
                           engagement_rate session_duration)
              _ _ Hroom) as (t & t' & Ht & Hins & Hr').
  eexists. split.
  { unfold content_fact_of, row_str, row_int, row_float, rbind; simpl.
    rewrite Hi. reflexivity. }
  unfold insert_content_fact.
  cbn [cf_date_id cf_page_views cf_content_sessions].
  rewrite Hfit, H1, H2. cbn [andb negb]. rewrite Ht. unfold the_table.
  rewrite Hins. split; [reflexivity|].
  cbn [user_interaction content_metrics site_data]. auto.
Qed.

Lemma site_step m e n db :
  storable_site e = true ->
  (exists i, dict_get m (entry_date e) = Ok i /\ fits_int64 i = true) ->
  room (site_data db) (S n) ->
  exists f db',
    site_fact_of m e = Ok f /\ insert_site_fact f db = Ok db'
    /\ room (site_data db') n.
Proof.
  intros Hs (i & Hi & Hfit) Hroom.
  destruct e; try discriminate. cbn [storable_site entry_date] in Hs, Hi.
  apply andb_true_iff in Hs. destruct Hs as (H1 & H2).
  eexists.
  destruct (room_step _ (mksite_fact i search_Term clicks impressions)
              _ _ Hroom) as (t & t' & Ht & Hins & Hr').
  eexists. split.
  { unfold site_fact_of, row_str, row_int, row_float, rbind; simpl.
    rewrite Hi. reflexivity. }
  unfold insert_site_fact.
  cbn [sf_date_id sf_clicks sf_impressions].
  rewrite Hfit, H1, H2. cbn [andb negb]. rewrite Ht. unfold the_table.
  rewrite Hins. split; [reflexivity|].
  cbn [user_interaction content_metrics site_data]. auto.
Qed.

Lemma export_all_ok env w :
  no_fault env ->
  fst (export_all env ["users"; "content"; "site"] w) = Ok tt.
Proof.
  intros Hnf.
  cbv beta iota delta [export_all to_csv bind emit ret external]; simpl.
  now rewrite !Hnf.
Qed.

Lemma export_all_returns env w :
  no_fault env ->
  export_all env ["users"; "content"; "site"] w
  = (Ok tt, snd (export_all env ["users"; "content"; "site"] w)).
Proof.
  intros Hnf. pose proof (export_all_ok env w Hnf) as H.
  destruct (export_all env _ w) as [r w']. cbn [fst snd] in *. now subst.
Qed.

(** X15: the conditions under which the writer goes through.  When no
    external operation fails, the set of dates is iterated as some
    arrangement of its elements, none of the three frames is empty, every
    record is of the kind of its frame with integers in the 64-bit range,
    and the four tables exist with identifiers left for the rows to come,
    [save_data] returns normally and every record has its fact row. *)
Theorem X15_save_succeeds_on_complete_data :
  forall (env : Env) (data : Data) (w : World),
    no_fault env ->
    (forall l, Permutation l (set_order env l)) ->
    data_users data <> [] -> data_content data <> [] -> data_site data <> [] ->
    Forall (fun e => storable_user e = true) (data_users data) ->
    Forall (fun e => storable_content e = true) (data_content data) ->
    Forall (fun e => storable_site e = true) (data_site data) ->
    rowids_fit (store w) ->
    room (dates (store w))
         (List.length (data_users data) + List.length (data_content data)
          + List.length (data_site data)) ->
    room (user_interaction (store w)) (List.length (data_users data)) ->
    room (content_metrics (store w)) (List.length (data_content data)) ->
    room (site_data (store w)) (List.length (data_site data)) ->
    fst (save_data env data w) = Ok tt
    /\ resolved_rows data (store w) (store (snd (save_data env data w))).
Proof.
  intros env data w Hnf Hperm Hu Hc Hs Su Sc Ss Hfit Rd Ru Rc Rs.
  assert (Hok : fst (save_data env data w) = Ok tt).
  2:{ split; [exact Hok|].
      destruct (save_data env data w) as [r w'] eqn:E. cbn [fst snd] in *.
      subst r. now apply save_data_ok_rows in E. }
  destruct (collect_dates_ok data Hu Hc Hs) as (all_dates & Hcol & Hin & Hlen).
  destruct Rd as (t & Ht & Hroom).
  set (w1 := mkWorld (store w) (S (clock w)) (SaveCalled :: trace w)).
  destruct (resolve_dates_ok env (set_order env all_dates) [] w1 t Hnf Ht)
    as (m & w2 & t2 & Hr & Ht2 & HF & U2 & C2 & S2 & K).
  { rewrite <- (Permutation_length (Hperm all_dates)). lia. }
  cbn [store w1] in U2, C2, S2.
  assert (Hkey : forall e,
             In e (data_users data) \/ In e (data_content data)
             \/ In e (data_site data) ->
             exists i, dict_get m (entry_date e) = Ok i /\ fits_int64 i = true).
  { intros e He.
    destruct (K (entry_date e)) as (i & Hi).
    { left. apply (Permutation_in _ (Hperm all_dates)). now apply Hin. }
    exists i. split; [exact Hi|].
    pose proof (resolve_dates_spec _ _ _ _ _ _ Hr) as (_ & _ & _ & V).
    assert (Hv : valid_map m (store w2)).
    { apply V; [reflexivity|]. intros k v []. }
    apply (dict_get_valid _ _ _ _ Hv) in Hi.
    apply date_id_of_known in Hi. unfold known, dimension in Hi.
    rewrite Ht2 in Hi. cbn [rows_of] in Hi.
    apply in_map_iff in Hi. destruct Hi as (row & <- & Hrow).
    unfold rowids_fit, dimension in Hfit. rewrite Ht in Hfit.
    cbn [rows_of] in Hfit. specialize (HF Hfit).
    rewrite Forall_forall in HF. now apply HF. }
  destruct (insert_rows_ok env _ (user_fact_of m) insert_user_fact
              (fun n db => room (user_interaction db) n
                           /\ content_metrics db = content_metrics (store w)
                           /\ site_data db = site_data (store w))
              (fun e => storable_user e = true
                        /\ exists i, dict_get m (entry_date e) = Ok i
                                     /\ fits_int64 i = true)
              Hnf) with (df := data_users data) (txn := store w2) (w := w2)
    as (txn3 & w3 & H3 & (_ & C3 & S3) & St3).
  { intros row n txn (Hst & Hk) (Hroom' & Hc' & Hs').
    destruct (user_step m row n txn Hst Hk Hroom')
      as (f & db' & Hf & Hi & Hr' & Hc'' & Hs'').
    exists f, db'. repeat split; auto; congruence. }
  { rewrite Forall_forall in *. intros e He. split; [now apply Su|].
    apply Hkey; auto. }
  { rewrite U2. repeat split; auto. }
  destruct (insert_rows_ok env _ (content_fact_of m) insert_content_fact
              (fun n db => room (content_metrics db) n
                           /\ site_data db = site_data (store w))
              (fun e => storable_content e = true
                        /\ exists i, dict_get m (entry_date e) = Ok i
                                     /\ fits_int64 i = true)
              Hnf) with (df := data_content data) (txn := txn3) (w := w3)
    as (txn4 & w4 & H4 & (_ & S4) & St4).
  { intros row n txn (Hst & Hk) (Hroom' & Hs').
    destruct (content_step m row n txn Hst Hk Hroom')
      as (f & db' & Hf & Hi & Hr' & Hs'').
    exists f, db'. repeat split; auto; congruence. }
  { rewrite Forall_forall in *. intros e He. split; [now apply Sc|].
    apply Hkey; auto. }
  { rewrite C3. split; auto. }
  destruct (insert_rows_ok env _ (site_fact_of m) insert_site_fact
              (fun n db => room (site_data db) n)
              (fun e => storable_site e = true
                        /\ exists i, dict_get m (entry_date e) = Ok i
                                     /\ fits_int64 i = true)
              Hnf) with (df := data_site data) (txn := txn4) (w := w4)
    as (txn5 & w5 & H5 & _ & St5).
  { intros row n txn (Hst & Hk) Hroom'.
    destruct (site_step m row n txn Hst Hk Hroom')
      as (f & db' & Hf & Hi & Hr').
    exists f, db'. repeat split; auto. }
  { rewrite Forall_forall in *. intros e He. split; [now apply Ss|].
    apply Hkey; auto. }
  { now rewrite S4. }
  unfold save_data.
  erewrite bind_ok by reflexivity.
  unfold connect. erewrite bind_ok by (apply external_ok, Hnf).
  erewrite try_except_ok; [reflexivity|].
  erewrite bind_ok by (unfold lift; rewrite Hcol; reflexivity).
  erewrite bind_ok by exact Hr.
  erewrite bind_ok by reflexivity.
  erewrite bind_ok by exact H3.
  erewrite bind_ok by exact H4.
  erewrite bind_ok by exact H5.
  erewrite bind_ok.
  2:{ unfold commit. erewrite bind_ok by (apply external_ok, Hnf).
      reflexivity. }
  erewrite bind_ok by reflexivity.
  apply export_all_returns, Hnf.
Qed.

(** The statement on the data of the scenario and a database that has its
    schema. *)
Lemma X15_save_succeeds_on_complete_data_witness :
  fst (save_data Samples.quiet_env Samples.scenario_data Samples.initialised)
  = Ok tt
  /\ resolved_rows Samples.scenario_data (store Samples.initialised)
       (store (snd (save_data Samples.quiet_env Samples.scenario_data
                      Samples.initialised))).
Proof.
  apply X15_save_succeeds_on_complete_data.
  - intros t; reflexivity.
  - intros l; apply Permutation_refl.
  - discriminate.
  - discriminate.
  - discriminate.
  - repeat constructor.
  - repeat constructor.
  - repeat constructor.
  - constructor.
  - eexists; split; [reflexivity | apply Z.leb_le; reflexivity].
  - eexists; split; [reflexivity | apply Z.leb_le; reflexivity].
  - eexists; split; [reflexivity | apply Z.leb_le; reflexivity].
  - eexists; split; [reflexivity | apply Z.leb_le; reflexivity].
Defined.

(** ** Days written and read back *)

Lemma is_digit_digit_char z : is_digit (digit_char z) = true.
Proof.
  unfold digit_char. pose proof (Z.mod_pos_bound z 10 eq_refl) as B.
  set (r := z mod 10) in *. clearbody r.
  assert (H : r = 0 \/ r = 1 \/ r = 2 \/ r = 3 \/ r = 4 \/ r = 5 \/ r = 6
              \/ r = 7 \/ r = 8 \/ r = 9) by lia.
  repeat (destruct H as [->|H]; [reflexivity|]). subst; reflexivity.
Qed.

Lemma match_format_cons d fmt g s :
  match_format (d :: fmt) g s
  = flat_map (fun '(txt, t) => match_format fmt (set_group d txt g) t)
             (re_match (regex_of d) s).
Proof. reflexivity. Qed.

Lemma year_match c1 c2 c3 c4 rest :
  is_digit c1 = true -> is_digit c2 = true -> is_digit c3 = true ->
  is_digit c4 = true ->
  re_match (regex_of DirY) (c1 :: c2 :: c3 :: c4 :: rest)
  = [([c1; c2; c3; c4], rest)].
Proof.
  intros H1 H2 H3 H4. unfold regex_of, digit.
  repeat (cbn [re_match flat_map map app]; rewrite ?H1, ?H2, ?H3, ?H4).
  reflexivity.
Qed.

Lemma year_text y : 1 <= y <= 9999 -> py_int (zpad4 y) = Ok y.
Proof.
  intros H.
  assert (C : check_range 20 1 9999 year_text_ok = true)
    by (vm_compute; reflexivity).
  pose proof (check_range_sound _ _ _ _ C y ltac:(lia)) as P.
  unfold year_text_ok in P.
  destruct (py_int (zpad4 y)) as [v|e]; [|discriminate].
  apply Z.eqb_eq in P. now subst.
Qed.

Lemma in_range k n i :
  Z.of_nat k <= i < Z.of_nat k + Z.of_nat n ->
  In i (map Z.of_nat (List.seq k n)).
Proof.
  intros H. apply in_map_iff. exists (Z.to_nat i).
  split; [lia|]. apply in_seq. lia.
Qed.

(** The month and the day, with and without hyphens, after any year. *)
Lemma month_day_text m d g :
  1 <= m <= 12 -> 1 <= d <= 31 ->
  hd_error (match_format [Lit "-"; Dirm; Lit "-"; Dird] g
              (chars ("-" ++ zpad2 m ++ "-" ++ zpad2 d)))
  = Some (mkgroups (gY g) (Some (zpad2 m)) (Some (zpad2 d)), [])
  /\ hd_error (match_format [Dirm; Dird] g (chars (zpad2 m ++ zpad2 d)))
     = Some (mkgroups (gY g) (Some (zpad2 m)) (Some (zpad2 d)), [])
  /\ py_int (zpad2 m) = Ok m /\ py_int (zpad2 d) = Ok d.
Proof.
  intros Hm Hd.
  assert (Im : In m (map Z.of_nat (List.seq 1 12)))
    by (apply in_range; simpl; lia).
  assert (Id : In d (map Z.of_nat (List.seq 1 31)))
    by (apply in_range; simpl; lia).
  clear Hm Hd. simpl in Im, Id.
  repeat (destruct Im as [<-|Im]; [|]); try contradiction;
  repeat (destruct Id as [<-|Id]; [|]); try contradiction;
  repeat split; reflexivity.
Qed.

Lemma valid_date_bounds d :
  valid_date d ->
  1 <= year d <= 9999 /\ 1 <= month d <= 12 /\ 1 <= day d <= 31.
Proof.
  unfold valid_date. intros V.
  pose proof (valid_month_day_inv _ _ _ (valid_fields_month_day _ _ _ V))
    as (Hm & Hd).
  unfold valid_fields, MINYEAR, MAXYEAR in V.
  repeat (apply andb_true_iff in V; destruct V as (V & ?)).
  apply Z.leb_le in V.
  repeat match goal with H : (_ <=? _) = true |- _ => apply Z.leb_le in H end.
  split; [lia|]. split; [lia|].
  assert (days_in_month (year d) (month d) <= 31); [|lia].
  unfold days_in_month.
  destruct (month_cases _ Hm) as [E|[E|[E|[E|[E|[E|[E|[E|[E|[E|[E|E]]]]]]]]]]];
    rewrite E; destruct (is_leap (year d)); apply Z.leb_le; reflexivity.
Qed.

(** The canonical form is read back by the first parser. *)
Lemma strptime_strftime_iso d :
  valid_date d -> strptime (strftime_iso d) fmt_canonical = Ok d.
Proof.
  intros V. destruct (valid_date_bounds d V) as (Hy & Hm & Hd).
  destruct d as [y m dd]. unfold valid_date in V. cbn [year month day] in *.
  unfold strptime, fmt_canonical.
  change (chars (strftime_iso (mkdate y m dd)))
    with (digit_char (y / 1000) :: digit_char (y / 100) :: digit_char (y / 10)
          :: digit_char y :: chars ("-" ++ zpad2 m ++ "-" ++ zpad2 dd)).
  rewrite match_format_cons, year_match by apply is_digit_digit_char.
  cbn [flat_map]. rewrite app_nil_r.
  destruct (month_day_text m dd
              (set_group DirY [digit_char (y / 1000); digit_char (y / 100);
                               digit_char (y / 10); digit_char y] no_groups)
              Hm Hd) as (H & _ & Pm & Pd).
  destruct (match_format _ _ _) as [|[g rest] l]; [discriminate|].
  cbn [hd_error] in H. injection H as -> ->.
  cbn [gY gm gd set_group no_groups group_int].
  change (String (digit_char (y / 1000))
            (String (digit_char (y / 100))
               (String (digit_char (y / 10)) (String (digit_char y) ""))))
    with (zpad4 y).
  now rewrite (year_text y Hy), Pm, Pd, V.
Qed.

(** The compact form is read back by the second parser. *)
Lemma strptime_compact_form d :
  valid_date d -> strptime (compact_form d) fmt_legacy = Ok d.
Proof.
  intros V. destruct (valid_date_bounds d V) as (Hy & Hm & Hd).
  destruct d as [y m dd]. unfold valid_date in V. cbn [year month day] in *.
  unfold strptime, fmt_legacy.
  change (chars (compact_form (mkdate y m dd)))
    with (digit_char (y / 1000) :: digit_char (y / 100) :: digit_char (y / 10)
          :: digit_char y :: chars (zpad2 m ++ zpad2 dd)).
  rewrite match_format_cons, year_match by apply is_digit_digit_char.
  cbn [flat_map]. rewrite app_nil_r.
  destruct (month_day_text m dd
              (set_group DirY [digit_char (y / 1000); digit_char (y / 100);
                               digit_char (y / 10); digit_char y] no_groups)
              Hm Hd) as (_ & H & Pm & Pd).
  destruct (match_format _ _ _) as [|[g rest] l]; [discriminate|].
  cbn [hd_error] in H. injection H as -> ->.
  cbn [gY gm gd set_group no_groups group_int].
  change (String (digit_char (y / 1000))
            (String (digit_char (y / 100))
               (String (digit_char (y / 10)) (String (digit_char y) ""))))
    with (zpad4 y).
  now rewrite (year_text y Hy), Pm, Pd, V.
Qed.

Lemma format_date_compact_form d :
  format_date (compact_form d) = strftime_iso d.
Proof. reflexivity. Qed.

(** X16: a day of the report is read back as that day.  For every day of
    the calendar, written by the report as eight digits: the text that
    [process_response] stores for it is read by the first parser of
    [get_last_date] as that day, the eight digits themselves are read by
    the fallback parser as that day, and (for a year of four digits) the
    stored text is the text that [main] prints for the bounds of the
    window. *)
Theorem X16_report_days_are_read_back :
  forall d : date,
    valid_date d ->
    strptime (format_date (compact_form d)) fmt_canonical = Ok d
    /\ strptime (compact_form d) fmt_legacy = Ok d
    /\ (1000 <= year d -> format_date (compact_form d) = strftime_iso d).
Proof.
  intros d V. rewrite format_date_compact_form.
  split; [now apply strptime_strftime_iso|].
  split; [now apply strptime_compact_form|]. reflexivity.
Qed.

(** The statement on the leap day of 2024. *)
Lemma X16_report_days_are_read_back_witness :
  strptime (format_date (compact_form (mkdate 2024 2 29))) fmt_canonical
  = Ok (mkdate 2024 2 29)
  /\ strptime (compact_form (mkdate 2024 2 29)) fmt_legacy
     = Ok (mkdate 2024 2 29)
  /\ (1000 <= year (mkdate 2024 2 29) ->
      format_date (compact_form (mkdate 2024 2 29))
      = strftime_iso (mkdate 2024 2 29)).
Proof.
  apply X16_report_days_are_read_back. reflexivity.
Defined.

(** ** The watermark of a dimension in the canonical form *)

Lemma digit_char_compare a b :
  Ascii.compare (digit_char a) (digit_char b) = (a mod 10 ?= b mod 10).
Proof.
  unfold digit_char.
  pose proof (Z.mod_pos_bound a 10 eq_refl) as Ba.
  pose proof (Z.mod_pos_bound b 10 eq_refl) as Bb.
  set (r := a mod 10) in *. set (s := b mod 10) in *. clearbody r s.
  assert (Ir : In r (map Z.of_nat (List.seq 0 10)))
    by (apply in_range; simpl; lia).
  assert (Is : In s (map Z.of_nat (List.seq 0 10)))
    by (apply in_range; simpl; lia).
  clear Ba Bb. simpl in Ir, Is.
  repeat (destruct Ir as [<-|Ir]; [|]); try contradiction;
  repeat (destruct Is as [<-|Is]; [|]); try contradiction;
  reflexivity.
Qed.

Lemma digits4 y :
  0 <= y <= 9999 ->
  exists a b c e,
    (0 <= a <= 9 /\ 0 <= b <= 9 /\ 0 <= c <= 9 /\ 0 <= e <= 9)
    /\ y = 1000 * a + 100 * b + 10 * c + e
    /\ (y / 1000) mod 10 = a /\ (y / 100) mod 10 = b
    /\ (y / 10) mod 10 = c /\ y mod 10 = e.
Proof.
  intros H.
  exists ((y / 1000) mod 10), ((y / 100) mod 10), ((y / 10) mod 10), (y mod 10).
  repeat split; try reflexivity; Z.div_mod_to_equations; lia.
Qed.

Lemma digits2 m :
  0 <= m <= 99 ->
  exists a b,
    (0 <= a <= 9 /\ 0 <= b <= 9)
    /\ m = 10 * a + b /\ (m / 10) mod 10 = a /\ m mod 10 = b.
Proof.
  intros H. exists ((m / 10) mod 10), (m mod 10).
  repeat split; try reflexivity; Z.div_mod_to_equations; lia.
Qed.

Ltac decide_order :=
  cbv iota;
  repeat match goal with
    | |- context [?a <? ?b] => destruct (Z.ltb_spec a b)
    | |- context [?a =? ?b] => destruct (Z.eqb_spec a b)
    end;
  cbn [orb andb]; first [reflexivity | exfalso; lia].

(** On days in the canonical form the order of the texts is the order of
    the days. *)
Lemma strftime_iso_ltb d1 d2 :
  valid_date d1 -> valid_date d2 ->
  String.ltb (strftime_iso d1) (strftime_iso d2) = gt d2 d1.
Proof.
  intros V1 V2.
  destruct (valid_date_bounds d1 V1) as (Hy1 & Hm1 & Hd1).
  destruct (valid_date_bounds d2 V2) as (Hy2 & Hm2 & Hd2).
  destruct d1 as [y1 m1 e1], d2 as [y2 m2 e2]. cbn [year month day] in *.
  clear V1 V2. unfold String.ltb, gt. cbn [year month day].
  change (strftime_iso (mkdate y1 m1 e1))
    with (String (digit_char (y1 / 1000)) (String (digit_char (y1 / 100))
         (String (digit_char (y1 / 10)) (String (digit_char y1)
         (String "-" (String (digit_char (m1 / 10)) (String (digit_char m1)
         (String "-" (String (digit_char (e1 / 10)) (String (digit_char e1)
          ""))))))))))%char.
  change (strftime_iso (mkdate y2 m2 e2))
    with (String (digit_char (y2 / 1000)) (String (digit_char (y2 / 100))
         (String (digit_char (y2 / 10)) (String (digit_char y2)
         (String "-" (String (digit_char (m2 / 10)) (String (digit_char m2)
         (String "-" (String (digit_char (e2 / 10)) (String (digit_char e2)
          ""))))))))))%char.
  cbn [String.compare]. rewrite !digit_char_compare.
  change (Ascii.compare "-" "-") with Eq. cbv iota.
  destruct (digits4 y1) as (a1 & b1 & c1 & f1 & Ba1 & -> & -> & -> & -> & ->);
    [lia|].
  destruct (digits4 y2) as (a2 & b2 & c2 & f2 & Ba2 & -> & -> & -> & -> & ->);
    [lia|].
  destruct (digits2 m1) as (p1 & q1 & Bp1 & -> & -> & ->); [lia|].
  destruct (digits2 m2) as (p2 & q2 & Bp2 & -> & -> & ->); [lia|].
  destruct (digits2 e1) as (s1 & t1 & Bs1 & -> & -> & ->); [lia|].
  destruct (digits2 e2) as (s2 & t2 & Bs2 & -> & -> & ->); [lia|].
  destruct (Z.compare_spec a1 a2); [subst | decide_order..].
  destruct (Z.compare_spec b1 b2); [subst | decide_order..].
  destruct (Z.compare_spec c1 c2); [subst | decide_order..].
  destruct (Z.compare_spec f1 f2); [subst | decide_order..].
  destruct (Z.compare_spec p1 p2); [subst | decide_order..].
  destruct (Z.compare_spec q1 q2); [subst | decide_order..].
  destruct (Z.compare_spec s1 s2); [subst | decide_order..].
  destruct (Z.compare_spec t1 t2); [subst | decide_order..].
  decide_order.
Qed.

Lemma strftime_iso_inj d1 d2 :
  valid_date d1 -> valid_date d2 ->
  strftime_iso d1 = strftime_iso d2 -> d1 = d2.
Proof.
  intros V1 V2 E. apply strptime_strftime_iso in V1, V2.
  rewrite E in V1. congruence.
Qed.

Lemma gt_false_ordinal d1 d2 :
  valid_date d1 -> valid_date d2 ->
  gt d1 d2 = false <-> toordinal d1 <= toordinal d2.
Proof.
  intros V1 V2.
  rewrite (gt_by_ordinal d1 d2) by now apply valid_fields_month_day.
  destruct (Z.leb_spec (toordinal d1) (toordinal d2)); cbn [negb];
    split; intros; first [reflexivity | discriminate | lia].
Qed.

(** [MAX] over texts in the canonical form, from a first one on. *)
Lemma max_of_canonical rows : forall D,
  valid_date D ->
  Forall (fun r : Z * string =>
            exists d, valid_date d /\ snd r = strftime_iso d) rows ->
  exists D',
    valid_date D'
    /\ fold_left (fun acc r =>
                    match acc with
                    | None => Some (snd r)
                    | Some m => Some (text_max m (snd r))
                    end) rows (Some (strftime_iso D))
       = Some (strftime_iso D')
    /\ (D' = D \/ In (strftime_iso D') (map snd rows))
    /\ toordinal D <= toordinal D'
    /\ forall d, valid_date d -> In (strftime_iso d) (map snd rows) ->
                 toordinal d <= toordinal D'.
Proof.
  induction rows as [|r rows IH]; intros D V HF.
  - exists D. cbn [fold_left map In]. repeat split; auto; [lia | tauto].
  - inversion HF as [|? ? (d1 & V1 & E1) HF']; subst.
    cbn [fold_left]. rewrite E1. unfold text_max.
    rewrite (strftime_iso_ltb D d1 V V1).
    destruct (gt d1 D) eqn:G.
    + assert (toordinal D < toordinal d1) as L.
      { apply gt_ordinal; auto using valid_fields_month_day. }
      destruct (IH d1 V1 HF') as (D' & V' & F & I & O & M).
      exists D'. split; [exact V'|]. split; [exact F|].
      split.
      { right. cbn [map In]. destruct I as [->|I]; auto. }
      split; [lia|].
      intros d Vd [E|Hin]; [|now apply M].
      rewrite E1 in E. apply strftime_iso_inj in E; auto. subst. exact O.
    + apply gt_false_ordinal in G; auto.
      destruct (IH D V HF') as (D' & V' & F & I & O & M).
      exists D'. split; [exact V'|]. split; [exact F|].
      split.
      { cbn [map In]. destruct I as [->|I]; auto. }
      split; [lia|].
      intros d Vd [E|Hin]; [|now apply M].
      rewrite E1 in E. apply strftime_iso_inj in E; auto. subst. lia.
Qed.

(** X17: on a dimension in the canonical form the watermark is the latest
    day.  When every stored date is the stored form of a day of the
    calendar, the dimension is not empty and the connection and the query
    of [get_last_date] do not fail, [get_last_date] returns a day of the
    dimension and no day of the dimension is later. *)
Theorem X17_watermark_is_the_latest_day :
  forall (env : Env) (w : World),
    fault env (clock w) = false ->
    fault env (S (clock w)) = false ->
    canonical_dimension (store w) ->
    dimension (store w) <> [] ->
    exists D,
      fst (get_last_date env w) = Ok (Some D)
      /\ valid_date D
      /\ In (format_date (compact_form D)) (map snd (dimension (store w)))
      /\ forall d,
           valid_date d ->
           In (format_date (compact_form d)) (map snd (dimension (store w))) ->
           gt d D = false.
Proof.
  intros env w F0 F1 HC HN.
  unfold canonical_dimension in HC.
  assert (Hsel : exists D,
             valid_date D
             /\ select_max_date (store w) = Ok (Some (strftime_iso D))
             /\ In (strftime_iso D) (map snd (dimension (store w)))
             /\ forall d, valid_date d ->
                  In (strftime_iso d) (map snd (dimension (store w))) ->
                  toordinal d <= toordinal D).
  { unfold select_max_date, dimension in *.
    destruct (dates (store w)) as [t|]; [|now contradiction HN].
    cbn [rows_of the_table] in *.
    destruct (rows t) as [|r rows]; [now contradiction HN|].
    inversion HC as [|? ? (d0 & V0 & E0) HF]; subst.
    change (format_date (compact_form d0)) with (strftime_iso d0) in E0.
    destruct (max_of_canonical rows d0 V0 HF) as (D & V & Fd & I & O & M).
    exists D. split; [exact V|]. cbn [fold_left]. rewrite E0.
    split; [now rewrite Fd|]. split.
    { cbn [map In]. rewrite E0. destruct I as [->|I]; auto. }
    intros d Vd [E|Hin]; [|now apply M].
    rewrite E0 in E. apply strftime_iso_inj in E; auto. subst. exact O. }
  destruct Hsel as (D & V & Hs & I & M).
  exists D.
  destruct (get_last_date env w) as [r w'] eqn:E. cbn [fst].
  apply get_last_date_spec in E. destruct E as (_ & _ & E).
  destruct (E F0) as (last & -> & _ & E'). specialize (E' F1).
  rewrite Hs in E'.
  replace (String.eqb (strftime_iso D) "") with false in E'
    by (destruct D; reflexivity).
  rewrite (strptime_strftime_iso D V) in E'. destruct E' as (-> & _).
  split; [reflexivity|]. split; [exact V|]. split; [exact I|].
  intros d Vd Hin. apply gt_false_ordinal; auto.
Qed.

(** The statement on a dimension of three days stored out of order. *)
Lemma X17_watermark_is_the_latest_day_witness :
  exists D,
    fst (get_last_date Samples.quiet_env
           (Samples.with_dates ["2024-01-15"; "2024-02-01"; "2023-12-31"]))
    = Ok (Some D)
    /\ D = mkdate 2024 2 1.
Proof.
  destruct (X17_watermark_is_the_latest_day Samples.quiet_env
              (Samples.with_dates ["2024-01-15"; "2024-02-01"; "2023-12-31"]))
    as (D & H & _).
  - reflexivity.
  - reflexivity.
  - repeat constructor.
    + exists (mkdate 2024 1 15). split; reflexivity.
    + exists (mkdate 2024 2 1). split; reflexivity.
    + exists (mkdate 2023 12 31). split; reflexivity.
  - discriminate.
  - exists D. split; [exact H|].
    vm_compute in H. congruence.
Defined.

(** ** How the writer can fail *)

Lemma retry_loop_ok A (fn : M A) more : forall w a w',
  retry_loop more fn w = (Ok a, w') -> exists wp, fn wp = (Ok a, w').
Proof.
  induction more as [|k IH]; intros w a w' H; cbn [retry_loop] in H;
    destruct (fn w) as [[b|e] w1] eqn:E.
  - inversion H; subst; eauto.
  - discriminate.
  - inversion H; subst; eauto.
  - eapply IH; eassumption.
Qed.

Lemma process_row_kind type row e :
  process_row type row = Ok e ->
  type = "user" \/ type = "content" \/ type = "site" ->
  entry_kind e = type.
Proof.
  intros H Ht. unfold process_row, rbind in H.
  destruct Ht as [-> | [-> | ->]]; cbn [String.eqb Ascii.eqb Bool.eqb] in H;
    repeat match type of H with
      | match ?x with Ok _ => _ | Raise _ => _ end = _ =>
          destruct x; [|discriminate H]
      end;
    injection H as <-; reflexivity.
Qed.

Lemma process_response_kind type rows df :
  process_response rows type = Ok df ->
  type = "user" \/ type = "content" \/ type = "site" ->
  Forall (fun e => entry_kind e = type) df.
Proof.
  intros H Ht. apply process_response_ok_iff in H.
  induction H as [|row e rows df He _ IH]; constructor; auto.
  eapply process_row_kind; eassumption.
Qed.

(** The frames of a fetch hold the records of their category. *)
Lemma fetch_ga4_data_kind env s e w data w' :
  fetch_ga4_data env s e w = (Ok data, w') -> frames_of_kind data.
Proof.
  unfold fetch_ga4_data, retry. intros H.
  apply retry_loop_ok in H. destruct H as (wp & H).
  unfold fetch_ga4_data_once in H.
  apply bind_ok_inv in H. destruct H as (u0 & w0 & _ & H).
  apply bind_ok_inv in H. destruct H as (u1 & w1 & _ & H).
  apply try_reraise_ok_inv in H.
  apply bind_ok_inv in H. destruct H as (ur & w2 & _ & H).
  apply bind_ok_inv in H. destruct H as (cr & w3 & _ & H).
  apply bind_ok_inv in H. destruct H as (sr & w4 & _ & H).
  apply bind_ok_inv in H. destruct H as (us & w5 & Hu & H).
  apply bind_ok_inv in H. destruct H as (cs & w6 & Hc & H).
  apply bind_ok_inv in H. destruct H as (ss & w7 & Hs & H).
  apply lift_inv in Hu, Hc, Hs.
  destruct Hu as (Hu & _), Hc as (Hc & _), Hs as (Hs & _).
  unfold ret in H. inversion H; subst data.
  unfold frames_of_kind. cbn [data_users data_content data_site].
  repeat split; eapply process_response_kind; eauto.
Qed.

Lemma collect_dates_raise_empty data e :
  collect_dates (values data) [] = Raise e ->
  e = KeyError
  /\ (data_users data = [] \/ data_content data = [] \/ data_site data = []).
Proof.
  intros H. split; [eapply collect_dates_raises; eassumption|].
  destruct (data_users data) as [|u us] eqn:Eu; [auto|].
  destruct (data_content data) as [|c cs] eqn:Ec; [auto|].
  destruct (data_site data) as [|x xs] eqn:Es; [auto|].
  destruct (collect_dates_ok data) as (l & Hl & _);
    [rewrite Eu | rewrite Ec | rewrite Es | ]; try discriminate.
  congruence.
Qed.

Lemma collect_dates_ok_inv data l :
  collect_dates (values data) [] = Ok l ->
  data_users data <> [] /\ data_content data <> [] /\ data_site data <> [].
Proof.
  intros H.
  assert (N : ~ In [] (values data)).
  { intros Hin. rewrite (collect_dates_empty_frame _ _ Hin) in H.
    discriminate. }
  unfold values in N. cbn [In] in N.
  repeat split; intros E; apply N; rewrite E; auto.
Qed.

Lemma get_or_create_date_id_operational env d w e w' :
  get_or_create_date_id env d w = (Raise e, w') -> e = OperationalError.
Proof.
  cbv beta delta [get_or_create_date_id connect try_except bind query execute
    commit get_store put_store lift log emit raise ret external]; simpl.
  destruct (fault env (clock w)); simpl; [intros [= <- _]; reflexivity|].
  destruct (fault env (S (clock w))); simpl; [intros [= <- _]; reflexivity|].
  destruct (select_date_id d (store w)) as [[i|]|e0] eqn:Esel; simpl.
  - discriminate.
  - destruct (fault env (S (S (clock w)))); simpl;
      [intros [= <- _]; reflexivity|].
    destruct (insert_date d (store w)) as [[i db']|e0] eqn:Eins; simpl.
    + destruct (fault env (S (S (S (clock w))))); simpl;
        [intros [= <- _]; reflexivity | discriminate].
    + intros [= <- _].
      pose proof (select_none_insert_no_conflict _ _ _ Esel Eins) as Hne.
      unfold insert_date, the_table in Eins.
      destruct (dates (store w)) as [t|]; [|congruence].
      destruct (existsb _ _); [congruence|].
      unfold insert_auto in Eins; cbv zeta in Eins.
      destruct (MAX_ROWID <=? _); [congruence | discriminate].
  - intros [= <- _]. unfold select_date_id, the_table in Esel.
    destruct (dates (store w)); [discriminate | congruence].
Qed.

Lemma resolve_dates_outcome env l : forall m w r w',
  resolve_dates env l m w = (r, w') ->
  match r with
  | Raise e => e = OperationalError
  | Ok m' => forall d, In d l \/ (exists i, dict_get m d = Ok i) ->
                       exists i, dict_get m' d = Ok i
  end.
Proof.
  induction l as [|d0 l IH]; cbn [resolve_dates]; intros m w r w' H.
  - unfold ret in H. inversion H; subst. intros d [[]|Hk]; exact Hk.
  - apply bind_inv in H. destruct H as [(i & w1 & Hg & H) | (e & Hg & ->)].
    + apply IH in H. destruct r as [m'|e]; [|exact H].
      intros d [[<-|Hin]|Hk]; apply H; auto.
      * right. eexists. apply dict_get_cons_same.
      * right. now apply dict_get_cons_key.
    + eapply get_or_create_date_id_operational; eassumption.
Qed.

Lemma user_fact_of_ok m e :
  entry_kind e = "user" ->
  (exists i, dict_get m (entry_date e) = Ok i) ->
  exists f, user_fact_of m e = Ok f.
Proof.
  intros Hk (i & Hi). destruct e; try discriminate. cbn [entry_date] in Hi.
  unfold user_fact_of, row_str, row_int, row_float, rbind; simpl.
  rewrite Hi. eauto.
Qed.

Lemma content_fact_of_ok m e :
  entry_kind e = "content" ->
  (exists i, dict_get m (entry_date e) = Ok i) ->
  exists f, content_fact_of m e = Ok f.
Proof.
  intros Hk (i & Hi). destruct e; try discriminate. cbn [entry_date] in Hi.
  unfold content_fact_of, row_str, row_int, row_float, rbind; simpl.
  rewrite Hi. eauto.
Qed.

Lemma site_fact_of_ok m e :
  entry_kind e = "site" ->
  (exists i, dict_get m (entry_date e) = Ok i) ->
  exists f, site_fact_of m e = Ok f.
Proof.
  intros Hk (i & Hi). destruct e; try discriminate. cbn [entry_date] in Hi.
  unfold site_fact_of, row_str, row_int, row_float, rbind; simpl.
  rewrite Hi. eauto.
Qed.

Lemma insert_auto_operational R (r : R) t e :
  insert_auto r t = Raise e -> e = OperationalError.
Proof.
  unfold insert_auto; cbv zeta. destruct (MAX_ROWID <=? _); [|discriminate].
  congruence.
Qed.

Lemma insert_user_fact_outcome f db e :
  insert_user_fact f db = Raise e -> e = OverflowError \/ e = OperationalError.
Proof.
  unfold insert_user_fact, the_table.
  destruct (negb _); [intros [= <-]; auto|].
  destruct (user_interaction db) as [t|]; [|intros [= <-]; auto].
  destruct (insert_auto f t) as [[i t']|e'] eqn:E; [discriminate|].
  intros [= <-]. right. eapply insert_auto_operational; eassumption.
Qed.

Lemma insert_content_fact_outcome f db e :
  insert_content_fact f db = Raise e ->
  e = OverflowError \/ e = OperationalError.
Proof.
  unfold insert_content_fact, the_table.
  destruct (negb _); [intros [= <-]; auto|].
  destruct (content_metrics db) as [t|]; [|intros [= <-]; auto].
  destruct (insert_auto f t) as [[i t']|e'] eqn:E; [discriminate|].
  intros [= <-]. right. eapply insert_auto_operational; eassumption.
Qed.

Lemma insert_site_fact_outcome f db e :
  insert_site_fact f db = Raise e -> e = OverflowError \/ e = OperationalError.
Proof.
  unfold insert_site_fact, the_table.
  destruct (negb _); [intros [= <-]; auto|].
  destruct (site_data db) as [t|]; [|intros [= <-]; auto].
  destruct (insert_auto f t) as [[i t']|e'] eqn:E; [discriminate|].
  intros [= <-]. right. eapply insert_auto_operational; eassumption.
Qed.

(** A loop whose rows all give their parameters fails only in its
    statement. *)
Lemma insert_rows_outcome env F (fact_of : entry -> result F)
      (insert : F -> DB -> result DB) :
  (forall f db e, insert f db = Raise e ->
                  e = OverflowError \/ e = OperationalError) ->
  forall df txn w e w',
    Forall (fun row => exists f, fact_of row = Ok f) df ->
    insert_rows env fact_of insert df txn w = (Raise e, w') ->
    e = OverflowError \/ e = OperationalError.
Proof.
  intros Hins.
  induction df as [|row rest IH]; cbn [insert_rows]; intros txn w e w' HF H;
    [discriminate|].
  inversion HF as [|? ? (f0 & Hf0) HF']; subst.
  apply bind_inv in H. destruct H as [(f & w1 & Hf & H) | (e' & Hf & [= ->])].
  - apply bind_inv in H. destruct H as [(t & w2 & Hx & H) | (e' & Hx & [= ->])].
    + eapply IH; eassumption.
    + unfold execute in Hx. apply bind_inv in Hx.
      destruct Hx as [(u & w3 & _ & Hx) | (e2 & He & [= ->])].
      * apply lift_inv in Hx. destruct Hx as (Hx & _).
        eapply Hins; eauto.
      * right. eapply external_raises; eassumption.
  - apply lift_inv in Hf. destruct Hf as (Hf & _). congruence.
Qed.

Lemma export_all_outcome env l : forall w e w',
  export_all env l w = (Raise e, w') -> e = OSError.
Proof.
  induction l as [|t l IH]; cbn [export_all]; intros w e w' H;
    [discriminate|].
  apply bind_inv in H. destruct H as [(u & w1 & _ & H) | (e' & Ht & [= ->])].
  - eapply IH; eassumption.
  - unfold to_csv in Ht. apply bind_inv in Ht.
    destruct Ht as [(u & w1 & _ & Ht) | (e2 & He & [= ->])].
    + apply emit_inv in Ht. destruct Ht as ([=] & _).
    + eapply external_raises; eassumption.
Qed.

(** X18: how the writer can fail on the data of a fetch.  When [save_data]
    raises on data returned by [fetch_ga4_data], the set of dates being
    iterated as some arrangement of its elements: a [KeyError] means that
    one of the three frames is empty -- no column and no date is ever
    missing for a record -- and every other failure is an error of the
    database, an integer too large for its column, or an error of the
    export. *)
Theorem X18_writer_failures_on_fetched_data :
  forall (env : Env) (s e : string) (w0 w1 w w' : World) (data : Data)
         (x : exn),
    fetch_ga4_data env s e w0 = (Ok data, w1) ->
    (forall l, Permutation l (set_order env l)) ->
    save_data env data w = (Raise x, w') ->
    (x = KeyError
     /\ (data_users data = [] \/ data_content data = []
         \/ data_site data = []))
    \/ x = OperationalError \/ x = OverflowError \/ x = OSError.
Proof.
  intros env s e w0 w1 w w' data x Hfetch Hperm H.
  apply fetch_ga4_data_kind in Hfetch. destruct Hfetch as (Ku & Kc & Ks).
  unfold save_data in H.
  apply bind_inv in H. destruct H as [(u0 & wa & _ & H) | (e0 & He & _)];
    [|apply emit_inv in He; destruct He as ([=] & _)].
  apply bind_inv in H. destruct H as [(u1 & wb & _ & H) | (e0 & Hc & [= ->])];
    [|right; left; eapply external_raises; eassumption].
  apply try_reraise_inv in H. destruct H as (wc & H & _).
  apply bind_inv in H. destruct H as [(l & wd & Hl & H) | (e0 & Hl & [= ->])].
  2:{ apply lift_inv in Hl. destruct Hl as (Hl & _).
      left. symmetry in Hl. now apply collect_dates_raise_empty in Hl. }
  apply lift_inv in Hl. destruct Hl as (Hl & ->). symmetry in Hl.
  assert (Hin : forall r, In r (data_users data) \/ In r (data_content data)
                          \/ In r (data_site data) -> In (entry_date r) l).
  { destruct (collect_dates_ok_inv data l Hl) as (Nu & Nc & Ns).
    destruct (collect_dates_ok data Nu Nc Ns) as (l' & Hl' & Hin & _).
    assert (l' = l) by congruence. now subst l'. }
  apply bind_inv in H. destruct H as [(m & we & Hr & H) | (e0 & Hr & [= ->])].
  2:{ apply resolve_dates_outcome in Hr. auto. }
  apply resolve_dates_outcome in Hr.
  assert (Hkey : forall r, In r (data_users data) \/ In r (data_content data)
                           \/ In r (data_site data) ->
                           exists i, dict_get m (entry_date r) = Ok i).
  { intros r Hr'. apply Hr. left.
    apply (Permutation_in _ (Hperm l)). now apply Hin. }
  apply bind_inv in H. destruct H as [(t0 & wf & _ & H) | (e0 & Hg & _)];
    [|discriminate].
  apply bind_inv in H. destruct H as [(t1 & wg & _ & H) | (e0 & Hi & [= ->])].
  2:{ apply insert_rows_outcome in Hi;
        [tauto | apply insert_user_fact_outcome |].
      rewrite Forall_forall in *. intros r Hr'.
      apply user_fact_of_ok; auto. }
  apply bind_inv in H. destruct H as [(t2 & wh & _ & H) | (e0 & Hi & [= ->])].
  2:{ apply insert_rows_outcome in Hi;
        [tauto | apply insert_content_fact_outcome |].
      rewrite Forall_forall in *. intros r Hr'.
      apply content_fact_of_ok; auto. }
  apply bind_inv in H. destruct H as [(t3 & wi & _ & H) | (e0 & Hi & [= ->])].
  2:{ apply insert_rows_outcome in Hi;
        [tauto | apply insert_site_fact_outcome |].
      rewrite Forall_forall in *. intros r Hr'.
      apply site_fact_of_ok; auto. }
  apply bind_inv in H. destruct H as [(u2 & wj & _ & H) | (e0 & Hc & [= ->])].
  2:{ unfold commit in Hc. apply bind_inv in Hc.
      destruct Hc as [(u3 & wk & _ & Hp) | (e1 & He & [= ->])];
        [discriminate|].
      right; left. eapply external_raises; eassumption. }
  apply bind_inv in H. destruct H as [(u3 & wk & _ & H) | (e0 & Hlog & _)];
    [|apply emit_inv in Hlog; destruct Hlog as ([=] & _)].
  apply export_all_outcome in H. auto.
Qed.

(** The statement on the data of the scenario, fetched at once and saved
    when the database cannot be opened. *)
Lemma X18_writer_failures_on_fetched_data_witness :
  exists data x,
    fst (fetch_ga4_data (Samples.failing_at 50) "2024-01-01" "2024-01-31"
           Samples.initialised) = Ok data
    /\ fst (save_data (Samples.failing_at 50) data
              (mkWorld (store Samples.initialised) 50 [])) = Raise x
    /\ ((x = KeyError
         /\ (data_users data = [] \/ data_content data = []
             \/ data_site data = []))
        \/ x = OperationalError \/ x = OverflowError \/ x = OSError).
Proof.
  eexists. eexists.
  split; [vm_compute; reflexivity|].
  split; [vm_compute; reflexivity|].
  eapply (X18_writer_failures_on_fetched_data (Samples.failing_at 50)
            "2024-01-01" "2024-01-31" Samples.initialised _
            (mkWorld (store Samples.initialised) 50 [])).
  - vm_compute; reflexivity.
  - intros l; apply Permutation_refl.
  - vm_compute; reflexivity.
Defined.

(** ** The watermark of a dimension in the form of before the conversion *)

Lemma hyphen_is_no_digit z : Ascii.eqb "-" (digit_char z) = false.
Proof.
  unfold digit_char. pose proof (Z.mod_pos_bound z 10 eq_refl) as B.
  set (r := z mod 10) in *. clearbody r.
  assert (H : r = 0 \/ r = 1 \/ r = 2 \/ r = 3 \/ r = 4 \/ r = 5 \/ r = 6
              \/ r = 7 \/ r = 8 \/ r = 9) by lia.
  repeat (destruct H as [->|H]; [reflexivity|]). subst; reflexivity.
Qed.

(** The first parser refuses the eight digits: the fallback is taken. *)
Lemma strptime_canonical_refuses_compact d :
  strptime (compact_form d) fmt_canonical = Raise ValueError.
Proof.
  destruct d as [y m dd]. unfold strptime, fmt_canonical.
  change (chars (compact_form (mkdate y m dd)))
    with (digit_char (y / 1000) :: digit_char (y / 100) :: digit_char (y / 10)
          :: digit_char y :: digit_char (m / 10)
          :: chars (of_chars [digit_char m] ++ zpad2 dd)).
  rewrite match_format_cons, year_match by apply is_digit_digit_char.
  cbn [flat_map]. rewrite match_format_cons.
  cbn [regex_of re_match]. unfold chr. cbn [re_match].
  rewrite hyphen_is_no_digit. reflexivity.
Qed.

Lemma compact_form_ltb d1 d2 :
  valid_date d1 -> valid_date d2 ->
  String.ltb (compact_form d1) (compact_form d2) = gt d2 d1.
Proof.
  intros V1 V2.
  destruct (valid_date_bounds d1 V1) as (Hy1 & Hm1 & Hd1).
  destruct (valid_date_bounds d2 V2) as (Hy2 & Hm2 & Hd2).
  destruct d1 as [y1 m1 e1], d2 as [y2 m2 e2]. cbn [year month day] in *.
  clear V1 V2. unfold String.ltb, gt. cbn [year month day].
  change (compact_form (mkdate y1 m1 e1))
    with (String (digit_char (y1 / 1000)) (String (digit_char (y1 / 100))
         (String (digit_char (y1 / 10)) (String (digit_char y1)
         (String (digit_char (m1 / 10)) (String (digit_char m1)
         (String (digit_char (e1 / 10)) (String (digit_char e1) "")))))))).
  change (compact_form (mkdate y2 m2 e2))
    with (String (digit_char (y2 / 1000)) (String (digit_char (y2 / 100))
         (String (digit_char (y2 / 10)) (String (digit_char y2)
         (String (digit_char (m2 / 10)) (String (digit_char m2)
         (String (digit_char (e2 / 10)) (String (digit_char e2) "")))))))).
  cbn [String.compare]. rewrite !digit_char_compare.
  destruct (digits4 y1) as (a1 & b1 & c1 & f1 & Ba1 & -> & -> & -> & -> & ->);
    [lia|].
  destruct (digits4 y2) as (a2 & b2 & c2 & f2 & Ba2 & -> & -> & -> & -> & ->);
    [lia|].
  destruct (digits2 m1) as (p1 & q1 & Bp1 & -> & -> & ->); [lia|].
  destruct (digits2 m2) as (p2 & q2 & Bp2 & -> & -> & ->); [lia|].
  destruct (digits2 e1) as (s1 & t1 & Bs1 & -> & -> & ->); [lia|].
  destruct (digits2 e2) as (s2 & t2 & Bs2 & -> & -> & ->); [lia|].
  destruct (Z.compare_spec a1 a2); [subst | decide_order..].
  destruct (Z.compare_spec b1 b2); [subst | decide_order..].
  destruct (Z.compare_spec c1 c2); [subst | decide_order..].
  destruct (Z.compare_spec f1 f2); [subst | decide_order..].
  destruct (Z.compare_spec p1 p2); [subst | decide_order..].
  destruct (Z.compare_spec q1 q2); [subst | decide_order..].
  destruct (Z.compare_spec s1 s2); [subst | decide_order..].
  destruct (Z.compare_spec t1 t2); [subst | decide_order..].
  decide_order.
Qed.

Lemma compact_form_inj d1 d2 :
  valid_date d1 -> valid_date d2 ->
  compact_form d1 = compact_form d2 -> d1 = d2.
Proof.
  intros V1 V2 E. apply strptime_compact_form in V1, V2.
  rewrite E in V1. congruence.
Qed.

Lemma max_of_legacy rows : forall D,
  valid_date D ->
  Forall (fun r : Z * string =>
            exists d, valid_date d /\ snd r = compact_form d) rows ->
  exists D',
    valid_date D'
    /\ fold_left (fun acc r =>
                    match acc with
                    | None => Some (snd r)
                    | Some m => Some (text_max m (snd r))
                    end) rows (Some (compact_form D))
       = Some (compact_form D')
    /\ (D' = D \/ In (compact_form D') (map snd rows))
    /\ toordinal D <= toordinal D'
    /\ forall d, valid_date d -> In (compact_form d) (map snd rows) ->
                 toordinal d <= toordinal D'.
Proof.
  induction rows as [|r rows IH]; intros D V HF.
  - exists D. cbn [fold_left map In]. repeat split; auto; [lia | tauto].
  - inversion HF as [|? ? (d1 & V1 & E1) HF']; subst.
    cbn [fold_left]. rewrite E1. unfold text_max.
    rewrite (compact_form_ltb D d1 V V1).
    destruct (gt d1 D) eqn:G.
    + assert (toordinal D < toordinal d1) as L.
      { apply gt_ordinal; auto using valid_fields_month_day. }
      destruct (IH d1 V1 HF') as (D' & V' & F & I & O & M).
      exists D'. split; [exact V'|]. split; [exact F|].
      split.
      { right. cbn [map In]. destruct I as [->|I]; auto. }
      split; [lia|].
      intros d Vd [E|Hin]; [|now apply M].
      rewrite E1 in E. apply compact_form_inj in E; auto. subst. exact O.
    + apply gt_false_ordinal in G; auto.
      destruct (IH D V HF') as (D' & V' & F & I & O & M).
      exists D'. split; [exact V'|]. split; [exact F|].
      split.
      { cbn [map In]. destruct I as [->|I]; auto. }
      split; [lia|].
      intros d Vd [E|Hin]; [|now apply M].
      rewrite E1 in E. apply compact_form_inj in E; auto. subst. lia.
Qed.

(** X19: the fallback parser keeps an old database working.  When every
    stored date is still the eight digits of a day of the calendar, the
    dimension is not empty, and the connection and the query of
    [get_last_date] do not fail, the first parser refuses the largest text,
    the fallback reads it, and [get_last_date] returns a day of the
    dimension than which no day of the dimension is later. *)
Theorem X19_watermark_of_a_legacy_dimension :
  forall (env : Env) (w : World),
    fault env (clock w) = false ->
    fault env (S (clock w)) = false ->
    legacy_dimension (store w) ->
    dimension (store w) <> [] ->
    exists D,
      fst (get_last_date env w) = Ok (Some D)
      /\ valid_date D
      /\ In (compact_form D) (map snd (dimension (store w)))
      /\ strptime (compact_form D) fmt_canonical = Raise ValueError
      /\ forall d,
           valid_date d ->
           In (compact_form d) (map snd (dimension (store w))) ->
           gt d D = false.
Proof.
  intros env w F0 F1 HC HN.
  unfold legacy_dimension in HC.
  assert (Hsel : exists D,
             valid_date D
             /\ select_max_date (store w) = Ok (Some (compact_form D))
             /\ In (compact_form D) (map snd (dimension (store w)))
             /\ forall d, valid_date d ->
                  In (compact_form d) (map snd (dimension (store w))) ->
                  toordinal d <= toordinal D).
  { unfold select_max_date, dimension in *.
    destruct (dates (store w)) as [t|]; [|now contradiction HN].
    cbn [rows_of the_table] in *.
    destruct (rows t) as [|r rows]; [now contradiction HN|].
    inversion HC as [|? ? (d0 & V0 & E0) HF]; subst.
    destruct (max_of_legacy rows d0 V0 HF) as (D & V & Fd & I & O & M).
    exists D. split; [exact V|]. cbn [fold_left]. rewrite E0.
    split; [now rewrite Fd|]. split.
    { cbn [map In]. rewrite E0. destruct I as [->|I]; auto. }
    intros d Vd [E|Hin]; [|now apply M].
    rewrite E0 in E. apply compact_form_inj in E; auto. subst. exact O. }
  destruct Hsel as (D & V & Hs & I & M).
  exists D.
  destruct (get_last_date env w) as [r w'] eqn:E. cbn [fst].
  apply get_last_date_spec in E. destruct E as (_ & _ & E).
  destruct (E F0) as (last & -> & _ & E'). specialize (E' F1).
  rewrite Hs in E'.
  replace (String.eqb (compact_form D) "") with false in E'
    by (destruct D; reflexivity).
  rewrite (strptime_canonical_refuses_compact D) in E'.
  rewrite (strptime_compact_form D V) in E'. destruct E' as (-> & _).
  split; [reflexivity|]. split; [exact V|]. split; [exact I|].
  split; [apply strptime_canonical_refuses_compact|].
  intros d Vd Hin. apply gt_false_ordinal; auto.
Qed.

(** The statement on a dimension of three days in the old form, stored out
    of order. *)
Lemma X19_watermark_of_a_legacy_dimension_witness :
  exists D,
    fst (get_last_date Samples.quiet_env
           (Samples.with_dates ["20240115"; "20240201"; "20231231"]))
    = Ok (Some D)
    /\ D = mkdate 2024 2 1.
Proof.
  destruct (X19_watermark_of_a_legacy_dimension Samples.quiet_env
              (Samples.with_dates ["20240115"; "20240201"; "20231231"]))
    as (D & H & _).
  - reflexivity.
  - reflexivity.
  - repeat constructor.
    + exists (mkdate 2024 1 15). split; reflexivity.
    + exists (mkdate 2024 2 1). split; reflexivity.
    + exists (mkdate 2023 12 31). split; reflexivity.
  - discriminate.
  - exists D. split; [exact H|].
    vm_compute in H. congruence.
Defined.

(** ** What retrying cannot mend *)

Lemma retry_loop_all_fail A (fn : M A) more :
  (forall w, is_ok (fst (fn w)) = false) ->
  forall w, fst (retry_loop more fn w) = Raise RetryError.
Proof.
  intros Hfail. induction more as [|k IH]; intros w; cbn [retry_loop];
    specialize (Hfail w); destruct (fn w) as [[a|e] w1];
    cbn [fst is_ok] in *; try discriminate; auto.
Qed.

Lemma fetch_ga4_data_once_malformed env s e w :
  (forall t, is_ok (process_response (report env t (user_request env s e))
                      "user") = false)
  \/ (forall t, is_ok (process_response (report env t (content_request env s e))
                         "content") = false)
  \/ (forall t, is_ok (process_response (report env t (site_request env s e))
                         "site") = false) ->
  is_ok (fst (fetch_ga4_data_once env s e w)) = false.
Proof.
  intros H.
  cbv beta delta [fetch_ga4_data_once run_report try_except bind lift now
    log emit raise ret external]; simpl.
  repeat match goal with
    | |- context [if fault env ?c then _ else _] =>
        destruct (fault env c); simpl; try reflexivity
    end.
  destruct H as [H|[H|H]];
    repeat match goal with
      | |- context [process_response (report env ?t ?rq) ?ty] =>
          let E := fresh "E" in
          destruct (process_response (report env t rq) ty) eqn:E;
          simpl; try reflexivity;
          try (pose proof (H t) as F; rewrite E in F; discriminate F)
      end.
Qed.

(** X20: retrying cannot mend an answer that does not convert.  When at
    every time the answer to one of the three requests has a row that
    [process_response] cannot convert, the fetch makes its three attempts
    and raises tenacity's error, whatever else succeeds; the database is
    untouched and the writer is not called. *)
Theorem X20_malformed_answers_exhaust_the_retries :
  forall (env : Env) (s e : string) (w : World),
    (forall t, is_ok (process_response (report env t (user_request env s e))
                        "user") = false)
    \/ (forall t, is_ok (process_response (report env t (content_request env s e))
                           "content") = false)
    \/ (forall t, is_ok (process_response (report env t (site_request env s e))
                           "site") = false) ->
    fst (fetch_ga4_data env s e w) = Raise RetryError
    /\ attempts (trace (snd (fetch_ga4_data env s e w)))
       = (attempts (trace w) + 3)%nat
    /\ store (snd (fetch_ga4_data env s e w)) = store w
    /\ saves (trace (snd (fetch_ga4_data env s e w))) = saves (trace w).
Proof.
  intros env s e w H.
  assert (R : fst (fetch_ga4_data env s e w) = Raise RetryError).
  { unfold fetch_ga4_data, retry. apply retry_loop_all_fail.
    intros w1. now apply fetch_ga4_data_once_malformed. }
  destruct (fetch_ga4_data env s e w) as [r w'] eqn:E. cbn [fst snd] in *.
  subst r. apply fetch_ga4_data_spec in E.
  destruct E as (S & V & _ & _ & X). destruct (X _ eq_refl) as (_ & A).
  auto.
Qed.

(** The statement on an API whose every answer has a metric that is no
    number. *)
Lemma X20_malformed_answers_exhaust_the_retries_witness :
  fst (fetch_ga4_data Scenarios.malformed_env "2024-01-01" "2024-01-31"
         Samples.initialised) = Raise RetryError
  /\ attempts (trace (snd (fetch_ga4_data Scenarios.malformed_env
                             "2024-01-01" "2024-01-31" Samples.initialised)))
     = 3%nat.
Proof.
  destruct (X20_malformed_answers_exhaust_the_retries Scenarios.malformed_env
              "2024-01-01" "2024-01-31" Samples.initialised) as (R & A & _).
  - left. intros t. reflexivity.
  - split; [exact R | exact A].
Defined.
